(** * NVH synthetic dataset generator: a shallow embedding of
      [vehicle_master.py] and the properties of its three tables and of
      its report driver.

    The script draws from two seeded generators (Python's [random] and
    NumPy's global generator, the latter through [DataFrame.sample]).  The
    seeds fix one sequence of draws each; here a generator is an arbitrary
    sequence of raw draws with a read position, so a statement proved for
    every sequence holds for the seeded one.

    Python floats are carried as exact rationals: [random.random()] is
    [k / 2^53] for a 53-bit [k], which is exact, and the numeric columns
    hold the real value of the expression that produced them (binary64
    rounding of those sums and products is outside the model). *)

From Stdlib Require Import ZArith QArith Qround String Ascii List Lia
  Lqa DecimalString Bool.
Import ListNotations.

Local Open Scope string_scope.
Local Open Scope Z_scope.

(* ================================================================== *)
(** ** Python values, dictionaries and exceptions *)

Inductive value : Type :=
| VNone
| VStr (s : string)
| VInt (z : Z)
| VFloat (q : Q).

(** A dict literal keeps insertion order; every dict of the script is a
    literal with distinct keys. *)
Definition dict : Type := list (string * value).

Inductive exn : Type :=
| KeyError (key : string)
| IndexError
| ValueError
| TypeError.

Inductive outcome (A : Type) : Type :=
| Ok (a : A)
| Raise (e : exn).
Arguments Ok {A} a.
Arguments Raise {A} e.

(** Computations over a state [S] that may raise; the state reached when
    an exception is raised is kept (effects before the raise persist). *)
Definition M (S A : Type) : Type := S -> outcome A * S.

Definition ret {S A} (a : A) : M S A := fun s => (Ok a, s).

Definition raise {S A} (e : exn) : M S A := fun s => (Raise e, s).

Definition bind {S A B} (m : M S A) (k : A -> M S B) : M S B :=
  fun s => match m s with
           | (Ok a, s') => k a s'
           | (Raise e, s') => (Raise e, s')
           end.

Notation "x <- m ;; k" := (bind m (fun x => k))
  (at level 61, m at next level, right associativity).
Notation "m ;;; k" := (bind m (fun _ => k))
  (at level 61, right associativity).

Definition of_outcome {S A} (o : outcome A) : M S A := fun s => (o, s).

(** [for x in xs: acc = body x acc], the accumulator being the local list
    the loop appends to. *)
Fixpoint for_ {S A X} (xs : list X) (body : X -> A -> M S A) (acc : A)
  : M S A :=
  match xs with
  | [] => ret acc
  | x :: rest => acc' <- body x acc ;; for_ rest body acc'
  end.

(** [range(a, b)] *)
Definition range (a b : Z) : list Z :=
  map (fun k => a + Z.of_nat k) (seq 0 (Z.to_nat (b - a))).

Definition value_eqb (a b : value) : bool :=
  match a, b with
  | VNone, VNone => true
  | VStr s, VStr t => String.eqb s t
  | VInt x, VInt y => Z.eqb x y
  | VFloat x, VFloat y => Qeq_bool x y
  | VInt x, VFloat y | VFloat y, VInt x => Qeq_bool (inject_Z x) y
  | _, _ => false
  end.

Definition keys (d : dict) : list string := map fst d.

Fixpoint dict_get (d : dict) (k : string) : option value :=
  match d with
  | [] => None
  | (k', v) :: rest => if String.eqb k' k then Some v else dict_get rest k
  end.

(** [d[k]] *)
Definition getitem (d : dict) (k : string) : outcome value :=
  match dict_get d k with
  | Some v => Ok v
  | None => Raise (KeyError k)
  end.

(** [sub in s] on strings *)
Fixpoint contains (sub s : string) : bool :=
  if prefix sub s then true
  else match s with
       | EmptyString => false
       | String _ rest => contains sub rest
       end.

(** [s * n] *)
Fixpoint str_mul (s : string) (n : nat) : string :=
  match n with
  | O => ""
  | S n' => s ++ str_mul s n'
  end.

(** [str(n)] for an integer *)
Definition str (n : Z) : string :=
  if n <? 0
  then "-" ++ NilEmpty.string_of_uint (N.to_uint (Z.to_N (- n)))
  else NilEmpty.string_of_uint (N.to_uint (Z.to_N n)).

(** [f"{n:0wd}"]: decimal, zero-padded on the left to width [w] *)
Definition format_0d (w : nat) (n : Z) : string :=
  if n <? 0
  then let digits := NilEmpty.string_of_uint (N.to_uint (Z.to_N (- n))) in
       "-" ++ str_mul "0" (w - 1 - String.length digits) ++ digits
  else let digits := NilEmpty.string_of_uint (N.to_uint (Z.to_N n)) in
       str_mul "0" (w - String.length digits) ++ digits.

Definition Qgtb (x y : Q) : bool := negb (Qle_bool x y).
Definition Qltb (x y : Q) : bool := negb (Qle_bool y x).

(** Round to the nearest integer, ties to even. *)
Definition round_half_even (x : Q) : Z :=
  let f := Qfloor x in
  let d := (x - inject_Z f)%Q in
  if Qltb d (1 # 2) then f
  else if Qgtb d (1 # 2) then f + 1
  else if Z.even f then f else f + 1.

(** [round(x, n)] *)
Definition round (x : Q) (n : nat) : Q :=
  let p := Z.pow 10 (Z.of_nat n) in
  Qred (inject_Z (round_half_even (x * inject_Z p)) / inject_Z p)%Q.

(** [f"{x:.nf}"] *)
Definition format_f (n : nat) (x : Q) : string :=
  let p := Z.pow 10 (Z.of_nat n) in
  let r := Z.abs (round_half_even (x * inject_Z p)) in
  (if Qltb x 0 then "-" else "") ++ str (r / p) ++
  (match n with
   | O => ""
   | _ => "." ++ format_0d n (r mod p)
   end).

(** [int(x)]: truncation toward zero *)
Definition int (x : Q) : Z :=
  if Qltb x 0 then - Qfloor (- x) else Qfloor x.

(* ================================================================== *)
(** ** [datetime]: proleptic Gregorian dates with a time of day *)

Module datetime.

Record t : Type := mk { ordinal : Z; second : Z }.

(** Days from 1970-01-01 to the civil date [y-m-d]. *)
Definition days_from_civil (y m d : Z) : Z :=
  let y' := if m <=? 2 then y - 1 else y in
  let era := y' / 400 in
  let yoe := y' - era * 400 in
  let doy := (153 * (if m >? 2 then m - 3 else m + 9) + 2) / 5 + d - 1 in
  let doe := yoe * 365 + yoe / 4 - yoe / 100 + doy in
  era * 146097 + doe - 719468.

(** The civil date of a day number. *)
Definition civil_from_days (z : Z) : Z * Z * Z :=
  let z := z + 719468 in
  let era := z / 146097 in
  let doe := z - era * 146097 in
  let yoe := (doe - doe / 1460 + doe / 36524 - doe / 146096) / 365 in
  let doy := doe - (365 * yoe + yoe / 4 - yoe / 100) in
  let mp := (5 * doy + 2) / 153 in
  let d := doy - (153 * mp + 2) / 5 + 1 in
  let m := if mp <? 10 then mp + 3 else mp - 9 in
  ((if m <=? 2 then yoe + era * 400 + 1 else yoe + era * 400), m, d).

(** [datetime(y, m, d)] *)
Definition datetime (y m d : Z) : t := mk (days_from_civil y m d) 0.

(** [dt + timedelta(days=days, hours=hours)] *)
Definition add_timedelta (dt : t) (days hours : Z) : t :=
  let total := second dt + hours * 3600 in
  mk (ordinal dt + days + total / 86400) (total mod 86400).

(** [dt.strftime('%Y-%m-%d')] *)
Definition strftime_date (dt : t) : string :=
  let '(y, m, d) := civil_from_days (ordinal dt) in
  format_0d 4 y ++ "-" ++ format_0d 2 m ++ "-" ++ format_0d 2 d.

(** [dt.strftime('%Y-%m-%d %H:%M:%S')] *)
Definition strftime_datetime (dt : t) : string :=
  strftime_date dt ++ " " ++ format_0d 2 (second dt / 3600) ++ ":" ++
  format_0d 2 (second dt mod 3600 / 60) ++ ":" ++
  format_0d 2 (second dt mod 60).

End datetime.

(* ================================================================== *)
(** ** The two random generators *)

(** A generator: the sequence of raw draws it will deliver and how many
    have been consumed. *)
Record gen : Type := mkGen { tape : nat -> Z; pos : nat }.

Definition gen_next (g : gen) : Z * gen :=
  (tape g (pos g), mkGen (tape g) (S (pos g))).

(** [py] is the state of Python's [random] module, [np] that of NumPy's
    global generator. *)
Record rng : Type := mkRng { py : gen; np : gen }.

Module random.

Definition getrand : M rng Z :=
  fun s => let (k, g) := gen_next (py s) in (Ok k, mkRng g (np s)).

(** [random.random()]: [k / 2^53] with [0 <= k < 2^53]. *)
Definition random : M rng Q :=
  k <- getrand ;; ret (k mod 2 ^ 53 # 2 ^ 53)%Q.

(** [_randbelow(n)] for [n > 0] *)
Definition randbelow (n : Z) : M rng Z :=
  k <- getrand ;; ret (k mod n).

(** [random.choice(seq)]: [seq[_randbelow(len(seq))]]; [IndexError]
    on an empty sequence. *)
Definition choice {A} (seq : list A) : M rng A :=
  match seq with
  | [] => raise IndexError
  | d :: _ =>
      i <- randbelow (Z.of_nat (List.length seq)) ;;
      ret (nth (Z.to_nat i) seq d)
  end.

(** [random.randint(a, b)]: [a + _randbelow(b - a + 1)]; [ValueError]
    on an empty range. *)
Definition randint (a b : Z) : M rng Z :=
  if b <? a then raise ValueError
  else i <- randbelow (b - a + 1) ;; ret (a + i).

(** [random.uniform(a, b)]: [a + (b - a) * random()] *)
Definition uniform (a b : Q) : M rng Q :=
  r <- random ;; ret (a + (b - a) * r)%Q.

End random.

(** [x if cond else y]: the condition is evaluated first, then only the
    selected branch. *)
Definition if_else {S A} (x : M S A) (cond : M S bool) (y : M S A)
  : M S A :=
  c <- cond ;; if c then x else y.

Notation "x 'IF' c 'ELSE' y" := (if_else x c y)
  (at level 60, c at next level, y at next level).

(** [random.random() > p] and [random.random() < p] *)
Definition random_gt (p : Q) : M rng bool :=
  r <- random.random ;; ret (Qgtb r p).
Definition random_lt (p : Q) : M rng bool :=
  r <- random.random ;; ret (Qltb r p).

(* ================================================================== *)
(** ** [pandas]: the part of [DataFrame] and [Series] the script uses *)

Definition isna (v : value) : bool :=
  match v with VNone => true | _ => false end.

Definition is_str (v : value) : bool :=
  match v with VStr _ => true | _ => false end.

Definition is_num (v : value) : bool :=
  match v with VInt _ | VFloat _ => true | _ => false end.

Definition to_Q (v : value) : Q :=
  match v with VInt z => inject_Z z | VFloat q => q | _ => 0%Q end.

(** Order on values of one kind: strings by code point, numbers by
    value. *)
Definition value_leb (a b : value) : bool :=
  match a, b with
  | VStr s, VStr t => String.leb s t
  | _, _ => Qle_bool (to_Q a) (to_Q b)
  end.

(** Values that [<] can compare with one another. *)
Definition comparable (vs : list value) : bool :=
  forallb is_str vs || forallb is_num vs.

(** The distinct elements, in order of first appearance. *)
Definition unique_by {A} (eqb : A -> A -> bool) (xs : list A) : list A :=
  fold_left (fun acc x => if existsb (eqb x) acc then acc else (acc ++ [x])%list)
            xs [].

Fixpoint list_eqb {A} (eqb : A -> A -> bool) (xs ys : list A) : bool :=
  match xs, ys with
  | [], [] => true
  | x :: xs', y :: ys' => eqb x y && list_eqb eqb xs' ys'
  | _, _ => false
  end.

Fixpoint index_of (c : string) (cols : list string) : option nat :=
  match cols with
  | [] => None
  | c' :: rest =>
      if String.eqb c' c then Some O
      else match index_of c rest with
           | Some i => Some (S i)
           | None => None
           end
  end.

Module pd.

Record DataFrame : Type :=
  mkDF { columns : list string; data : list (list value) }.

(** A row or a column taken out of a frame. *)
Definition Series : Type := list value.

(** [pd.DataFrame(records)] for a list of dicts: the columns are the
    keys in order of first appearance, a key a record lacks reads as
    missing. *)
Definition of_records (records : list dict) : DataFrame :=
  let cols := unique_by String.eqb (flat_map keys records) in
  mkDF cols
       (map (fun r => map (fun c => match dict_get r c with
                                    | Some v => v
                                    | None => VNone
                                    end) cols) records).

(** [len(df)] *)
Definition len (df : DataFrame) : Z := Z.of_nat (List.length (data df)).

(** [df[c]] *)
Definition col (df : DataFrame) (c : string) : outcome Series :=
  match index_of c (columns df) with
  | Some i => Ok (map (fun row => nth i row VNone) (data df))
  | None => Raise (KeyError c)
  end.

(** [df.sample(1)]: one row drawn with NumPy's generator; [ValueError]
    on an empty frame. *)
Definition sample1 (df : DataFrame) : M rng DataFrame :=
  fun s =>
    match data df with
    | [] => (Raise ValueError, s)
    | d :: _ =>
        let (k, g) := gen_next (np s) in
        let i := Z.to_nat (k mod Z.of_nat (List.length (data df))) in
        (Ok (mkDF (columns df) [nth i (data df) d]), mkRng (py s) g)
    end.

(** [df.iloc[i]]: row [i] as a mapping from column label to cell. *)
Definition iloc (df : DataFrame) (i : nat) : outcome dict :=
  match nth_error (data df) i with
  | Some row => Ok (combine (columns df) row)
  | None => Raise IndexError
  end.

(** [s.dropna()] *)
Definition dropna (s : Series) : Series :=
  filter (fun v => negb (isna v)) s.

(** [s.isna().sum()] *)
Definition isna_sum (s : Series) : Z :=
  Z.of_nat (List.length (filter isna s)).

(** [s.unique()] *)
Definition unique (s : Series) : list value := unique_by value_eqb s.

(** [s.nunique()]: missing values are not counted. *)
Definition nunique (s : Series) : Z :=
  Z.of_nat (List.length (unique (dropna s))).

(** [df.drop_duplicates()] *)
Definition drop_duplicates (df : DataFrame) : DataFrame :=
  mkDF (columns df) (unique_by (list_eqb value_eqb) (data df)).

(** [s.min()] and [s.max()]: missing values skipped, [nan] when
    nothing is left, [TypeError] on values that do not compare. *)
Definition extremum (pick : value -> value -> value) (s : Series)
  : outcome value :=
  match dropna s with
  | [] => Ok VNone
  | x :: rest =>
      if comparable (x :: rest) then Ok (fold_left pick rest x)
      else Raise TypeError
  end.

Definition min : Series -> outcome value :=
  extremum (fun a b => if value_leb a b then a else b).

Definition max : Series -> outcome value :=
  extremum (fun a b => if value_leb a b then b else a).

(** [s.mean()]: missing values skipped, [nan] when nothing is left,
    [TypeError] on a string. *)
Definition mean (s : Series) : outcome value :=
  match dropna s with
  | [] => Ok VNone
  | xs =>
      if forallb is_num xs
      then Ok (VFloat (Qred (fold_left Qplus (map to_Q xs) 0
                             / inject_Z (Z.of_nat (List.length xs)))%Q))
      else Raise TypeError
  end.

Fixpoint insert_sorted (kv : value * Z) (l : list (value * Z))
  : list (value * Z) :=
  match l with
  | [] => [kv]
  | kv' :: rest =>
      if value_leb (fst kv) (fst kv') then kv :: l
      else kv' :: insert_sorted kv rest
  end.

(** [s.value_counts().sort_index().items()] *)
Definition value_counts_sorted (s : Series)
  : outcome (list (value * Z)) :=
  let xs := dropna s in
  let counted :=
    map (fun k => (k, Z.of_nat (List.length
                                  (filter (value_eqb k) xs))))
        (unique xs) in
  if comparable (unique xs)
  then Ok (fold_right insert_sorted [] counted)
  else Raise TypeError.

End pd.

(* ================================================================== *)
(** ** Configuration *)

Definition NUM_VEHICLES : Z := 60.
Definition NUM_MEASUREMENTS : Z := 800.
Definition NUM_FEEDBACK : Z := 600.

(** [s in l] for a list of strings *)
Definition str_in (s : string) (l : list string) : bool :=
  existsb (String.eqb s) l.

(* ================================================================== *)
(** ** Table 1: vehicle master data *)

Definition vehicle_models : list string :=
  [ "Commuter Bike A1"; "Commuter Bike A2"; "Cruiser B1"; "Cruiser B2";
    "Sport Bike C1"; "Naked Bike D1"; "Adventure Bike E1";
    "Superbike F1"; "Electric Bike G1"; "Hybrid Bike H1" ].

Definition manufacturers : list string :=
  [ "AutoCorp"; "VehicleTech"; "MotorWorks"; "DriveMax" ].

Definition engine_types : list string :=
  [ "Gasoline"; "Diesel"; "Electric"; "Hybrid" ].

(** The engine type determined by the model name. *)
Definition engine_for (model : string) : M rng string :=
  if contains "Electric" model then ret "Electric"
  else if contains "Hybrid" model then ret "Hybrid"
  else random.choice [ "Gasoline"; "Diesel" ].

(** One pass of the first loop of [generate_vehicle_master]: the dict
    built for vehicle number [i]. *)
Definition vehicle (i : Z) : M rng dict :=
  model <- random.choice vehicle_models ;;
  engine <- engine_for model ;;
  f_model <- ret (VStr model) IF random_gt 0.05 ELSE ret VNone ;;
  f_manufacturer <-
    (m <- random.choice manufacturers ;; ret (VStr m))
    IF random_gt 0.08 ELSE ret VNone ;;
  f_engine <- ret (VStr engine) IF random_gt 0.06 ELSE ret VNone ;;
  f_date <-
    (d <- random.randint 0 1460 ;;
     ret (VStr (datetime.strftime_date
                  (datetime.add_timedelta
                     (datetime.datetime 2020 1 1) d 0))))
    IF random_gt 0.07 ELSE ret VNone ;;
  ret [ ("Vehicle ID", VStr ("VEH" ++ format_0d 4 i));
        ("Vehicle Model", f_model);
        ("Manufacturer", f_manufacturer);
        ("Engine Type", f_engine);
        ("Manufacturing Date", f_date) ].

(** [int(NUM_VEHICLES * 0.10)] *)
Definition num_duplicates : Z := int (inject_Z NUM_VEHICLES * 0.10)%Q.

(** The list [vehicles] when the two loops are over. *)
Definition vehicle_records : M rng (list dict) :=
  vehicles <-
    for_ (range 1 (NUM_VEHICLES + 1))
         (fun i vehicles => v <- vehicle i ;; ret (vehicles ++ [v])%list)
         [] ;;
  for_ (range 0 num_duplicates)
       (fun _ vehicles =>
          duplicate <- random.choice vehicles ;;
          ret (vehicles ++ [duplicate])%list)
       vehicles.

Definition generate_vehicle_master : M rng pd.DataFrame :=
  vehicles <- vehicle_records ;;
  ret (pd.of_records vehicles).

(* ================================================================== *)
(** ** Table 2: NVH measurements *)

Definition test_conditions : list string :=
  [ "City Driving"; "Highway Driving"; "Rough Road"; "Smooth Road";
    "Acceleration"; "Braking"; "Idling" ].

Definition road_surfaces : list string :=
  [ "Asphalt"; "Concrete"; "Gravel"; "Cobblestone"; "Test Track" ].

(** Base noise level by test condition. *)
Definition base_noise_for (test_condition : string) : M rng Q :=
  if String.eqb test_condition "City Driving" then random.uniform 65 75
  else if String.eqb test_condition "Highway Driving"
       then random.uniform 70 80
  else if String.eqb test_condition "Rough Road" then random.uniform 75 90
  else if String.eqb test_condition "Acceleration"
       then random.uniform 80 95
  else if String.eqb test_condition "Idling" then random.uniform 40 55
  else ret 60%Q.

(** Vibration frequency by road surface. *)
Definition base_vib_freq_for (road_surface : string) : M rng Q :=
  if str_in road_surface [ "Gravel"; "Cobblestone" ]
  then random.uniform 80 200
  else if String.eqb road_surface "Asphalt" then random.uniform 30 80
  else random.uniform 40 120.

(** Harshness score by road surface and base noise. *)
Definition harshness_for (road_surface : string) (base_noise : Q)
  : M rng Q :=
  if str_in road_surface [ "Gravel"; "Cobblestone" ]
  then random.uniform 6 9
  else if Qgtb base_noise 80 then random.uniform 6 8
  else random.uniform 2 6.

(** The inconsistent date strings of the 1% branch. *)
Definition inconsistent_date : M rng value :=
  inconsistent_type <- random.choice [ "future_year"; "far_future_year" ] ;;
  if String.eqb inconsistent_type "future_year"
  then
    mo <- random.randint 1 12 ;;
    d <- random.randint 1 28 ;;
    h <- random.randint 0 23 ;;
    mi <- random.randint 0 59 ;;
    ret (VStr ("2029-" ++ format_0d 2 mo ++ "-" ++ format_0d 2 d ++ " "
               ++ format_0d 2 h ++ ":" ++ format_0d 2 mi ++ ":00"))
  else
    y <- random.choice [ 2080; 2090; 2099 ] ;;
    mo <- random.randint 1 12 ;;
    d <- random.randint 1 28 ;;
    h <- random.randint 0 23 ;;
    mi <- random.randint 0 59 ;;
    ret (VStr (str y ++ "-" ++ format_0d 2 mo ++ "-" ++ format_0d 2 d
               ++ " " ++ format_0d 2 h ++ ":" ++ format_0d 2 mi ++ ":00")).

(** The measurement date: 1% inconsistent, otherwise a date from
    2023-01-01 on, itself missing with 3%. *)
Definition measurement_date : M rng value :=
  inconsistent <- random_lt 0.01 ;;
  if inconsistent then inconsistent_date
  else
    (days <- random.randint 0 730 ;;
     hours <- random.randint 0 23 ;;
     ret (VStr (datetime.strftime_datetime
                  (datetime.add_timedelta
                     (datetime.datetime 2023 1 1) days hours))))
    IF random_gt 0.03 ELSE ret VNone.

(** One pass of the loop of [generate_nvh_measurements]. *)
Definition measurement (df_vehicles : pd.DataFrame) (i : Z) : M rng dict :=
  sampled <- pd.sample1 df_vehicles ;;
  vehicle <- of_outcome (pd.iloc sampled 0) ;;
  test_condition <- random.choice test_conditions ;;
  road_surface <- random.choice road_surfaces ;;
  base_noise <- base_noise_for test_condition ;;
  base_vib_freq <- base_vib_freq_for road_surface ;;
  speed <- (if negb (String.eqb test_condition "Idling")
            then random.randint 15 120 else ret 0) ;;
  harshness <- harshness_for road_surface base_noise ;;
  date <- measurement_date ;;
  vehicle_id <- of_outcome (getitem vehicle "Vehicle ID") ;;
  f_road <- ret (VStr road_surface) IF random_gt 0.06 ELSE ret VNone ;;
  f_speed <- ret (VInt speed) IF random_gt 0.05 ELSE ret VNone ;;
  f_noise <-
    (u <- random.uniform (-3) 3 ;;
     ret (VFloat (round (base_noise + u) 2)))
    IF random_gt 0.03 ELSE ret VNone ;;
  f_vib <- ret (VFloat (round base_vib_freq 2))
           IF random_gt 0.01 ELSE ret VNone ;;
  f_harsh <- ret (VFloat (round harshness 1))
             IF random_gt 0.01 ELSE ret VNone ;;
  ret [ ("Measurement ID", VStr ("MEAS" ++ format_0d 5 (i + 1)));
        ("Vehicle ID", vehicle_id);
        ("Measurement Date", date);
        ("Road Surface", f_road);
        ("Speed (KMH)", f_speed);
        ("Noise Level (dB)", f_noise);
        ("Vibration Frequency (Hz)", f_vib);
        ("Harshness Score", f_harsh) ].

(** The list [measurements] when the loop is over. *)
Definition measurement_records (df_vehicles : pd.DataFrame)
  : M rng (list dict) :=
  for_ (range 0 NUM_MEASUREMENTS)
       (fun i measurements =>
          m <- measurement df_vehicles i ;;
          ret (measurements ++ [m])%list)
       [].

Definition generate_nvh_measurements (df_vehicles : pd.DataFrame)
  : M rng pd.DataFrame :=
  measurements <- measurement_records df_vehicles ;;
  ret (pd.of_records measurements).

(* ================================================================== *)
(** ** Table 3: customer feedback *)

Definition comments_positive : list string :=
  [ "Very smooth and quiet ride, excellent NVH performance";
    "Minimal cabin noise even at highway speeds";
    "Comfortable ride with well-damped suspension";
    "Engine operates quietly and smoothly";
    "Excellent noise insulation throughout the cabin";
    "Ride quality is impressive with minimal vibrations";
    "Very pleased with the overall refinement";
    "Smooth operation with excellent sound dampening" ].

Definition comments_neutral : list string :=
  [ "Acceptable noise levels for the price range";
    "Ride comfort is adequate for daily commuting";
    "Some road noise on rough surfaces but manageable";
    "Average NVH performance compared to competitors";
    "Satisfactory overall, minor vibrations at idle" ].

Definition comments_negative : list string :=
  [ "Excessive engine noise during acceleration";
    "Uncomfortable vibrations felt through steering wheel";
    "Road noise is too loud on highway";
    "Harsh ride over bumps and rough roads";
    "Engine vibrations noticeable in the cabin";
    "Wind noise at high speeds is intrusive";
    "Dashboard rattles over rough surfaces";
    "Seat vibrations make long drives uncomfortable";
    "Poor noise insulation, tire noise is excessive";
    "Steering wheel vibrates excessively" ].

Definition comfort_levels : list string :=
  [ "Very Poor"; "Poor"; "Fair"; "Good"; "Very Good"; "Excellent" ].

(** The pool a comfort level selects its comment from. *)
Definition comment_pool (comfort_level : string) : list string :=
  if str_in comfort_level [ "Excellent"; "Very Good" ]
  then comments_positive
  else if str_in comfort_level [ "Good"; "Fair" ] then comments_neutral
  else comments_negative.

(** One pass of the loop of [generate_customer_feedback]. *)
Definition feedback (df_vehicles : pd.DataFrame) (i : Z) : M rng dict :=
  sampled <- pd.sample1 df_vehicles ;;
  vehicle <- of_outcome (pd.iloc sampled 0) ;;
  comfort_level <- random.choice comfort_levels ;;
  comment <- random.choice (comment_pool comfort_level) ;;
  vehicle_id <- of_outcome (getitem vehicle "Vehicle ID") ;;
  f_comfort <- ret (VStr comfort_level) IF random_gt 0.15 ELSE ret VNone ;;
  f_comment <- ret (VStr comment) IF random_gt 0.10 ELSE ret VNone ;;
  ret [ ("Feedback ID", VStr ("FB" ++ format_0d 5 (i + 1)));
        ("Vehicle ID", vehicle_id);
        ("Comfort Level", f_comfort);
        ("Comment", f_comment) ].

(** The list [feedbacks] when the loop is over. *)
Definition feedback_records (df_vehicles : pd.DataFrame)
  : M rng (list dict) :=
  for_ (range 0 NUM_FEEDBACK)
       (fun i feedbacks =>
          f <- feedback df_vehicles i ;;
          ret (feedbacks ++ [f])%list)
       [].

Definition generate_customer_feedback (df_vehicles : pd.DataFrame)
  : M rng pd.DataFrame :=
  feedbacks <- feedback_records df_vehicles ;;
  ret (pd.of_records feedbacks).

(* ================================================================== *)
(** ** Main execution *)

(** A piece of a printed line: literal text, a value with its format
    specifier, or [sep.join(str(x) for x in vs)].  Lines are kept in
    pieces; the values they show are the computed ones. *)
Inductive frag : Type :=
| Lit (s : string)
| Fmt (v : value) (spec : string)
| Join (sep : string) (vs : list value).

(** What the process acts on: the random generators, standard output
    (one entry per [print]) and the files written. *)
Record world : Type :=
  mkWorld { rand : rng;
            stdout : list (list frag);
            files : list (string * pd.DataFrame) }.

Definition lift {A} (m : M rng A) : M world A :=
  fun w => let (o, r) := m (rand w) in (o, mkWorld r (stdout w) (files w)).

Definition print (line : list frag) : M world unit :=
  fun w => (Ok tt, mkWorld (rand w) (stdout w ++ [line])%list (files w)).

(** [df.to_excel(name, index=False)] *)
Definition to_excel (df : pd.DataFrame) (name : string) : M world unit :=
  fun w => (Ok tt, mkWorld (rand w) (stdout w) (files w ++ [(name, df)])%list).

(** [df[c]] inside the driver *)
Definition column (df : pd.DataFrame) (c : string) : M world pd.Series :=
  of_outcome (pd.col df c).

(** The newline character *)
Definition nl : string := String (ascii_of_nat 10) "".

Definition banner : list frag := [ Lit (str_mul "=" 70) ].

(** The three parts of the summary, in the order the driver prints
    them. *)
Definition summary_vehicles (df_vehicles : pd.DataFrame) : M world unit :=
  print [ Lit (nl ++ "📊 Vehicle Master Data:") ] ;;;
  print [ Lit "   - Total Vehicles: "; Fmt (VInt (pd.len df_vehicles)) "" ] ;;;
  ids <- column df_vehicles "Vehicle ID" ;;
  print [ Lit "   - Unique VehicleIDs: "; Fmt (VInt (pd.nunique ids)) "" ] ;;;
  print [ Lit "   - Duplicate Rows: ";
          Fmt (VInt (pd.len df_vehicles
                     - pd.len (pd.drop_duplicates df_vehicles))) "" ] ;;;
  models <- column df_vehicles "Vehicle Model" ;;
  print [ Lit "   - Unique Models: "; Fmt (VInt (pd.nunique models)) "" ] ;;;
  engines <- column df_vehicles "Engine Type" ;;
  print [ Lit "   - Engine Types: ";
          Join ", " (pd.unique (pd.dropna engines)) ] ;;;
  n_model <- column df_vehicles "Vehicle Model" ;;
  n_manufacturer <- column df_vehicles "Manufacturer" ;;
  n_engine <- column df_vehicles "Engine Type" ;;
  n_date <- column df_vehicles "Manufacturing Date" ;;
  print [ Lit "   - Null Values: Model(";
          Fmt (VInt (pd.isna_sum n_model)) "";
          Lit "), Manufacturer(";
          Fmt (VInt (pd.isna_sum n_manufacturer)) "";
          Lit "), Engine Type(";
          Fmt (VInt (pd.isna_sum n_engine)) "";
          Lit "), Manufacturing Date(";
          Fmt (VInt (pd.isna_sum n_date)) "";
          Lit ")" ].

Definition summary_measurements (df_measurements : pd.DataFrame)
  : M world unit :=
  print [ Lit (nl ++ "📊 NVH Measurements:") ] ;;;
  print [ Lit "   - Total Measurements: ";
          Fmt (VInt (pd.len df_measurements)) "" ] ;;;
  dates <- column df_measurements "Measurement Date" ;;
  first <- of_outcome (pd.min (pd.dropna dates)) ;;
  dates' <- column df_measurements "Measurement Date" ;;
  last <- of_outcome (pd.max (pd.dropna dates')) ;;
  print [ Lit "   - Date Range: "; Fmt first ""; Lit " to "; Fmt last "" ] ;;;
  noise <- column df_measurements "Noise Level(dB)" ;;
  avg_noise <- of_outcome (pd.mean noise) ;;
  print [ Lit "   - Avg Noise Level: "; Fmt avg_noise ".2f"; Lit " dB" ] ;;;
  vib <- column df_measurements "Vibration Frequency(Hz)" ;;
  avg_vib <- of_outcome (pd.mean vib) ;;
  print [ Lit "   - Avg Vibration Frequency: "; Fmt avg_vib ".2f";
          Lit " Hz" ] ;;;
  harsh <- column df_measurements "Harshness Score" ;;
  avg_harsh <- of_outcome (pd.mean harsh) ;;
  print [ Lit "   - Avg Harshness Score: "; Fmt avg_harsh ".2f";
          Lit "/10" ] ;;;
  n_date <- column df_measurements "Measurement Date" ;;
  n_road <- column df_measurements "Road Surface" ;;
  n_speed <- column df_measurements "Speed(km/h)" ;;
  n_noise <- column df_measurements "Noise Level(dB)" ;;
  n_vib <- column df_measurements "Vibration Frequency(Hz)" ;;
  n_harsh <- column df_measurements "Harshness Score" ;;
  print [ Lit "   - Null Values: Measurement Date(";
          Fmt (VInt (pd.isna_sum n_date)) "";
          Lit "), Road Surface(";
          Fmt (VInt (pd.isna_sum n_road)) "";
          Lit "), Speed(km/h)(";
          Fmt (VInt (pd.isna_sum n_speed)) "";
          Lit "), Noise Level(dB)(";
          Fmt (VInt (pd.isna_sum n_noise)) "";
          Lit "), Vibration Frequency(Hz)(";
          Fmt (VInt (pd.isna_sum n_vib)) "";
          Lit "), Harshness Score(";
          Fmt (VInt (pd.isna_sum n_harsh)) "";
          Lit ")" ].

Definition summary_feedback (df_feedback : pd.DataFrame) : M world unit :=
  print [ Lit (nl ++ "📊 Customer Feedback:") ] ;;;
  print [ Lit "   - Total Feedbacks: ";
          Fmt (VInt (pd.len df_feedback)) "" ] ;;;
  print [ Lit "   - Comfort Level Distribution:" ] ;;;
  comfort <- column df_feedback "Comfort Level" ;;
  levels <- of_outcome (pd.value_counts_sorted comfort) ;;
  for_ levels
       (fun level _ =>
          print [ Lit "      • "; Fmt (fst level) ""; Lit ": ";
                  Fmt (VInt (snd level)) ""; Lit " (";
                  Fmt (VFloat (inject_Z (snd level)
                               / inject_Z (pd.len df_feedback) * 100)%Q)
                      ".1f";
                  Lit "%)" ])
       tt ;;;
  n_comfort <- column df_feedback "Comfort Level" ;;
  n_comment <- column df_feedback "Comment" ;;
  print [ Lit "   - Null Values: Comfort Level(";
          Fmt (VInt (pd.isna_sum n_comfort)) "";
          Lit "), Comment(";
          Fmt (VInt (pd.isna_sum n_comment)) "";
          Lit ")" ].

Definition success_line : list frag :=
  [ Lit "✓ All datasets generated successfully!" ].

(** The summary statistics and the closing lines of [main]. *)
Definition summary (df_vehicles df_measurements df_feedback : pd.DataFrame)
  : M world unit :=
  print [ Lit (nl ++ str_mul "=" 70) ] ;;;
  print [ Lit "DATASET SUMMARY" ] ;;;
  print banner ;;;
  summary_vehicles df_vehicles ;;;
  summary_measurements df_measurements ;;;
  summary_feedback df_feedback ;;;
  print [ Lit (nl ++ str_mul "=" 70) ] ;;;
  print success_line ;;;
  print banner ;;;
  print [ Lit (nl ++ "📝 NEXT STEPS:") ] ;;;
  print [ Lit "   1. Import the three CSV files into Power BI" ] ;;;
  print [ Lit "   2. Create relationships:" ] ;;;
  print [ Lit "      - vehicle_master.VehicleID → nvh_measurements.VehicleID (Many-to-One)" ] ;;;
  print [ Lit "      - vehicle_master.VehicleID → customer_feedback.VehicleID (Many-to-One)" ] ;;;
  print [ Lit "   3. Start building your dashboard!" ] ;;;
  print [ Lit nl ].

Definition main : M world unit :=
  print banner ;;;
  print [ Lit "NVH Dataset Generator for Power BI Dashboard" ] ;;;
  print banner ;;;
  print [ Lit (nl ++ "[1/3] Generating Vehicle Master Data...") ] ;;;
  df_vehicles <- lift generate_vehicle_master ;;
  to_excel df_vehicles "Vehicle.xlsx" ;;;
  print [ Lit "✓ Generated "; Fmt (VInt (pd.len df_vehicles)) "";
          Lit " vehicle records" ] ;;;
  print [ Lit "  Saved to: Vehicle.xlsx" ] ;;;
  print [ Lit (nl ++ "[2/3] Generating NVH Measurements...") ] ;;;
  df_measurements <- lift (generate_nvh_measurements df_vehicles) ;;
  to_excel df_measurements "NVH_Measurements.xlsx" ;;;
  print [ Lit "✓ Generated "; Fmt (VInt (pd.len df_measurements)) "";
          Lit " measurement records" ] ;;;
  print [ Lit "  Saved to: NVH_Measurements.xlsx" ] ;;;
  print [ Lit (nl ++ "[3/3] Generating Customer Feedback...") ] ;;;
  df_feedback <- lift (generate_customer_feedback df_vehicles) ;;
  to_excel df_feedback "Customer_Feedback.xlsx" ;;;
  print [ Lit "✓ Generated "; Fmt (VInt (pd.len df_feedback)) "";
          Lit " feedback records" ] ;;;
  print [ Lit "  Saved to: Customer_Feedback.xlsx" ] ;;;
  summary df_vehicles df_measurements df_feedback.

(** The script run as a program: exit status 0 when [main] returns, 1
    when an exception leaves it (nothing catches one). *)
Definition exit_status {A} (o : outcome A) : Z :=
  match o with Ok _ => 0 | Raise _ => 1 end.

Definition run (w : world) : Z * world :=
  let (o, w') := main w in (exit_status o, w').

(* ================================================================== *)
(** ** Specifications of computations *)

(** Total correctness: from state [s], [m] returns a value and a state
    that satisfy [Q]. *)
Definition returns {S A} (m : M S A) (s : S) (Q : A -> S -> Prop) : Prop :=
  exists a s', m s = (Ok a, s') /\ Q a s'.

(** From state [s], [m] raises [e] and leaves a state that satisfies
    [Q]. *)
Definition raises {S A} (m : M S A) (s : S) (e : exn) (Q : S -> Prop)
  : Prop :=
  exists s', m s = (Raise e, s') /\ Q s'.

(** A frame with one row per record and one cell per column. *)
Definition wf_frame (df : pd.DataFrame) : Prop :=
  Forall (fun row => List.length row = List.length (pd.columns df))
         (pd.data df).

(** The cell of a record under a label, missing when the label is. *)
Definition cell (r : dict) (c : string) : value :=
  match dict_get r c with Some v => v | None => VNone end.

(** The rows of a frame as mappings from label to cell. *)
Definition rows (df : pd.DataFrame) : list dict :=
  map (combine (pd.columns df)) (pd.data df).

(** [l] is [base] followed by elements each copied from the list as it
    stood when the element was appended. *)
Inductive copies {A} (base : list A) : list A -> Prop :=
| copies_base : copies base base
| copies_snoc l d : copies base l -> In d l -> copies base (l ++ [d])%list.


(** [field] holds [v] unless it was set to missing. *)
Definition nullable (v field : value) : Prop := field = v \/ field = VNone.

(** The engine type the model name calls for. *)
Definition engine_matches (model engine : string) : Prop :=
  if contains "Electric" model then engine = "Electric"
  else if contains "Hybrid" model then engine = "Hybrid"
  else In engine [ "Gasoline"; "Diesel" ].

(** The dicts the first loop of [generate_vehicle_master] builds for
    vehicle number [i]. *)
Definition vehicle_record (i : Z) (r : dict) : Prop :=
  exists model engine f_model f_manufacturer f_engine f_date,
    r = [ ("Vehicle ID", VStr ("VEH" ++ format_0d 4 i));
          ("Vehicle Model", f_model);
          ("Manufacturer", f_manufacturer);
          ("Engine Type", f_engine);
          ("Manufacturing Date", f_date) ]
    /\ In model vehicle_models
    /\ engine_matches model engine
    /\ nullable (VStr model) f_model
    /\ (exists m, In m manufacturers /\ nullable (VStr m) f_manufacturer)
    /\ nullable (VStr engine) f_engine
    /\ (exists d, nullable (VStr d) f_date).

(** A measurement date: missing or a string. *)
Definition date_value (v : value) : Prop :=
  v = VNone \/ exists s, v = VStr s.

(** The dicts the loop of [generate_nvh_measurements] builds at index
    [i] from the frame [df]. *)
Definition measurement_record (df : pd.DataFrame) (i : Z) (r : dict)
  : Prop :=
  exists vehicle vehicle_id date f_road f_speed f_noise f_vib f_harsh,
    r = [ ("Measurement ID", VStr ("MEAS" ++ format_0d 5 (i + 1)));
          ("Vehicle ID", vehicle_id);
          ("Measurement Date", date);
          ("Road Surface", f_road);
          ("Speed (KMH)", f_speed);
          ("Noise Level (dB)", f_noise);
          ("Vibration Frequency (Hz)", f_vib);
          ("Harshness Score", f_harsh) ]
    /\ In vehicle (rows df)
    /\ dict_get vehicle "Vehicle ID" = Some vehicle_id
    /\ date_value date
    /\ (exists s1 s2, measurement_date s1 = (Ok date, s2))
    /\ (exists s, In s road_surfaces /\ nullable (VStr s) f_road)
    /\ (exists z, 0 <= z <= 120 /\ nullable (VInt z) f_speed)
    /\ (exists q, nullable (VFloat q) f_noise)
    /\ (exists q, nullable (VFloat q) f_vib)
    /\ (exists q, nullable (VFloat q) f_harsh).

(** The dicts the loop of [generate_customer_feedback] builds at index
    [i] from the frame [df]. *)
Definition feedback_record (df : pd.DataFrame) (i : Z) (r : dict) : Prop :=
  exists vehicle vehicle_id comfort_level comment f_comfort f_comment,
    r = [ ("Feedback ID", VStr ("FB" ++ format_0d 5 (i + 1)));
          ("Vehicle ID", vehicle_id);
          ("Comfort Level", f_comfort);
          ("Comment", f_comment) ]
    /\ In vehicle (rows df)
    /\ dict_get vehicle "Vehicle ID" = Some vehicle_id
    /\ In comfort_level comfort_levels
    /\ In comment (comment_pool comfort_level)
    /\ nullable (VStr comfort_level) f_comfort
    /\ nullable (VStr comment) f_comment.

(** The column labels of the three tables. *)
Definition vehicle_columns : list string :=
  [ "Vehicle ID"; "Vehicle Model"; "Manufacturer"; "Engine Type";
    "Manufacturing Date" ].

Definition measurement_columns : list string :=
  [ "Measurement ID"; "Vehicle ID"; "Measurement Date"; "Road Surface";
    "Speed (KMH)"; "Noise Level (dB)"; "Vibration Frequency (Hz)";
    "Harshness Score" ].

Definition feedback_columns : list string :=
  [ "Feedback ID"; "Vehicle ID"; "Comfort Level"; "Comment" ].

(** The timestamp string of the inconsistent-date branch. *)
Definition inconsistent_timestamp (y mo d h mi : Z) : string :=
  str y ++ "-" ++ format_0d 2 mo ++ "-" ++ format_0d 2 d ++ " "
  ++ format_0d 2 h ++ ":" ++ format_0d 2 mi ++ ":00".

(** The values the inconsistent-date branch produces. *)
Definition inconsistent_date_value (v : value) : Prop :=
  exists y mo d h mi,
    In y [ 2029; 2080; 2090; 2099 ]
    /\ 1 <= mo <= 12 /\ 1 <= d <= 28 /\ 0 <= h <= 23 /\ 0 <= mi <= 59
    /\ v = VStr (inconsistent_timestamp y mo d h mi).

(** A frame the two downstream generators can sample: it has a row, and
    every row carries a vehicle identifier. *)
Definition vehicle_table (df : pd.DataFrame) : Prop :=
  pd.data df <> []
  /\ forall v, In v (rows df) ->
                exists id, dict_get v "Vehicle ID" = Some (VStr id).

(** The frames [generate_vehicle_master] returns: the records of the
    first loop, one per vehicle number, followed by the copies the
    second loop appends. *)
Definition vehicle_master (df : pd.DataFrame) : Prop :=
  exists base records,
    df = pd.of_records records
    /\ Forall2 vehicle_record (range 1 (NUM_VEHICLES + 1)) base
    /\ copies base records
    /\ List.length records
       = (List.length base + Z.to_nat num_duplicates)%nat.

(** The frames [generate_nvh_measurements] returns on [df_vehicles]. *)
Definition nvh_measurements (df_vehicles df : pd.DataFrame) : Prop :=
  exists records,
    df = pd.of_records records
    /\ Forall2 (measurement_record df_vehicles)
               (range 0 NUM_MEASUREMENTS) records.

(** The frames [generate_customer_feedback] returns on [df_vehicles]. *)
Definition customer_feedback (df_vehicles df : pd.DataFrame) : Prop :=
  exists records,
    df = pd.of_records records
    /\ Forall2 (feedback_record df_vehicles)
               (range 0 NUM_FEEDBACK) records.

(** A one-row vehicle frame and a random state, used to instantiate the
    statements below. *)
Definition example_vehicles : pd.DataFrame :=
  pd.mkDF [ "Vehicle ID"; "Vehicle Model" ]
          [ [ VStr "VEH0001"; VStr "Cruiser B1" ] ].

Definition example_rng : rng :=
  mkRng (mkGen (fun n => Z.of_nat n * 9776418902477 + 12345) 0)
        (mkGen (fun n => Z.of_nat n) 0).

(** The first four characters of a timestamp: its year. *)
Definition year_part (timestamp : string) : string :=
  substring 0 4 timestamp.

(** A random state all of whose draws are [k]: [random.random()] is
    [k / 2^53] at every call. *)
Definition constant_rng (k : Z) : rng :=
  mkRng (mkGen (fun _ => k) 0) (mkGen (fun _ => 0) 0).

(** 360287970189640 / 2^53 is 0.04 to sixteen places. *)
Definition draw_4_percent : Z := 360287970189640.

(** From [w] to [w'] lines were printed, none of them the closing
    success line. *)
Definition no_success_printed (w w' : world) : Prop :=
  exists printed,
    stdout w' = (stdout w ++ printed)%list /\ ~ In success_line printed.

(** [m] writes no file and does not print the success line, whether it
    returns or raises. *)
Definition discreet {A} (m : M world A) : Prop :=
  forall w, no_success_printed w (snd (m w))
            /\ files (snd (m w)) = files w.

(** [m] raises from every state, having written no file and not
    printed the success line. *)
Definition aborts {A} (m : M world A) : Prop :=
  forall w, exists e w',
    m w = (Raise e, w')
    /\ no_success_printed w w' /\ files w' = files w.

(** The columns the summary reads in each table. *)
Definition vehicle_reads : list string :=
  [ "Vehicle ID"; "Vehicle Model"; "Engine Type"; "Manufacturer";
    "Manufacturing Date" ].

Definition measurement_reads : list string :=
  [ "Measurement Date"; "Noise Level(dB)"; "Vibration Frequency(Hz)";
    "Harshness Score"; "Road Surface"; "Speed(km/h)" ].

Definition feedback_reads : list string := [ "Comfort Level"; "Comment" ].

(** A column of [reads] that [df] does not have. *)
Definition lacks (df : pd.DataFrame) (reads : list string) : Prop :=
  exists c, In c reads /\ ~ In c (pd.columns df).

(** [m] returns from every state. *)
Definition total {A} (m : M world A) : Prop :=
  forall w, exists a w', m w = (Ok a, w').

(** [m] raises [e] from every state. *)
Definition throws {A} (e : exn) (m : M world A) : Prop :=
  forall w, exists w', m w = (Raise e, w').

(** A state of the process with nothing printed and nothing written. *)
Definition example_world : world := mkWorld example_rng [] [].

(* ================================================================== *)
(** ** Value ranges of the generated fields *)

(** What the measurement loop draws for one record, and how the
    record's numeric fields come from it. *)
Definition measurement_values (r : dict) : Prop :=
  exists test_condition road_surface speed base_noise u base_vib_freq
         harshness,
    In test_condition test_conditions
    /\ In road_surface road_surfaces
    /\ (if String.eqb test_condition "Idling"
        then speed = 0 /\ (40 <= base_noise <= 55)%Q
        else 15 <= speed <= 120 /\ (60 <= base_noise <= 95)%Q)
    /\ (-3 <= u <= 3)%Q
    /\ (if str_in road_surface [ "Gravel"; "Cobblestone" ]
        then (80 <= base_vib_freq <= 200)%Q /\ (6 <= harshness <= 9)%Q
        else (if String.eqb road_surface "Asphalt"
              then (30 <= base_vib_freq <= 80)%Q
              else (40 <= base_vib_freq <= 120)%Q)
             /\ (if Qgtb base_noise 80
                 then (6 <= harshness <= 8)%Q
                 else (2 <= harshness <= 6)%Q))
    /\ nullable (VStr road_surface) (cell r "Road Surface")
    /\ nullable (VInt speed) (cell r "Speed (KMH)")
    /\ nullable (VFloat (round (base_noise + u) 2))
                (cell r "Noise Level (dB)")
    /\ nullable (VFloat (round base_vib_freq 2))
                (cell r "Vibration Frequency (Hz)")
    /\ nullable (VFloat (round harshness 1)) (cell r "Harshness Score").

(** The dates of the normal branch of the date step. *)
Definition normal_date_value (v : value) : Prop :=
  exists days hours,
    0 <= days <= 730 /\ 0 <= hours <= 23
    /\ v = VStr (datetime.strftime_datetime
                   (datetime.add_timedelta
                      (datetime.datetime 2023 1 1) days hours)).

(** The manufacturing dates of the vehicle loop. *)
Definition manufacturing_date_value (v : value) : Prop :=
  exists days,
    0 <= days <= 1460
    /\ v = VStr (datetime.strftime_date
                   (datetime.add_timedelta
                      (datetime.datetime 2020 1 1) days 0)).

(** A cell that is missing or a number within bounds. *)
Definition missing_or_between (lo hi : Q) (v : value) : Prop :=
  v = VNone \/ exists q, v = VFloat q /\ (lo <= q <= hi)%Q.

(** The timestamp of the normal branch of the date step. *)
Definition normal_timestamp (days hours : Z) : string :=
  datetime.strftime_datetime
    (datetime.add_timedelta (datetime.datetime 2023 1 1) days hours).

(** The date string of the vehicle loop. *)
Definition manufacturing_date (days : Z) : string :=
  datetime.strftime_date
    (datetime.add_timedelta (datetime.datetime 2020 1 1) days 0).

(** The identifiers the three loops format. *)
Definition vehicle_ids : list value :=
  map (fun i => VStr ("VEH" ++ format_0d 4 i)) (range 1 (NUM_VEHICLES + 1)).

Definition measurement_ids : list value :=
  map (fun i => VStr ("MEAS" ++ format_0d 5 (i + 1)))
      (range 0 NUM_MEASUREMENTS).

Definition feedback_ids : list value :=
  map (fun i => VStr ("FB" ++ format_0d 5 (i + 1))) (range 0 NUM_FEEDBACK).

(** A well-formed date cell of the measurement table: nineteen
    characters, the first four among the years the date step can
    produce. *)
Definition timestamp_cell (v : value) : Prop :=
  v = VNone
  \/ exists t,
      v = VStr t
      /\ String.length t = 19%nat
      /\ In (year_part t)
            [ "2023"; "2024"; "2029"; "2080"; "2090"; "2099" ].

(** A well-formed manufacturing date cell: ten characters, the first
    four among the years of the four-year window. *)
Definition manufacturing_date_cell (v : value) : Prop :=
  v = VNone
  \/ exists t,
      v = VStr t
      /\ String.length t = 10%nat
      /\ In (year_part t) [ "2020"; "2021"; "2022"; "2023" ].

(** The identifier a row starts with, when its first cell is a string. *)
Definition row_key (row : list value) : option string :=
  match row with
  | VStr s :: _ => Some s
  | _ => None
  end.

(** A frame with a row and no identifier column. *)
Definition example_unlabelled : pd.DataFrame :=
  pd.mkDF [ "Vehicle Model" ] [ [ VStr "Cruiser B1" ] ].

(** The lines [main] prints while it generates and writes the tables
    [dfv], [dfm] and [dff]. *)
Definition generation_lines (dfv dfm dff : pd.DataFrame)
  : list (list frag) :=
  [ banner;
    [ Lit "NVH Dataset Generator for Power BI Dashboard" ];
    banner;
    [ Lit (nl ++ "[1/3] Generating Vehicle Master Data...") ];
    [ Lit "✓ Generated "; Fmt (VInt (pd.len dfv)) "";
      Lit " vehicle records" ];
    [ Lit "  Saved to: Vehicle.xlsx" ];
    [ Lit (nl ++ "[2/3] Generating NVH Measurements...") ];
    [ Lit "✓ Generated "; Fmt (VInt (pd.len dfm)) "";
      Lit " measurement records" ];
    [ Lit "  Saved to: NVH_Measurements.xlsx" ];
    [ Lit (nl ++ "[3/3] Generating Customer Feedback...") ];
    [ Lit "✓ Generated "; Fmt (VInt (pd.len dff)) "";
      Lit " feedback records" ];
    [ Lit "  Saved to: Customer_Feedback.xlsx" ] ].

(** The heading of the summary. *)
Definition summary_heading : list (list frag) :=
  [ [ Lit (nl ++ str_mul "=" 70) ]; [ Lit "DATASET SUMMARY" ]; banner ].

(** The vehicle part of the summary as every run prints it: 66
    vehicles, 60 identifiers, 6 duplicate rows, then the figures that
    depend on the draws. *)
Definition vehicle_summary_lines (unique_models : Z) (engines : list value)
           (n_model n_manufacturer n_engine n_date : Z)
  : list (list frag) :=
  [ [ Lit (nl ++ "📊 Vehicle Master Data:") ];
    [ Lit "   - Total Vehicles: "; Fmt (VInt 66) "" ];
    [ Lit "   - Unique VehicleIDs: "; Fmt (VInt 60) "" ];
    [ Lit "   - Duplicate Rows: "; Fmt (VInt 6) "" ];
    [ Lit "   - Unique Models: "; Fmt (VInt unique_models) "" ];
    [ Lit "   - Engine Types: "; Join ", " engines ];
    [ Lit "   - Null Values: Model("; Fmt (VInt n_model) "";
      Lit "), Manufacturer("; Fmt (VInt n_manufacturer) "";
      Lit "), Engine Type("; Fmt (VInt n_engine) "";
      Lit "), Manufacturing Date("; Fmt (VInt n_date) "";
      Lit ")" ] ].

(** The measurement part of the summary up to the line before the read
    that fails. *)
Definition measurement_summary_lines (first last : value)
  : list (list frag) :=
  [ [ Lit (nl ++ "📊 NVH Measurements:") ];
    [ Lit "   - Total Measurements: "; Fmt (VInt 800) "" ];
    [ Lit "   - Date Range: "; Fmt first ""; Lit " to "; Fmt last "" ] ].

(** A column of numbers, some of them missing but not all. *)
Definition numeric_column (df : pd.DataFrame) (c : string) : Prop :=
  exists ser, pd.col df c = Ok ser
              /\ pd.dropna ser <> []
              /\ forallb is_num (pd.dropna ser) = true.

(** A column with a present value, whose present values compare with
    one another. *)
Definition ordered_column (df : pd.DataFrame) (c : string) : Prop :=
  exists ser, pd.col df c = Ok ser
              /\ pd.dropna ser <> []
              /\ comparable (pd.dropna ser) = true.

(** Tables the summary can describe: every column it reads is there,
    under the label it reads, with values its statistic accepts. *)
Definition summarizable (df_vehicles df_measurements df_feedback
                         : pd.DataFrame) : Prop :=
  (forall c, In c vehicle_reads -> In c (pd.columns df_vehicles))
  /\ ordered_column df_measurements "Measurement Date"
  /\ numeric_column df_measurements "Noise Level(dB)"
  /\ numeric_column df_measurements "Vibration Frequency(Hz)"
  /\ numeric_column df_measurements "Harshness Score"
  /\ In "Road Surface" (pd.columns df_measurements)
  /\ In "Speed(km/h)" (pd.columns df_measurements)
  /\ ordered_column df_feedback "Comfort Level"
  /\ In "Comment" (pd.columns df_feedback).

(** [m], when it returns, has printed the success line and written no
    file. *)
Definition announces {A} (m : M world A) : Prop :=
  forall w a w',
    m w = (Ok a, w') -> In success_line (stdout w') /\ files w' = files w.

(** Small tables under the labels the summary reads. *)
Definition example_vehicle_table : pd.DataFrame :=
  pd.of_records
    [ [ ("Vehicle ID", VStr "VEH0001");
        ("Vehicle Model", VStr "Cruiser B1");
        ("Manufacturer", VNone);
        ("Engine Type", VStr "Diesel");
        ("Manufacturing Date", VStr "2021-03-04") ] ].

Definition example_measurement_table : pd.DataFrame :=
  pd.of_records
    [ [ ("Measurement Date", VStr "2023-05-06 07:00:00");
        ("Road Surface", VStr "Asphalt");
        ("Speed(km/h)", VInt 40);
        ("Noise Level(dB)", VFloat 70.25);
        ("Vibration Frequency(Hz)", VFloat 61.5);
        ("Harshness Score", VFloat 4.5) ] ].

Definition example_feedback_table : pd.DataFrame :=
  pd.of_records
    [ [ ("Comfort Level", VStr "Good"); ("Comment", VNone) ];
      [ ("Comfort Level", VStr "Fair"); ("Comment", VStr "Fine") ] ].

(* ================================================================== *)
(** ** The passes of the two downstream loops, taken apart *)

(** What one pass of the measurement loop has drawn when it reaches its
    date step. *)
Record measurement_drawn : Type :=
  mkDrawn { drawn_vehicle : dict;
            drawn_test_condition : string;
            drawn_road_surface : string;
            drawn_base_noise : Q;
            drawn_base_vib_freq : Q;
            drawn_speed : Z;
            drawn_harshness : Q }.

(** A pass of the measurement loop up to its date step. *)
Definition measurement_draws (df_vehicles : pd.DataFrame)
  : M rng measurement_drawn :=
  sampled <- pd.sample1 df_vehicles ;;
  vehicle <- of_outcome (pd.iloc sampled 0) ;;
  test_condition <- random.choice test_conditions ;;
  road_surface <- random.choice road_surfaces ;;
  base_noise <- base_noise_for test_condition ;;
  base_vib_freq <- base_vib_freq_for road_surface ;;
  speed <- (if negb (String.eqb test_condition "Idling")
            then random.randint 15 120 else ret 0) ;;
  harshness <- harshness_for road_surface base_noise ;;
  ret (mkDrawn vehicle test_condition road_surface base_noise
               base_vib_freq speed harshness).

(** A pass of the measurement loop after its date step: the dict. *)
Definition measurement_dict (i : Z) (d : measurement_drawn) (date : value)
  : M rng dict :=
  vehicle_id <- of_outcome (getitem (drawn_vehicle d) "Vehicle ID") ;;
  f_road <- ret (VStr (drawn_road_surface d))
            IF random_gt 0.06 ELSE ret VNone ;;
  f_speed <- ret (VInt (drawn_speed d)) IF random_gt 0.05 ELSE ret VNone ;;
  f_noise <-
    (u <- random.uniform (-3) 3 ;;
     ret (VFloat (round (drawn_base_noise d + u) 2)))
    IF random_gt 0.03 ELSE ret VNone ;;
  f_vib <- ret (VFloat (round (drawn_base_vib_freq d) 2))
           IF random_gt 0.01 ELSE ret VNone ;;
  f_harsh <- ret (VFloat (round (drawn_harshness d) 1))
             IF random_gt 0.01 ELSE ret VNone ;;
  ret [ ("Measurement ID", VStr ("MEAS" ++ format_0d 5 (i + 1)));
        ("Vehicle ID", vehicle_id);
        ("Measurement Date", date);
        ("Road Surface", f_road);
        ("Speed (KMH)", f_speed);
        ("Noise Level (dB)", f_noise);
        ("Vibration Frequency (Hz)", f_vib);
        ("Harshness Score", f_harsh) ].

(** The measurement loop run for its first [n] passes. *)
Definition measurement_passes (df_vehicles : pd.DataFrame) (n : Z)
  : M rng (list dict) :=
  for_ (range 0 n)
       (fun i measurements =>
          m <- measurement df_vehicles i ;;
          ret (measurements ++ [m])%list)
       [].

(** A pass of the feedback loop up to the draw of its comfort level:
    the sampled vehicle and the level drawn. *)
Definition feedback_draws (df_vehicles : pd.DataFrame)
  : M rng (dict * string) :=
  sampled <- pd.sample1 df_vehicles ;;
  vehicle <- of_outcome (pd.iloc sampled 0) ;;
  comfort_level <- random.choice comfort_levels ;;
  ret (vehicle, comfort_level).

(** A pass of the feedback loop after the draw of its comfort level:
    the comment and the dict. *)
Definition feedback_dict (i : Z) (vehicle : dict) (comfort_level : string)
  : M rng dict :=
  comment <- random.choice (comment_pool comfort_level) ;;
  vehicle_id <- of_outcome (getitem vehicle "Vehicle ID") ;;
  f_comfort <- ret (VStr comfort_level) IF random_gt 0.15 ELSE ret VNone ;;
  f_comment <- ret (VStr comment) IF random_gt 0.10 ELSE ret VNone ;;
  ret [ ("Feedback ID", VStr ("FB" ++ format_0d 5 (i + 1)));
        ("Vehicle ID", vehicle_id);
        ("Comfort Level", f_comfort);
        ("Comment", f_comment) ].

(** The feedback loop run for its first [n] passes. *)
Definition feedback_passes (df_vehicles : pd.DataFrame) (n : Z)
  : M rng (list dict) :=
  for_ (range 0 n)
       (fun i feedbacks =>
          f <- feedback df_vehicles i ;;
          ret (feedbacks ++ [f])%list)
       [].
(* ================================================================== *)
(** * Reasoning about computations *)

Section Returns.
Context {S : Type}.

Lemma returns_ret {A} (a : A) (s : S) (Q : A -> S -> Prop) :
  Q a s -> returns (ret a) s Q.
Proof. intros H. exists a, s. split; [reflexivity | exact H]. Qed.

Lemma returns_bind {A B} (m : M S A) (k : A -> M S B) (s : S)
      (Q : B -> S -> Prop) :
  returns m s (fun a s' => returns (k a) s' Q) ->
  returns (bind m k) s Q.
Proof.
  intros (a & s' & Hm & b & s'' & Hk & HQ).
  exists b, s''. unfold bind. rewrite Hm. split; assumption.
Qed.

Lemma returns_weaken {A} (m : M S A) (s : S) (P Q : A -> S -> Prop) :
  returns m s P -> (forall a s', P a s' -> Q a s') -> returns m s Q.
Proof.
  intros (a & s' & Hm & HP) HPQ. exists a, s'. split; auto.
Qed.

Lemma returns_of_outcome {A} (a : A) (s : S) (Q : A -> S -> Prop) :
  Q a s -> returns (of_outcome (Ok a)) s Q.
Proof. intros H. exists a, s. split; [reflexivity | exact H]. Qed.

Lemma returns_if_else {A} (x y : M S A) (c : M S bool) (s : S)
      (Q : A -> S -> Prop) :
  returns c s (fun b s' => if b then returns x s' Q else returns y s' Q) ->
  returns (x IF c ELSE y) s Q.
Proof.
  intros H. unfold if_else. apply returns_bind.
  eapply returns_weaken; [exact H |]. intros [] s' Hb; exact Hb.
Qed.

(** The loop rule: [I done acc] holds of the elements gone through
    and the accumulator reached. *)
Lemma returns_for {A X} (body : X -> A -> M S A)
      (I : list X -> A -> Prop) :
  forall (xs : list X) (acc : A) (s : S),
    I [] acc ->
    (forall done x acc s,
        I done acc ->
        returns (body x acc) s (fun acc' _ => I (done ++ [x])%list acc')) ->
    returns (for_ xs body acc) s (fun r _ => I xs r).
Proof.
  intros xs. revert I.
  induction xs as [| x xs IH]; intros I acc s H0 Hstep; simpl.
  - apply returns_ret. exact H0.
  - apply returns_bind.
    eapply returns_weaken; [apply (Hstep [] x acc s H0) |].
    intros acc' s' Hacc'. simpl in Hacc'.
    apply (IH (fun done a => I (x :: done) a)); [exact Hacc' |].
    intros done y a t Hd. apply (Hstep (x :: done) y a t Hd).
Qed.

Lemma raises_bind_here {A B} (m : M S A) (k : A -> M S B) (s : S)
      (e : exn) (Q : S -> Prop) :
  raises m s e Q -> raises (bind m k) s e Q.
Proof.
  intros (s' & Hm & HQ). exists s'. unfold bind. rewrite Hm.
  split; [reflexivity | exact HQ].
Qed.

Lemma raises_bind_later {A B} (m : M S A) (k : A -> M S B) (s : S)
      (e : exn) (Q : S -> Prop) :
  returns m s (fun a s' => raises (k a) s' e Q) ->
  raises (bind m k) s e Q.
Proof.
  intros (a & s' & Hm & s'' & Hk & HQ). exists s''. unfold bind.
  rewrite Hm. split; assumption.
Qed.

End Returns.

Example strftime_epoch_end :
  datetime.strftime_date
    (datetime.add_timedelta (datetime.datetime 2020 1 1) 1460 0)
  = "2023-12-31".
Proof. reflexivity. Qed.

Example strftime_leap_day :
  datetime.strftime_datetime
    (datetime.add_timedelta (datetime.datetime 2023 1 1) 424 23)
  = "2024-02-29 23:00:00".
Proof. reflexivity. Qed.


(* ================================================================== *)
(** * The random primitives *)

Lemma Qgtb_spec (x y : Q) : Qgtb x y = true <-> (y < x)%Q.
Proof.
  unfold Qgtb. rewrite negb_true_iff.
  destruct (Qle_bool x y) eqn:E.
  - apply Qle_bool_iff in E. split; [discriminate |].
    intros H. exfalso. apply (Qlt_not_le _ _ H E).
  - split; [| reflexivity]. intros _. apply Qnot_le_lt.
    intros H. apply Qle_bool_iff in H. congruence.
Qed.

Lemma Qltb_spec (x y : Q) : Qltb x y = true <-> (x < y)%Q.
Proof. apply (Qgtb_spec y x). Qed.

Section RandomSpecs.
Variable s : rng.

Lemma returns_getrand (Q : Z -> rng -> Prop) :
  (forall k s', Q k s') -> returns random.getrand s Q.
Proof.
  intros H. unfold returns, random.getrand. simpl.
  eexists _, _. split; [reflexivity | apply H].
Qed.

Lemma returns_random (Q : Q -> rng -> Prop) :
  (forall k s', 0 <= k < 2 ^ 53 -> Q (k # 2 ^ 53)%Q s') ->
  returns random.random s Q.
Proof.
  intros H. unfold random.random. apply returns_bind.
  apply returns_getrand. intros k s'. apply returns_ret.
  apply H. apply Z.mod_pos_bound. reflexivity.
Qed.

Lemma returns_random_gt (p : Q) (Q : bool -> rng -> Prop) :
  (forall b s', Q b s') -> returns (random_gt p) s Q.
Proof.
  intros H. unfold random_gt. apply returns_bind.
  apply returns_random. intros k s' _. apply returns_ret. apply H.
Qed.

Lemma returns_random_lt (p : Q) (Q : bool -> rng -> Prop) :
  (forall b s', Q b s') -> returns (random_lt p) s Q.
Proof.
  intros H. unfold random_lt. apply returns_bind.
  apply returns_random. intros k s' _. apply returns_ret. apply H.
Qed.

Lemma returns_randbelow (n : Z) (Q : Z -> rng -> Prop) :
  0 < n ->
  (forall i s', 0 <= i < n -> Q i s') ->
  returns (random.randbelow n) s Q.
Proof.
  intros Hn H. unfold random.randbelow. apply returns_bind.
  apply returns_getrand. intros k s'. apply returns_ret.
  apply H. apply Z.mod_pos_bound. exact Hn.
Qed.

Lemma returns_choice {A} (seq : list A) (Q : A -> rng -> Prop) :
  seq <> [] ->
  (forall x s', In x seq -> Q x s') ->
  returns (random.choice seq) s Q.
Proof.
  intros Hne H. destruct seq as [| d rest]; [congruence |].
  unfold random.choice. apply returns_bind.
  apply returns_randbelow.
  - simpl List.length. lia.
  - intros i s' Hi. apply returns_ret. apply H.
    apply nth_In. lia.
Qed.

Lemma returns_randint (a b : Z) (Q : Z -> rng -> Prop) :
  a <= b ->
  (forall z s', a <= z <= b -> Q z s') ->
  returns (random.randint a b) s Q.
Proof.
  intros Hab H. unfold random.randint.
  destruct (b <? a) eqn:E; [apply Z.ltb_lt in E; lia |].
  apply returns_bind. apply returns_randbelow; [lia |].
  intros i s' Hi. apply returns_ret. apply H. lia.
Qed.

Lemma returns_uniform (a b : Q) (Q : Q -> rng -> Prop) :
  (forall x s', Q x s') -> returns (random.uniform a b) s Q.
Proof.
  intros H. unfold random.uniform. apply returns_bind.
  apply returns_random. intros k s' _. apply returns_ret. apply H.
Qed.

(** [X if random.random() > p else None] *)
Lemma returns_nullable (p : Q) (x : M rng value)
      (Q : value -> rng -> Prop) :
  (forall s', returns x s' Q) ->
  (forall s', Q VNone s') ->
  returns (x IF random_gt p ELSE ret VNone) s Q.
Proof.
  intros Hx Hn. apply returns_if_else. apply returns_random_gt.
  intros [] s'; [apply Hx | apply returns_ret, Hn].
Qed.

Lemma returns_sample1 (df : pd.DataFrame)
      (Q : pd.DataFrame -> rng -> Prop) :
  pd.data df <> [] ->
  (forall row s', In row (pd.data df) ->
                  Q (pd.mkDF (pd.columns df) [row]) s') ->
  returns (pd.sample1 df) s Q.
Proof.
  intros Hne H. unfold returns, pd.sample1.
  destruct (pd.data df) as [| d rest] eqn:E; [congruence |].
  lazy beta iota delta [gen_next].
  eexists _, _. split; [reflexivity |]. apply H.
  apply nth_In.
  pose proof (Z.mod_pos_bound (tape (np s) (pos (np s)))
                (Z.of_nat (List.length (d :: rest)))) as Hb.
  assert (0 < Z.of_nat (List.length (d :: rest))) by (simpl; lia).
  lia.
Qed.

End RandomSpecs.

(* ================================================================== *)
(** * Frames built from records *)

Lemma existsb_eqb_In (x : string) (l : list string) :
  existsb (String.eqb x) l = true <-> In x l.
Proof.
  rewrite existsb_exists. split.
  - intros (y & Hy & E). apply String.eqb_eq in E. subst. exact Hy.
  - intros H. exists x. split; [exact H | apply String.eqb_refl].
Qed.

Section UniqueBy.
Context {A : Type} (eqb : A -> A -> bool).

Let add (acc : list A) (x : A) : list A :=
  if existsb (eqb x) acc then acc else (acc ++ [x])%list.

Lemma unique_by_app (xs ys : list A) :
  unique_by eqb (xs ++ ys)%list = fold_left add ys (unique_by eqb xs).
Proof. unfold unique_by. apply fold_left_app. Qed.

Lemma fold_add_absorbed (ys acc : list A) :
  (forall y, In y ys -> existsb (eqb y) acc = true) ->
  fold_left add ys acc = acc.
Proof.
  induction ys as [| y ys IH]; intros H; simpl; [reflexivity |].
  unfold add at 2. rewrite (H y (or_introl eq_refl)).
  apply IH. intros z Hz. apply H. right. exact Hz.
Qed.

End UniqueBy.

(** The labels of records that all carry the labels [K]. *)
Lemma flat_map_keys_same (K : list string) (records : list dict) :
  Forall (fun r => keys r = K) records ->
  forall k, In k (flat_map keys records) -> In k K.
Proof.
  intros HK k Hk. apply in_flat_map in Hk. destruct Hk as (r & Hr & Hk).
  rewrite Forall_forall in HK. rewrite <- (HK r Hr). exact Hk.
Qed.

Lemma columns_of_records (K : list string) (records : list dict) :
  records <> [] ->
  unique_by String.eqb K = K ->
  Forall (fun r => keys r = K) records ->
  pd.columns (pd.of_records records) = K.
Proof.
  intros Hne HU HK. destruct records as [| r rest]; [congruence |].
  unfold pd.of_records. simpl pd.columns. simpl flat_map.
  apply Forall_cons_iff in HK. destruct HK as [Hr Hrest].
  rewrite unique_by_app, Hr, HU.
  apply fold_add_absorbed. intros y Hy. apply existsb_eqb_In.
  eapply flat_map_keys_same; [exact Hrest | exact Hy].
Qed.

Lemma cell_cons_other (k k' : string) (v : value) (r : dict) :
  k <> k' -> cell ((k, v) :: r) k' = cell r k'.
Proof.
  intros Hne. unfold cell. simpl.
  destruct (String.eqb k k') eqn:E; [| reflexivity].
  apply String.eqb_eq in E. contradiction.
Qed.

(** A record with distinct labels is its labels paired with its cells. *)
Lemma combine_keys_cells (r : dict) :
  NoDup (keys r) -> combine (keys r) (map (cell r) (keys r)) = r.
Proof.
  induction r as [| [k v] r IH]; intros Hnd; [reflexivity |].
  simpl keys in *. inversion Hnd as [| ? ? Hk Hnd']; subst.
  simpl. f_equal.
  - unfold cell. simpl. rewrite String.eqb_refl. reflexivity.
  - rewrite (map_ext_in (cell ((k, v) :: r)) (cell r)); [apply IH, Hnd' |].
    intros k' Hk'. apply cell_cons_other. intros ->. contradiction.
Qed.

Lemma rows_of_records (K : list string) (records : list dict) :
  records <> [] ->
  unique_by String.eqb K = K ->
  NoDup K ->
  Forall (fun r => keys r = K) records ->
  rows (pd.of_records records) = records.
Proof.
  intros Hne HU Hnd HK.
  pose proof (columns_of_records K records Hne HU HK) as Hc.
  unfold pd.of_records in *. simpl pd.columns in Hc.
  unfold rows. simpl pd.columns. simpl pd.data. rewrite Hc.
  rewrite map_map. rewrite <- (map_id records) at 2.
  apply map_ext_in. intros r Hr.
  rewrite Forall_forall in HK. specialize (HK r Hr).
  rewrite <- HK. change (fun c => match dict_get r c with
                                  | Some v => v
                                  | None => VNone
                                  end) with (cell r).
  apply combine_keys_cells. rewrite HK. exact Hnd.
Qed.

Lemma len_of_records (records : list dict) :
  pd.len (pd.of_records records) = Z.of_nat (List.length records).
Proof.
  unfold pd.len, pd.of_records. simpl. rewrite length_map. reflexivity.
Qed.

Lemma wf_of_records (records : list dict) :
  wf_frame (pd.of_records records).
Proof.
  unfold wf_frame, pd.of_records. simpl. apply Forall_forall.
  intros row Hrow. apply in_map_iff in Hrow.
  destruct Hrow as (r & <- & _). apply length_map.
Qed.

Lemma index_of_In (c : string) (cols : list string) :
  In c cols ->
  exists i, index_of c cols = Some i /\ (i < List.length cols)%nat
            /\ nth i cols "" = c.
Proof.
  induction cols as [| c' cols IH]; intros Hin; [destruct Hin |].
  simpl. destruct (String.eqb c' c) eqn:E.
  - apply String.eqb_eq in E. subst. exists O. simpl.
    repeat split. lia.
  - destruct Hin as [-> | Hin]; [rewrite String.eqb_refl in E; discriminate |].
    destruct (IH Hin) as (i & -> & Hlt & Hn). exists (S i).
    simpl. repeat split; [lia | exact Hn].
Qed.

Lemma index_of_not_In (c : string) (cols : list string) :
  ~ In c cols -> index_of c cols = None.
Proof.
  induction cols as [| c' cols IH]; intros Hin; [reflexivity |].
  simpl. destruct (String.eqb c' c) eqn:E.
  - apply String.eqb_eq in E. subst. exfalso. apply Hin. left. reflexivity.
  - rewrite IH; [reflexivity |]. intros H. apply Hin. right. exact H.
Qed.

(** [df[c]] on a frame built from records that all carry the labels
    [K]: the cells under [c], record by record. *)
Lemma col_of_records (K : list string) (records : list dict) (c : string) :
  records <> [] ->
  unique_by String.eqb K = K ->
  Forall (fun r => keys r = K) records ->
  In c K ->
  pd.col (pd.of_records records) c = Ok (map (fun r => cell r c) records).
Proof.
  intros Hne HU HK Hc.
  pose proof (columns_of_records K records Hne HU HK) as Hcols.
  unfold pd.of_records in *. simpl pd.columns in Hcols.
  unfold pd.col. simpl pd.columns. simpl pd.data. rewrite Hcols.
  destruct (index_of_In c K Hc) as (i & -> & Hlt & Hn).
  f_equal. rewrite map_map. apply map_ext. intros r.
  change (fun c0 => match dict_get r c0 with
                    | Some v => v
                    | None => VNone
                    end) with (cell r).
  rewrite (nth_indep _ VNone (cell r "")) by (rewrite length_map; exact Hlt).
  rewrite map_nth. rewrite Hn. reflexivity.
Qed.

Lemma col_missing (df : pd.DataFrame) (c : string) :
  ~ In c (pd.columns df) -> pd.col df c = Raise (KeyError c).
Proof.
  intros H. unfold pd.col. rewrite (index_of_not_In c _ H). reflexivity.
Qed.

(* ================================================================== *)
(** * Field-level nulling *)

Lemma returns_bind_post {S A B} (m : M S A) (k : A -> M S B) (s : S)
      (P : A -> S -> Prop) (Q : B -> S -> Prop) :
  returns m s P ->
  (forall a s', P a s' -> returns (k a) s' Q) ->
  returns (bind m k) s Q.
Proof.
  intros Hm Hk. apply returns_bind. eapply returns_weaken; [exact Hm |].
  exact Hk.
Qed.

Lemma returns_field (x : M rng value) (p : Q) (P : value -> Prop) (s : rng) :
  (forall s', returns x s' (fun v _ => P v)) ->
  returns (x IF random_gt p ELSE ret VNone) s
          (fun f _ => P f \/ f = VNone).
Proof.
  intros Hx. apply returns_nullable.
  - intros s'. eapply returns_weaken; [apply Hx |]. intros v s'' Hv.
    left. exact Hv.
  - intros s'. right. reflexivity.
Qed.

Lemma returns_field_ret (v : value) (p : Q) (s : rng) :
  returns (ret v IF random_gt p ELSE ret VNone) s
          (fun f _ => nullable v f).
Proof.
  apply (returns_field (ret v) p (fun f => f = v)).
  intros s'. apply returns_ret. reflexivity.
Qed.

(* ================================================================== *)
(** * The vehicle generator *)

Lemma returns_engine_for (model : string) (s : rng) :
  returns (engine_for model) s (fun e _ => engine_matches model e).
Proof.
  unfold engine_for, engine_matches.
  destruct (contains "Electric" model); [apply returns_ret; reflexivity |].
  destruct (contains "Hybrid" model); [apply returns_ret; reflexivity |].
  apply returns_choice; [discriminate |]. intros e s' He. exact He.
Qed.

(** Each pass of the first loop returns, with a vehicle record. *)
Lemma returns_vehicle (i : Z) (s : rng) :
  returns (vehicle i) s (fun r _ => vehicle_record i r).
Proof.
  unfold vehicle.
  eapply returns_bind_post;
    [apply (returns_choice s vehicle_models
              (fun m _ => In m vehicle_models)); [discriminate | auto] |].
  intros model s1 Hmodel.
  eapply returns_bind_post; [apply returns_engine_for |].
  intros engine s2 Hengine.
  eapply returns_bind_post; [apply returns_field_ret |].
  intros f_model s3 Hf_model.
  eapply returns_bind_post.
  { apply (returns_field _ _
             (fun f => exists m, In m manufacturers /\ f = VStr m)).
    intros s'. apply returns_bind.
    apply returns_choice; [discriminate |].
    intros m s'' Hm. apply returns_ret. exists m. split; auto. }
  intros f_manufacturer s4 Hf_manufacturer.
  eapply returns_bind_post; [apply returns_field_ret |].
  intros f_engine s5 Hf_engine.
  eapply returns_bind_post.
  { apply (returns_field _ _ (fun f => exists d, f = VStr d)).
    intros s'. apply returns_bind.
    apply returns_randint; [lia |].
    intros d s'' _. apply returns_ret. eexists. reflexivity. }
  intros f_date s6 Hf_date.
  apply returns_ret.
  exists model, engine, f_model, f_manufacturer, f_engine, f_date.
  repeat split; try assumption.
  - destruct Hf_manufacturer as [(m & Hm & ->) | ->].
    + exists m. split; [exact Hm | left; reflexivity].
    + exists "AutoCorp". split; [left; reflexivity | right; reflexivity].
  - destruct Hf_date as [(d & ->) | ->].
    + exists d. left. reflexivity.
    + exists "". right. reflexivity.
Qed.

Lemma vehicle_record_keys (i : Z) (r : dict) :
  vehicle_record i r -> keys r = vehicle_columns.
Proof.
  intros (model & engine & fm & fman & fe & fd & -> & _). reflexivity.
Qed.

Lemma length_range (a b : Z) :
  List.length (range a b) = Z.to_nat (b - a).
Proof. unfold range. rewrite length_map, length_seq. reflexivity. Qed.

Lemma copies_length_ge {A} (base l : list A) :
  copies base l -> (List.length base <= List.length l)%nat.
Proof.
  induction 1 as [| l d _ IH _]; [lia |].
  rewrite length_app. simpl. lia.
Qed.

Lemma copies_Forall {A} (P : A -> Prop) (base l : list A) :
  copies base l -> Forall P base -> Forall P l.
Proof.
  induction 1 as [| l d _ IH Hin]; intros Hb; [exact Hb |].
  apply Forall_app. split; [apply IH, Hb |].
  constructor; [| constructor].
  specialize (IH Hb). rewrite Forall_forall in IH. apply IH, Hin.
Qed.

(** Every element beyond the base equals an element at a smaller
    index. *)
Lemma copies_earlier {A} (base l : list A) :
  copies base l ->
  forall j x,
    (List.length base <= j)%nat ->
    nth_error l j = Some x ->
    exists j', (j' < j)%nat /\ nth_error l j' = Some x.
Proof.
  induction 1 as [| l d Hc IH Hin]; intros j x Hj Hx.
  - assert (nth_error base j = None) by (apply nth_error_None; lia).
    congruence.
  - pose proof (copies_length_ge _ _ Hc) as Hlen.
    destruct (Nat.lt_ge_cases j (List.length l)) as [Hlt | Hge].
    + rewrite nth_error_app1 in Hx by exact Hlt.
      destruct (IH j x Hj Hx) as (j' & Hj' & Hx').
      exists j'. split; [exact Hj' |].
      rewrite nth_error_app1 by lia. exact Hx'.
    + rewrite nth_error_app2 in Hx by exact Hge.
      destruct (j - List.length l)%nat as [| n] eqn:E; simpl in Hx.
      * injection Hx as <-. apply In_nth_error in Hin.
        destruct Hin as (j' & Hj').
        assert (j' < List.length l)%nat
          by (apply nth_error_Some; congruence).
        exists j'. split; [lia |].
        rewrite nth_error_app1 by assumption. exact Hj'.
      * destruct n; discriminate.
Qed.

Lemma Forall2_snoc {A B} (R : A -> B -> Prop) (xs : list A) (ys : list B)
      (x : A) (y : B) :
  Forall2 R xs ys -> R x y -> Forall2 R (xs ++ [x])%list (ys ++ [y])%list.
Proof.
  intros H Hxy. apply Forall2_app; [exact H |].
  constructor; [exact Hxy | constructor].
Qed.

Lemma Forall2_right {A B} (R : A -> B -> Prop) (P : B -> Prop)
      (xs : list A) (ys : list B) :
  (forall x y, R x y -> P y) -> Forall2 R xs ys -> Forall P ys.
Proof.
  intros HRP H. induction H; constructor; eauto.
Qed.

(** A loop that appends one record per element. *)
Lemma returns_for_append {X} (R : X -> dict -> Prop)
      (body : X -> M rng dict) (xs : list X) (s : rng) :
  (forall x s', returns (body x) s' (fun r _ => R x r)) ->
  returns (for_ xs (fun x acc => r <- body x ;; ret (acc ++ [r])%list) [])
          s (fun records _ => Forall2 R xs records).
Proof.
  intros Hbody.
  apply (returns_for _ (fun done acc => Forall2 R done acc)).
  - constructor.
  - intros done x acc s' Hinv.
    eapply returns_bind_post; [apply Hbody |].
    intros r s'' Hr. apply returns_ret. apply Forall2_snoc; assumption.
Qed.

Lemma num_duplicates_floor : num_duplicates = NUM_VEHICLES / 10.
Proof. reflexivity. Qed.

Lemma returns_vehicle_records (s : rng) :
  returns vehicle_records s
          (fun records _ =>
             exists base,
               Forall2 vehicle_record (range 1 (NUM_VEHICLES + 1)) base
               /\ copies base records
               /\ List.length records
                  = (List.length base + Z.to_nat num_duplicates)%nat).
Proof.
  unfold vehicle_records.
  eapply returns_bind_post;
    [apply (returns_for_append vehicle_record vehicle); intros;
     apply returns_vehicle |].
  intros base s1 Hbase.
  assert (Hlen : List.length base = 60%nat).
  { apply Forall2_length in Hbase. rewrite <- Hbase, length_range.
    reflexivity. }
  eapply returns_weaken.
  - apply (returns_for _
             (fun done acc =>
                copies base acc
                /\ List.length acc
                   = (List.length base + List.length done)%nat)).
    + split; [constructor | simpl; lia].
    + intros done x acc s' [Hc Hl].
      eapply returns_bind_post.
      * apply (returns_choice s' acc (fun d _ => In d acc)); [| auto].
        intros ->. simpl in Hl. lia.
      * intros d s'' Hd. apply returns_ret. split.
        -- constructor; assumption.
        -- rewrite !length_app, Hl. simpl. lia.
  - intros records s' [Hc Hl]. exists base.
    split; [exact Hbase | split; [exact Hc |]].
    rewrite Hl, length_range. reflexivity.
Qed.

(** [generate_vehicle_master] returns on every random state. *)
Lemma returns_generate_vehicle_master (s : rng) :
  returns generate_vehicle_master s (fun df _ => vehicle_master df).
Proof.
  unfold generate_vehicle_master.
  eapply returns_bind_post; [apply returns_vehicle_records |].
  intros records s' (base & Hbase & Hc & Hl). apply returns_ret.
  exists base, records. auto.
Qed.

Section VehicleMaster.
Variables (base records : list dict).
Hypothesis Hbase :
  Forall2 vehicle_record (range 1 (NUM_VEHICLES + 1)) base.
Hypothesis Hcopies : copies base records.
Hypothesis Hlength :
  List.length records
  = (List.length base + Z.to_nat num_duplicates)%nat.

Lemma vehicle_base_length : List.length base = 60%nat.
Proof.
  apply Forall2_length in Hbase. rewrite <- Hbase, length_range.
  reflexivity.
Qed.

Lemma vehicle_records_length : List.length records = 66%nat.
Proof. rewrite Hlength, vehicle_base_length. reflexivity. Qed.

Lemma vehicle_records_nonempty : records <> [].
Proof.
  pose proof vehicle_records_length. intros ->. discriminate.
Qed.

Lemma vehicle_records_all :
  Forall (fun r => exists i, vehicle_record i r) records.
Proof.
  apply (copies_Forall _ base); [exact Hcopies |].
  apply (Forall2_right vehicle_record _ _ _ (fun i r H => ex_intro _ i H)
                       Hbase).
Qed.

Lemma vehicle_records_keys :
  Forall (fun r => keys r = vehicle_columns) records.
Proof.
  eapply Forall_impl; [| apply vehicle_records_all].
  intros r (i & Hr). apply (vehicle_record_keys i r Hr).
Qed.

Lemma vehicle_master_rows : rows (pd.of_records records) = records.
Proof.
  apply (rows_of_records vehicle_columns).
  - apply vehicle_records_nonempty.
  - reflexivity.
  - repeat constructor; simpl; intuition discriminate.
  - apply vehicle_records_keys.
Qed.

Lemma vehicle_master_columns :
  pd.columns (pd.of_records records) = vehicle_columns.
Proof.
  apply columns_of_records.
  - apply vehicle_records_nonempty.
  - reflexivity.
  - apply vehicle_records_keys.
Qed.

Lemma vehicle_master_len : pd.len (pd.of_records records) = 66.
Proof. rewrite len_of_records, vehicle_records_length. reflexivity. Qed.

(** The frame can be sampled by the downstream generators. *)
Lemma vehicle_master_table : vehicle_table (pd.of_records records).
Proof.
  split.
  - unfold pd.of_records. simpl.
    pose proof vehicle_records_nonempty.
    destruct records; [congruence | discriminate].
  - rewrite vehicle_master_rows. intros v Hv.
    pose proof vehicle_records_all as Hall.
    rewrite Forall_forall in Hall.
    destruct (Hall v Hv) as (i & m & e & fm & fman & fe & fd & -> & _).
    eexists. reflexivity.
Qed.

End VehicleMaster.

(* ================================================================== *)
(** * The measurement generator *)

Lemma returns_self {S A} (m : M S A) (s : S) (Q : A -> S -> Prop) :
  returns m s Q ->
  returns m s (fun a s' => m s = (Ok a, s') /\ Q a s').
Proof.
  intros (a & s' & Hm & HQ). exists a, s'. auto.
Qed.

Lemma returns_base_noise_for (test_condition : string) (s : rng) :
  returns (base_noise_for test_condition) s (fun _ _ => True).
Proof.
  unfold base_noise_for.
  repeat match goal with
         | |- context [if ?b then _ else _] => destruct b
         end;
    try (apply returns_uniform; auto); apply returns_ret; exact I.
Qed.

Lemma returns_base_vib_freq_for (road_surface : string) (s : rng) :
  returns (base_vib_freq_for road_surface) s (fun _ _ => True).
Proof.
  unfold base_vib_freq_for.
  repeat match goal with
         | |- context [if ?b then _ else _] => destruct b
         end;
    apply returns_uniform; auto.
Qed.

Lemma returns_harshness_for (road_surface : string) (base_noise : Q)
      (s : rng) :
  returns (harshness_for road_surface base_noise) s (fun _ _ => True).
Proof.
  unfold harshness_for.
  repeat match goal with
         | |- context [if ?b then _ else _] => destruct b
         end;
    apply returns_uniform; auto.
Qed.

Ltac draw_randint :=
  apply returns_bind; apply returns_randint; [lia |];
  let z := fresh "z" in
  let s := fresh "s" in
  let H := fresh "Hz" in
  intros z s H.

(** The 1% branch always returns, with one of its timestamp strings. *)
Lemma returns_inconsistent_date (s : rng) :
  returns inconsistent_date s (fun v _ => inconsistent_date_value v).
Proof.
  unfold inconsistent_date. apply returns_bind.
  apply returns_choice; [discriminate |].
  intros ty s1 _. destruct (String.eqb ty "future_year").
  - do 4 draw_randint. apply returns_ret.
    exists 2029, z, z0, z1, z2. repeat split; try lia.
    left. reflexivity.
  - apply returns_bind. apply returns_choice; [discriminate |].
    intros y s2 Hy. do 4 draw_randint. apply returns_ret.
    exists y, z, z0, z1, z2. repeat split; try lia.
    right. exact Hy.
Qed.

Lemma returns_measurement_date (s : rng) :
  returns measurement_date s (fun v _ => date_value v).
Proof.
  unfold measurement_date. apply returns_bind. apply returns_random_lt.
  intros [] s1.
  - eapply returns_weaken; [apply returns_inconsistent_date |].
    intros v s2 (y & mo & d & h & mi & _ & _ & _ & _ & _ & ->).
    right. eexists. reflexivity.
  - eapply returns_weaken.
    + apply (returns_field _ _ (fun v => exists d, v = VStr d)).
      intros s'. do 2 draw_randint. apply returns_ret.
      eexists. reflexivity.
    + intros v s2 [H | ->]; [right; exact H | left; reflexivity].
Qed.

(** When the draw that opens the date step is below 0.01, the date is
    one of the inconsistent timestamps. *)
Lemma measurement_date_inconsistent (s : rng) :
  fst (random_lt 0.01 s) = Ok true ->
  returns measurement_date s (fun v _ => inconsistent_date_value v).
Proof.
  intros Hlt. unfold measurement_date, returns, bind.
  destruct (random_lt 0.01 s) as [o s1]. simpl in Hlt. subst o.
  apply returns_inconsistent_date.
Qed.

Lemma getitem_Some (d : dict) (k : string) (v : value) :
  dict_get d k = Some v -> getitem d k = Ok v.
Proof. intros H. unfold getitem. rewrite H. reflexivity. Qed.

Lemma iloc_single (cols : list string) (row : list value) :
  pd.iloc (pd.mkDF cols [row]) 0 = Ok (combine cols row).
Proof. reflexivity. Qed.

(** Sampling one row of a frame that has rows. *)
Lemma returns_sample_row (df : pd.DataFrame) (s : rng) :
  pd.data df <> [] ->
  returns (sampled <- pd.sample1 df ;; of_outcome (pd.iloc sampled 0)) s
          (fun vehicle _ => In vehicle (rows df)).
Proof.
  intros Hne. apply returns_bind. apply returns_sample1; [exact Hne |].
  intros row s1 Hrow. rewrite iloc_single. apply returns_of_outcome.
  unfold rows. apply in_map. exact Hrow.
Qed.

Lemma bind_assoc {S A B C} (m : M S A) (k : A -> M S B) (h : B -> M S C)
      (s : S) :
  bind (bind m k) h s = bind m (fun a => bind (k a) h) s.
Proof.
  unfold bind. destruct (m s) as [[a | e] s1]; reflexivity.
Qed.

(** Each pass of the measurement loop returns, with a measurement
    record, on a frame that can be sampled. *)
Lemma returns_measurement (df : pd.DataFrame) (i : Z) (s : rng) :
  vehicle_table df ->
  returns (measurement df i) s (fun r _ => measurement_record df i r).
Proof.
  intros [Hne Hids]. unfold measurement.
  apply returns_bind. apply returns_sample1; [exact Hne |].
  intros row s1 Hrow. apply returns_bind. rewrite iloc_single.
  apply returns_of_outcome.
  set (vehicle := combine (pd.columns df) row).
  assert (Hvehicle : In vehicle (rows df))
    by (unfold rows; apply in_map; exact Hrow).
  destruct (Hids vehicle Hvehicle) as (id & Hid).
  apply returns_bind. apply returns_choice; [discriminate |].
  intros test_condition s2 _.
  eapply returns_bind_post;
    [apply (returns_choice s2 road_surfaces
              (fun x _ => In x road_surfaces)); [discriminate | auto] |].
  intros road_surface s3 Hroad.
  eapply returns_bind_post; [apply returns_base_noise_for |].
  intros base_noise s4 _.
  eapply returns_bind_post; [apply returns_base_vib_freq_for |].
  intros base_vib_freq s5 _.
  eapply returns_bind_post with (P := fun z _ => 0 <= z <= 120).
  { destruct (negb (String.eqb test_condition "Idling")).
    - apply returns_randint; [lia |]. intros; lia.
    - apply returns_ret. lia. }
  intros speed s6 Hspeed.
  eapply returns_bind_post; [apply returns_harshness_for |].
  intros harshness s7 _.
  eapply returns_bind_post;
    [apply returns_self, returns_measurement_date |].
  intros date s8 [Hrun Hdate].
  apply returns_bind. rewrite (getitem_Some _ _ _ Hid).
  apply returns_of_outcome.
  eapply returns_bind_post; [apply returns_field_ret |].
  intros f_road s9 Hf_road.
  eapply returns_bind_post; [apply returns_field_ret |].
  intros f_speed s10 Hf_speed.
  eapply returns_bind_post.
  { apply (returns_field _ _ (fun f => exists q, f = VFloat q)).
    intros s'. apply returns_bind. apply returns_uniform.
    intros u s'' . apply returns_ret. eexists. reflexivity. }
  intros f_noise s11 Hf_noise.
  eapply returns_bind_post; [apply returns_field_ret |].
  intros f_vib s12 Hf_vib.
  eapply returns_bind_post; [apply returns_field_ret |].
  intros f_harsh s13 Hf_harsh.
  apply returns_ret. cbv beta in *.
  exists vehicle, (VStr id), date, f_road, f_speed, f_noise, f_vib, f_harsh.
  split; [reflexivity |].
  split; [exact Hvehicle |].
  split; [exact Hid |].
  split; [exact Hdate |].
  split; [exists s7, s8; exact Hrun |].
  split; [exists road_surface; auto |].
  split; [exists speed; auto |].
  split.
  { destruct Hf_noise as [(q & ->) | ->].
    - exists q. left. reflexivity.
    - exists 0%Q. right. reflexivity. }
  split; eexists; eassumption.
Qed.

Lemma measurement_record_keys (df : pd.DataFrame) (i : Z) (r : dict) :
  measurement_record df i r -> keys r = measurement_columns.
Proof.
  intros (v & vid & d & f1 & f2 & f3 & f4 & f5 & -> & _). reflexivity.
Qed.

(** [generate_nvh_measurements] returns on every frame that can be
    sampled. *)
Lemma returns_generate_nvh_measurements (df : pd.DataFrame) (s : rng) :
  vehicle_table df ->
  returns (generate_nvh_measurements df) s
          (fun dfm _ => nvh_measurements df dfm).
Proof.
  intros Hdf. unfold generate_nvh_measurements, measurement_records.
  eapply returns_bind_post.
  - apply (returns_for_append (measurement_record df) (measurement df)).
    intros i s'. apply returns_measurement. exact Hdf.
  - intros records s' Hrecords. apply returns_ret.
    exists records. auto.
Qed.

Section NvhMeasurements.
Variables (df_vehicles : pd.DataFrame) (records : list dict).
Hypothesis Hrecords :
  Forall2 (measurement_record df_vehicles)
          (range 0 NUM_MEASUREMENTS) records.

Lemma measurement_records_length : List.length records = 800%nat.
Proof.
  apply Forall2_length in Hrecords. rewrite <- Hrecords, length_range.
  reflexivity.
Qed.

Lemma measurement_records_nonempty : records <> [].
Proof.
  pose proof measurement_records_length. intros ->. discriminate.
Qed.

Lemma measurement_records_all :
  Forall (fun r => exists i, measurement_record df_vehicles i r) records.
Proof.
  apply (Forall2_right (measurement_record df_vehicles) _ _ _
                       (fun i r H => ex_intro _ i H) Hrecords).
Qed.

Lemma measurement_records_keys :
  Forall (fun r => keys r = measurement_columns) records.
Proof.
  eapply Forall_impl; [| apply measurement_records_all].
  intros r (i & Hr). apply (measurement_record_keys _ i r Hr).
Qed.

Lemma nvh_measurements_rows : rows (pd.of_records records) = records.
Proof.
  apply (rows_of_records measurement_columns).
  - apply measurement_records_nonempty.
  - reflexivity.
  - repeat constructor; simpl; intuition discriminate.
  - apply measurement_records_keys.
Qed.

Lemma nvh_measurements_columns :
  pd.columns (pd.of_records records) = measurement_columns.
Proof.
  apply columns_of_records.
  - apply measurement_records_nonempty.
  - reflexivity.
  - apply measurement_records_keys.
Qed.

Lemma nvh_measurements_len : pd.len (pd.of_records records) = 800.
Proof.
  rewrite len_of_records, measurement_records_length. reflexivity.
Qed.

Lemma nvh_measurements_col (c : string) :
  In c measurement_columns ->
  pd.col (pd.of_records records) c
  = Ok (map (fun r => cell r c) records).
Proof.
  apply col_of_records.
  - apply measurement_records_nonempty.
  - reflexivity.
  - apply measurement_records_keys.
Qed.

End NvhMeasurements.

(* ================================================================== *)
(** * The feedback generator *)

Lemma comment_pool_nonempty (comfort_level : string) :
  comment_pool comfort_level <> [].
Proof.
  unfold comment_pool.
  destruct (str_in comfort_level _); [discriminate |].
  destruct (str_in comfort_level _); discriminate.
Qed.

(** Each pass of the feedback loop returns, with a feedback record, on
    a frame that can be sampled. *)
Lemma returns_feedback (df : pd.DataFrame) (i : Z) (s : rng) :
  vehicle_table df ->
  returns (feedback df i) s (fun r _ => feedback_record df i r).
Proof.
  intros [Hne Hids]. unfold feedback.
  apply returns_bind. apply returns_sample1; [exact Hne |].
  intros row s1 Hrow. apply returns_bind. rewrite iloc_single.
  apply returns_of_outcome.
  set (vehicle := combine (pd.columns df) row).
  assert (Hvehicle : In vehicle (rows df))
    by (unfold rows; apply in_map; exact Hrow).
  destruct (Hids vehicle Hvehicle) as (id & Hid).
  eapply returns_bind_post;
    [apply (returns_choice s1 comfort_levels
              (fun x _ => In x comfort_levels)); [discriminate | auto] |].
  intros comfort_level s2 Hlevel.
  eapply returns_bind_post;
    [apply (returns_choice s2 (comment_pool comfort_level)
              (fun x _ => In x (comment_pool comfort_level)));
     [apply comment_pool_nonempty | auto] |].
  intros comment s3 Hcomment.
  apply returns_bind. rewrite (getitem_Some _ _ _ Hid).
  apply returns_of_outcome.
  eapply returns_bind_post; [apply returns_field_ret |].
  intros f_comfort s4 Hf_comfort.
  eapply returns_bind_post; [apply returns_field_ret |].
  intros f_comment s5 Hf_comment.
  apply returns_ret. cbv beta in *.
  exists vehicle, (VStr id), comfort_level, comment, f_comfort, f_comment.
  repeat (split; [first [reflexivity | assumption] |]). assumption.
Qed.

Lemma feedback_record_keys (df : pd.DataFrame) (i : Z) (r : dict) :
  feedback_record df i r -> keys r = feedback_columns.
Proof.
  intros (v & vid & c & m & f1 & f2 & -> & _). reflexivity.
Qed.

(** [generate_customer_feedback] returns on every frame that can be
    sampled. *)
Lemma returns_generate_customer_feedback (df : pd.DataFrame) (s : rng) :
  vehicle_table df ->
  returns (generate_customer_feedback df) s
          (fun dff _ => customer_feedback df dff).
Proof.
  intros Hdf. unfold generate_customer_feedback, feedback_records.
  eapply returns_bind_post.
  - apply (returns_for_append (feedback_record df) (feedback df)).
    intros i s'. apply returns_feedback. exact Hdf.
  - intros records s' Hrecords. apply returns_ret.
    exists records. auto.
Qed.

Section CustomerFeedback.
Variables (df_vehicles : pd.DataFrame) (records : list dict).
Hypothesis Hrecords :
  Forall2 (feedback_record df_vehicles) (range 0 NUM_FEEDBACK) records.

Lemma feedback_records_length : List.length records = 600%nat.
Proof.
  apply Forall2_length in Hrecords. rewrite <- Hrecords, length_range.
  reflexivity.
Qed.

Lemma feedback_records_nonempty : records <> [].
Proof.
  pose proof feedback_records_length. intros ->. discriminate.
Qed.

Lemma feedback_records_all :
  Forall (fun r => exists i, feedback_record df_vehicles i r) records.
Proof.
  apply (Forall2_right (feedback_record df_vehicles) _ _ _
                       (fun i r H => ex_intro _ i H) Hrecords).
Qed.

Lemma feedback_records_keys :
  Forall (fun r => keys r = feedback_columns) records.
Proof.
  eapply Forall_impl; [| apply feedback_records_all].
  intros r (i & Hr). apply (feedback_record_keys _ i r Hr).
Qed.

Lemma customer_feedback_rows : rows (pd.of_records records) = records.
Proof.
  apply (rows_of_records feedback_columns).
  - apply feedback_records_nonempty.
  - reflexivity.
  - repeat constructor; simpl; intuition discriminate.
  - apply feedback_records_keys.
Qed.

Lemma customer_feedback_len : pd.len (pd.of_records records) = 600.
Proof.
  rewrite len_of_records, feedback_records_length. reflexivity.
Qed.

End CustomerFeedback.

(* ================================================================== *)
(** * Properties of the three tables *)

Lemma copies_app {A} (base l : list A) :
  copies base l -> exists appended, l = (base ++ appended)%list.
Proof.
  induction 1 as [| l d _ (appended & ->) _].
  - exists []. symmetry. apply app_nil_r.
  - exists (appended ++ [d])%list. symmetry. apply app_assoc.
Qed.

Lemma returns_run {S A} (m : M S A) (s : S) (Q : A -> S -> Prop) :
  returns m s Q -> exists a s', m s = (Ok a, s') /\ Q a s'.
Proof. intros H. exact H. Qed.

(** C1. With NUM_VEHICLES = 60, NUM_MEASUREMENTS = 800 and
    NUM_FEEDBACK = 600, on every random state the three generators
    return: the vehicle table has N + floor(0.10 N) = 66 rows, the N
    records of the first loop (one per vehicle number 1..N) followed by
    the floor(0.10 N) = 6 rows the second loop appends; the measurement
    table has exactly 800 rows and the feedback table exactly 600. *)
Theorem table_row_counts (s : rng) :
  exists df_vehicles s1 df_measurements s2 df_feedback s3,
    generate_vehicle_master s = (Ok df_vehicles, s1)
    /\ generate_nvh_measurements df_vehicles s1 = (Ok df_measurements, s2)
    /\ generate_customer_feedback df_vehicles s2 = (Ok df_feedback, s3)
    /\ pd.len df_vehicles = NUM_VEHICLES + NUM_VEHICLES / 10
    /\ pd.len df_vehicles = 66
    /\ (exists base appended,
           rows df_vehicles = (base ++ appended)%list
           /\ Forall2 vehicle_record (range 1 (NUM_VEHICLES + 1)) base
           /\ Z.of_nat (List.length base) = NUM_VEHICLES
           /\ Z.of_nat (List.length appended) = NUM_VEHICLES / 10)
    /\ pd.len df_measurements = 800
    /\ pd.len df_feedback = 600.
Proof.
  destruct (returns_generate_vehicle_master s)
    as (dfv & s1 & Hv & base & records & -> & Hbase & Hcopies & Hlen).
  pose proof (vehicle_master_table base records Hbase Hcopies Hlen)
    as Htable.
  destruct (returns_generate_nvh_measurements _ s1 Htable)
    as (dfm & s2 & Hm & mrecords & -> & Hmrecords).
  destruct (returns_generate_customer_feedback _ s2 Htable)
    as (dff & s3 & Hf & frecords & -> & Hfrecords).
  exists (pd.of_records records), s1, (pd.of_records mrecords), s2,
         (pd.of_records frecords), s3.
  pose proof (vehicle_master_len base records Hbase Hlen) as Hl.
  pose proof (vehicle_base_length base Hbase) as Hb.
  repeat (split; [first [assumption | rewrite Hl; reflexivity] |]).
  split.
  - destruct (copies_app _ _ Hcopies) as (appended & Happ).
    exists base, appended.
    rewrite (vehicle_master_rows base records Hbase Hcopies Hlen).
    split; [exact Happ |]. split; [exact Hbase |].
    split; [rewrite Hb; reflexivity |].
    rewrite Happ, length_app, Hb in Hlen.
    assert (List.length appended = Z.to_nat num_duplicates) by lia.
    rewrite H. reflexivity.
  - split.
    + apply (nvh_measurements_len _ _ Hmrecords).
    + apply (customer_feedback_len _ _ Hfrecords).
Qed.



(** C7. On every random state, each of the floor(0.10 N) = 6 rows of
    the vehicle table that follow the N = 60 base rows equals, label by
    label and cell by cell (the identifier included), a row at a smaller
    index. *)
Theorem duplicate_rows_copy_earlier_rows (s : rng) :
  exists df_vehicles s',
    generate_vehicle_master s = (Ok df_vehicles, s')
    /\ forall j,
        (Z.to_nat NUM_VEHICLES <= j
         < Z.to_nat NUM_VEHICLES + Z.to_nat (NUM_VEHICLES / 10))%nat ->
        exists row j',
          nth_error (rows df_vehicles) j = Some row
          /\ (j' < j)%nat
          /\ nth_error (rows df_vehicles) j' = Some row.
Proof.
  destruct (returns_generate_vehicle_master s)
    as (dfv & s1 & Hv & base & records & -> & Hbase & Hcopies & Hlen).
  exists (pd.of_records records), s1. split; [exact Hv |].
  rewrite (vehicle_master_rows base records Hbase Hcopies Hlen).
  pose proof (vehicle_base_length base Hbase) as Hb.
  pose proof (vehicle_records_length base records Hbase Hlen) as Hr.
  intros j Hj.
  change (Z.to_nat NUM_VEHICLES) with 60%nat in Hj.
  change (Z.to_nat (NUM_VEHICLES / 10)) with 6%nat in Hj.
  destruct (nth_error records j) as [row |] eqn:E.
  - destruct (copies_earlier base records Hcopies j row) as (j' & Hlt & Hj');
      [lia | exact E |].
    exists row, j'. auto.
  - apply nth_error_None in E. lia.
Qed.

Lemma example_vehicles_table : vehicle_table example_vehicles.
Proof.
  split; [discriminate |].
  intros v [<- | []]. exists "VEH0001". reflexivity.
Qed.

Lemma comment_pool_tiers (comfort_level comment : string) :
  In comfort_level comfort_levels ->
  In comment (comment_pool comfort_level) ->
  (In comfort_level [ "Excellent"; "Very Good" ] ->
   In comment comments_positive)
  /\ (In comfort_level [ "Good"; "Fair" ] -> In comment comments_neutral)
  /\ (In comfort_level [ "Very Poor"; "Poor" ] ->
      In comment comments_negative).
Proof.
  intros Hlevel.
  repeat (destruct Hlevel as [<- | Hlevel];
          [intros Hc; repeat split; intros Hin;
           first [exact Hc | simpl in Hin; intuition discriminate] |]).
  destruct Hlevel.
Qed.

(** C10. The vehicle table is never empty and the identifier of a
    vehicle row is never missing; and on every such frame (one that has
    a row, every row carrying an identifier) each measurement row and
    each feedback row carries an identifier that is not missing and is
    the identifier of a row of the frame. *)
Theorem vehicle_reference_exists :
  (forall s : rng,
      exists df_vehicles s',
        generate_vehicle_master s = (Ok df_vehicles, s')
        /\ vehicle_table df_vehicles)
  /\ forall df : pd.DataFrame,
      vehicle_table df ->
      forall s : rng,
        (exists df_measurements s',
            generate_nvh_measurements df s = (Ok df_measurements, s')
            /\ forall r, In r (rows df_measurements) ->
                 exists id v,
                   dict_get r "Vehicle ID" = Some (VStr id)
                   /\ In v (rows df)
                   /\ dict_get v "Vehicle ID" = Some (VStr id))
        /\ (exists df_feedback s',
               generate_customer_feedback df s = (Ok df_feedback, s')
               /\ forall r, In r (rows df_feedback) ->
                    exists id v,
                      dict_get r "Vehicle ID" = Some (VStr id)
                      /\ In v (rows df)
                      /\ dict_get v "Vehicle ID" = Some (VStr id)).
Proof.
  split.
  { intros s.
    destruct (returns_generate_vehicle_master s)
      as (dfv & s1 & Hv & base & records & -> & Hbase & Hcopies & Hlen).
    exists (pd.of_records records), s1. split; [exact Hv |].
    apply (vehicle_master_table base records Hbase Hcopies Hlen). }
  intros df Hdf s. split.
  - destruct (returns_generate_nvh_measurements df s Hdf)
      as (dfm & s' & Hrun & records & -> & Hrecords).
    exists (pd.of_records records), s'. split; [exact Hrun |].
    rewrite (nvh_measurements_rows _ _ Hrecords). intros r Hr.
    pose proof (measurement_records_all _ _ Hrecords) as Hall.
    rewrite Forall_forall in Hall.
    destruct (Hall r Hr)
      as (i & v & vid & d & f1 & f2 & f3 & f4 & f5 & -> & Hv & Hvid & _).
    destruct Hdf as [_ Hids]. destruct (Hids v Hv) as (id & Hid).
    exists id, v. rewrite Hid in Hvid. injection Hvid as <-.
    repeat split; [exact Hv | exact Hid].
  - destruct (returns_generate_customer_feedback df s Hdf)
      as (dff & s' & Hrun & records & -> & Hrecords).
    exists (pd.of_records records), s'. split; [exact Hrun |].
    rewrite (customer_feedback_rows _ _ Hrecords). intros r Hr.
    pose proof (feedback_records_all _ _ Hrecords) as Hall.
    rewrite Forall_forall in Hall.
    destruct (Hall r Hr)
      as (i & v & vid & c & m & f1 & f2 & -> & Hv & Hvid & _).
    destruct Hdf as [_ Hids]. destruct (Hids v Hv) as (id & Hid).
    exists id, v. rewrite Hid in Hvid. injection Hvid as <-.
    repeat split; [exact Hv | exact Hid].
Qed.

Lemma vehicle_reference_exists_witness :
  vehicle_table example_vehicles
  /\ (exists df_measurements s',
         generate_nvh_measurements example_vehicles example_rng
         = (Ok df_measurements, s')
         /\ forall r, In r (rows df_measurements) ->
              exists id v,
                dict_get r "Vehicle ID" = Some (VStr id)
                /\ In v (rows example_vehicles)
                /\ dict_get v "Vehicle ID" = Some (VStr id))
  /\ (exists df_feedback s',
         generate_customer_feedback example_vehicles example_rng
         = (Ok df_feedback, s')
         /\ forall r, In r (rows df_feedback) ->
              exists id v,
                dict_get r "Vehicle ID" = Some (VStr id)
                /\ In v (rows example_vehicles)
                /\ dict_get v "Vehicle ID" = Some (VStr id)).
Proof.
  assert (H : vehicle_table example_vehicles).
  { split; [discriminate |].
    intros v [<- | []]. exists "VEH0001". reflexivity. }
  split; [exact H |].
  apply (proj2 vehicle_reference_exists example_vehicles H example_rng).
Defined.

Lemma year_part_inconsistent (y mo d h mi : Z) :
  In y [ 2029; 2080; 2090; 2099 ] ->
  year_part (inconsistent_timestamp y mo d h mi) = str y /\ 2029 <= y.
Proof.
  intros Hy. repeat (destruct Hy as [<- | Hy]; [split; [reflexivity | lia] |]).
  destruct Hy.
Qed.

(** The inconsistent-date branch is taken on some states: here the
    opening draw is 0 and the date reads 2029. *)
Example inconsistent_branch_taken :
  fst (random_lt 0.01 (constant_rng 0)) = Ok true
  /\ fst (measurement_date (constant_rng 0))
     = Ok (VStr "2029-01-01 00:00:00").
Proof. split; reflexivity. Qed.

(** C3, as the code has it.  On every frame that can be sampled and
    every random state, the measurement table's columns, and the labels
    of each of its rows in order, are exactly Measurement ID, Vehicle ID,
    Measurement Date, Road Surface, Speed (KMH), Noise Level (dB),
    Vibration Frequency (Hz), Harshness Score: a row has a road surface
    field and no test condition field. *)
Theorem measurement_record_fields (df : pd.DataFrame) :
  vehicle_table df ->
  forall s : rng,
  exists df_measurements s',
    generate_nvh_measurements df s = (Ok df_measurements, s')
    /\ pd.columns df_measurements = measurement_columns
    /\ forall r, In r (rows df_measurements) ->
         keys r = measurement_columns
         /\ (exists v, dict_get r "Road Surface" = Some v)
         /\ dict_get r "Test Condition" = None.
Proof.
  intros Hdf s.
  destruct (returns_generate_nvh_measurements df s Hdf)
    as (dfm & s' & Hrun & records & -> & Hrecords).
  exists (pd.of_records records), s'. split; [exact Hrun |].
  split; [apply (nvh_measurements_columns _ _ Hrecords) |].
  rewrite (nvh_measurements_rows _ _ Hrecords). intros r Hr.
  pose proof (measurement_records_all _ _ Hrecords) as Hall.
  rewrite Forall_forall in Hall.
  destruct (Hall r Hr)
    as (i & v & vid & date & f1 & f2 & f3 & f4 & f5 & -> & _).
  split; [reflexivity |]. split; [| reflexivity].
  exists f1. reflexivity.
Qed.

Lemma measurement_record_fields_witness :
  vehicle_table example_vehicles
  /\ exists df_measurements s',
      generate_nvh_measurements example_vehicles example_rng
      = (Ok df_measurements, s')
      /\ pd.columns df_measurements = measurement_columns
      /\ forall r, In r (rows df_measurements) ->
           keys r = measurement_columns
           /\ (exists v, dict_get r "Road Surface" = Some v)
           /\ dict_get r "Test Condition" = None.
Proof.
  assert (H : vehicle_table example_vehicles).
  { split; [discriminate |].
    intros v [<- | []]. exists "VEH0001". reflexivity. }
  split; [exact H |].
  apply (measurement_record_fields example_vehicles H example_rng).
Defined.

(** C3 as stated fails: the table returned on the example frame has
    no column for the test condition, reading one raises [KeyError], and
    no cell of the table is a test condition. *)
Lemma measurement_table_lacks_test_condition :
  exists df_measurements s',
    generate_nvh_measurements example_vehicles example_rng
    = (Ok df_measurements, s')
    /\ pd.columns df_measurements = measurement_columns
    /\ pd.col df_measurements "Test Condition"
       = Raise (KeyError "Test Condition")
    /\ forallb
         (forallb (fun v => negb (existsb (value_eqb v)
                                          (map VStr test_conditions))))
         (pd.data df_measurements)
       = true.
Proof.
  eexists _, _. split; [vm_compute; reflexivity |].
  repeat split; vm_compute; reflexivity.
Qed.

(* ================================================================== *)
(** * The rates at which measurement fields are set to missing *)

(** [X if random.random() > p else None] is missing exactly when the
    draw is at most [p]. *)
Lemma field_missing_iff (v : value) (p : Q) (s : rng) :
  v <> VNone ->
  fst ((ret v IF random_gt p ELSE ret VNone) s) = Ok VNone
  <-> (tape (py s) (pos (py s)) mod 2 ^ 53 # 2 ^ 53 <= p)%Q.
Proof.
  intros Hv. unfold if_else, random_gt, random.random, random.getrand,
    bind, ret. simpl.
  destruct (Qgtb _ p) eqn:E; simpl.
  - apply Qgtb_spec in E. split.
    + intros H. injection H as H. contradiction.
    + intros H. exfalso. apply (Qlt_not_le _ _ E H).
  - split; [intros _ | reflexivity].
    apply Qnot_lt_le. intros H. apply Qgtb_spec in H. congruence.
Qed.

(** Of the 2^53 equally likely values of [random.random()], those at
    most 0.01 are the first 90071992547410, those at most 0.03 the first
    270215977642230: rates of 1% and 3%, below 5%. *)
Lemma draws_at_most_1_percent (k : Z) :
  0 <= k < 2 ^ 53 ->
  (k # 2 ^ 53 <= 0.01)%Q <-> k < 90071992547410.
Proof. intros Hk. unfold Qle. simpl. lia. Qed.

Lemma draws_at_most_3_percent (k : Z) :
  0 <= k < 2 ^ 53 ->
  (k # 2 ^ 53 <= 0.03)%Q <-> k < 270215977642230.
Proof. intros Hk. unfold Qle. simpl. lia. Qed.

Lemma rates_below_5_percent :
  (90071992547410 # 2 ^ 53 < 0.05)%Q
  /\ (270215977642230 # 2 ^ 53 < 0.05)%Q.
Proof. split; reflexivity. Qed.

(** C2, where the code departs from it.  When every draw of
    [random.random()] is 0.04 -- below 5%, so a draw on which any rate
    of 5% to 12% sets the field to missing -- the measurement record
    has its road surface (threshold 0.06) and speed (threshold 0.05)
    missing, but keeps its noise level (threshold 0.03), vibration
    frequency (0.01) and harshness score (0.01). *)
Theorem measurement_fields_kept_at_4_percent :
  (draw_4_percent # 2 ^ 53 < 0.05)%Q
  /\ exists r s',
      measurement example_vehicles 0 (constant_rng draw_4_percent)
      = (Ok r, s')
      /\ cell r "Road Surface" = VNone
      /\ cell r "Speed (KMH)" = VNone
      /\ isna (cell r "Noise Level (dB)") = false
      /\ isna (cell r "Vibration Frequency (Hz)") = false
      /\ isna (cell r "Harshness Score") = false.
Proof.
  split; [reflexivity |].
  eexists _, _. split; [vm_compute; reflexivity |].
  repeat split.
Qed.

(* ================================================================== *)
(** * The report driver *)

Lemma no_success_refl (w : world) : no_success_printed w w.
Proof.
  exists []. split; [symmetry; apply app_nil_r | intros []].
Qed.

Lemma no_success_trans (w1 w2 w3 : world) :
  no_success_printed w1 w2 -> no_success_printed w2 w3 ->
  no_success_printed w1 w3.
Proof.
  intros (p1 & H1 & N1) (p2 & H2 & N2). exists (p1 ++ p2)%list. split.
  - rewrite H2, H1. symmetry. apply app_assoc.
  - intros H. apply in_app_or in H. tauto.
Qed.

Lemma no_success_print (l : list frag) (w : world) :
  l <> success_line -> no_success_printed w (snd (print l w)).
Proof.
  intros Hl. exists [l]. split; [reflexivity |].
  intros [H | []]. apply Hl. exact H.
Qed.

Section Discreet.

Lemma discreet_ret {A} (a : A) : discreet (ret a).
Proof. intros w. split; [apply no_success_refl | reflexivity]. Qed.

Lemma discreet_of_outcome {A} (o : outcome A) : discreet (of_outcome o).
Proof. intros w. split; [apply no_success_refl | reflexivity]. Qed.

Lemma discreet_column (df : pd.DataFrame) (c : string) :
  discreet (column df c).
Proof. apply discreet_of_outcome. Qed.

Lemma discreet_print (l : list frag) :
  l <> success_line -> discreet (print l).
Proof.
  intros Hl w. split; [apply no_success_print, Hl | reflexivity].
Qed.

Lemma discreet_bind {A B} (m : M world A) (k : A -> M world B) :
  discreet m -> (forall a, discreet (k a)) -> discreet (bind m k).
Proof.
  intros Hm Hk w. unfold bind. specialize (Hm w).
  destruct (m w) as [[a | e] w1]; simpl in Hm; [| exact Hm].
  destruct Hm as [Hp Hf]. destruct (Hk a w1) as [Hp' Hf'].
  split; [eapply no_success_trans; eassumption | congruence].
Qed.

Lemma discreet_for {A X} (xs : list X) (body : X -> A -> M world A) :
  (forall x acc, discreet (body x acc)) ->
  forall acc, discreet (for_ xs body acc).
Proof.
  intros Hbody. induction xs as [| x xs IH]; intros acc; simpl.
  - apply discreet_ret.
  - apply discreet_bind; [apply Hbody | exact IH].
Qed.

Lemma aborts_column (df : pd.DataFrame) (c : string) :
  ~ In c (pd.columns df) -> aborts (column df c).
Proof.
  intros Hc w. exists (KeyError c), w. unfold column, of_outcome.
  rewrite (col_missing df c Hc).
  split; [reflexivity | split; [apply no_success_refl | reflexivity]].
Qed.

Lemma aborts_bind_here {A B} (m : M world A) (k : A -> M world B) :
  aborts m -> aborts (bind m k).
Proof.
  intros Hm w. destruct (Hm w) as (e & w' & Hrun & Hp & Hf).
  exists e, w'. unfold bind. rewrite Hrun. auto.
Qed.

Lemma aborts_bind_later {A B} (m : M world A) (k : A -> M world B) :
  discreet m -> (forall a, aborts (k a)) -> aborts (bind m k).
Proof.
  intros Hm Hk w. unfold bind. specialize (Hm w).
  destruct (m w) as [[a | e] w1]; simpl in Hm; destruct Hm as [Hp Hf].
  - destruct (Hk a w1) as (e & w' & Hrun & Hp' & Hf').
    exists e, w'. split; [exact Hrun |].
    split; [eapply no_success_trans; eassumption | congruence].
  - exists e, w1. auto.
Qed.

End Discreet.

Ltac other_line :=
  let H := fresh in
  intro H; unfold success_line, banner, nl in H; simpl in H;
  discriminate H.

(** Steps of the driver that write no file and do not print the success
    line. *)
Ltac discreet_steps :=
  repeat first
    [ apply discreet_bind; [| intro]
    | apply discreet_print; other_line
    | apply discreet_column
    | apply discreet_of_outcome
    | apply discreet_ret
    | apply discreet_for; intros ].

Lemma discreet_summary_vehicles (df : pd.DataFrame) :
  discreet (summary_vehicles df).
Proof. unfold summary_vehicles. discreet_steps. Qed.

Lemma discreet_summary_measurements (df : pd.DataFrame) :
  discreet (summary_measurements df).
Proof. unfold summary_measurements. discreet_steps. Qed.

Lemma discreet_summary_feedback (df : pd.DataFrame) :
  discreet (summary_feedback df).
Proof. unfold summary_feedback. discreet_steps. Qed.

(** Walk down a chain of steps to the read of the missing column [c]. *)
Ltac abort_at_missing :=
  repeat first
    [ apply aborts_bind_here; apply aborts_column; assumption
    | apply aborts_bind_later; [solve [discreet_steps] | intro] ].

Lemma aborts_summary_vehicles (df : pd.DataFrame) :
  lacks df vehicle_reads -> aborts (summary_vehicles df).
Proof.
  intros (c & Hc & Hmissing). unfold summary_vehicles.
  repeat (destruct Hc as [<- | Hc]; [abort_at_missing |]).
  destruct Hc.
Qed.

Lemma aborts_summary_measurements (df : pd.DataFrame) :
  lacks df measurement_reads -> aborts (summary_measurements df).
Proof.
  intros (c & Hc & Hmissing). unfold summary_measurements.
  repeat (destruct Hc as [<- | Hc]; [abort_at_missing |]).
  destruct Hc.
Qed.

Lemma aborts_summary_feedback (df : pd.DataFrame) :
  lacks df feedback_reads -> aborts (summary_feedback df).
Proof.
  intros (c & Hc & Hmissing). unfold summary_feedback.
  repeat (destruct Hc as [<- | Hc]; [abort_at_missing |]).
  destruct Hc.
Qed.

(** C5, on the summary: when one of the columns the summary reads is
    absent from its table, the summary raises from every state; no file
    is written and the success line is not printed. *)
Lemma aborts_summary (df_vehicles df_measurements df_feedback : pd.DataFrame) :
  lacks df_vehicles vehicle_reads
  \/ lacks df_measurements measurement_reads
  \/ lacks df_feedback feedback_reads ->
  aborts (summary df_vehicles df_measurements df_feedback).
Proof.
  intros H. unfold summary.
  do 3 (apply aborts_bind_later; [solve [discreet_steps] | intro]).
  destruct H as [H | [H | H]].
  - apply aborts_bind_here. apply aborts_summary_vehicles. exact H.
  - apply aborts_bind_later; [apply discreet_summary_vehicles | intro].
    apply aborts_bind_here. apply aborts_summary_measurements. exact H.
  - apply aborts_bind_later; [apply discreet_summary_vehicles | intro].
    apply aborts_bind_later; [apply discreet_summary_measurements | intro].
    apply aborts_bind_here. apply aborts_summary_feedback. exact H.
Qed.

Section Total.

Lemma total_ret {A} (a : A) : total (ret a).
Proof. intros w. exists a, w. reflexivity. Qed.

Lemma total_print (l : list frag) : total (print l).
Proof. intros w. eexists _, _. reflexivity. Qed.

Lemma total_column (df : pd.DataFrame) (c : string) :
  In c (pd.columns df) -> total (column df c).
Proof.
  intros Hc w. unfold column, of_outcome, pd.col.
  destruct (index_of_In c _ Hc) as (i & -> & _). eexists _, _.
  reflexivity.
Qed.

Lemma total_bind {A B} (m : M world A) (k : A -> M world B) :
  total m -> (forall a, total (k a)) -> total (bind m k).
Proof.
  intros Hm Hk w. destruct (Hm w) as (a & w1 & Hrun).
  destruct (Hk a w1) as (b & w2 & Hrun'). exists b, w2.
  unfold bind. rewrite Hrun. exact Hrun'.
Qed.

Lemma throws_column (df : pd.DataFrame) (c : string) :
  ~ In c (pd.columns df) -> throws (KeyError c) (column df c).
Proof.
  intros Hc w. exists w. unfold column, of_outcome.
  rewrite (col_missing df c Hc). reflexivity.
Qed.

Lemma throws_bind_here {A B} (e : exn) (m : M world A)
      (k : A -> M world B) :
  throws e m -> throws e (bind m k).
Proof.
  intros Hm w. destruct (Hm w) as (w' & Hrun). exists w'.
  unfold bind. rewrite Hrun. reflexivity.
Qed.

Lemma throws_bind_later {A B} (e : exn) (m : M world A)
      (k : A -> M world B) :
  total m -> (forall a, throws e (k a)) -> throws e (bind m k).
Proof.
  intros Hm Hk w. destruct (Hm w) as (a & w1 & Hrun).
  destruct (Hk a w1) as (w2 & Hrun'). exists w2.
  unfold bind. rewrite Hrun. exact Hrun'.
Qed.

Lemma throws_after_column {A} (e : exn) (df : pd.DataFrame) (c : string)
      (ser : pd.Series) (k : pd.Series -> M world A) :
  pd.col df c = Ok ser -> throws e (k ser) ->
  throws e (bind (column df c) k).
Proof.
  intros Hc Hk w. destruct (Hk w) as (w' & Hrun). exists w'.
  unfold bind, column, of_outcome. rewrite Hc. exact Hrun.
Qed.

Lemma throws_after_outcome {A B} (e : exn) (o : outcome A) (a : A)
      (k : A -> M world B) :
  o = Ok a -> throws e (k a) -> throws e (bind (of_outcome o) k).
Proof.
  intros -> Hk w. destruct (Hk w) as (w' & Hrun). exists w'.
  unfold bind, of_outcome. exact Hrun.
Qed.

End Total.

(** The summary of the vehicle table returns when the table has the
    five vehicle columns. *)
Lemma total_summary_vehicles (df : pd.DataFrame) :
  pd.columns df = vehicle_columns -> total (summary_vehicles df).
Proof.
  intros Hcols. unfold summary_vehicles.
  repeat first
    [ apply total_bind; [| intro]
    | apply total_print
    | apply total_column; rewrite Hcols; simpl; tauto ].
Qed.

(** [min] and [max] of dates (strings, some missing) are defined. *)
Lemma extremum_of_dates (pick : value -> value -> value) (s : pd.Series) :
  Forall date_value s -> exists v, pd.extremum pick s = Ok v.
Proof.
  intros Hs. unfold pd.extremum.
  destruct (pd.dropna s) as [| x rest] eqn:E; [eexists; reflexivity |].
  assert (Hstr : forallb is_str (x :: rest) = true).
  { rewrite <- E. unfold pd.dropna. apply forallb_forall.
    intros v Hv. apply filter_In in Hv. destruct Hv as [Hin Hna].
    rewrite Forall_forall in Hs.
    destruct (Hs v Hin) as [-> | (d & ->)]; [discriminate | reflexivity]. }
  unfold comparable. rewrite Hstr. eexists. reflexivity.
Qed.

Lemma dropna_dates (s : pd.Series) :
  Forall date_value s -> Forall date_value (pd.dropna s).
Proof.
  intros Hs. apply Forall_forall. intros v Hv.
  apply filter_In in Hv. rewrite Forall_forall in Hs. apply Hs, Hv.
Qed.

(** The summary of the measurement table raises [KeyError] at its first
    read of the noise column, which the table holds under another
    label. *)
Lemma throws_summary_measurements (df_vehicles df : pd.DataFrame) :
  nvh_measurements df_vehicles df ->
  throws (KeyError "Noise Level(dB)") (summary_measurements df).
Proof.
  intros (records & -> & Hrecords). unfold summary_measurements.
  pose proof (nvh_measurements_col _ _ Hrecords "Measurement Date") as Hcol.
  assert (Hdates : Forall date_value
                     (map (fun r => cell r "Measurement Date") records)).
  { apply Forall_forall. intros v Hv. apply in_map_iff in Hv.
    destruct Hv as (r & <- & Hr).
    pose proof (measurement_records_all _ _ Hrecords) as Hall.
    rewrite Forall_forall in Hall.
    destruct (Hall r Hr)
      as (i & vh & vid & date & f1 & f2 & f3 & f4 & f5 & -> & _ & _
          & Hdate & _).
    exact Hdate. }
  destruct (extremum_of_dates (fun a b => if value_leb a b then a else b)
              _ (dropna_dates _ Hdates)) as (first & Hfirst).
  destruct (extremum_of_dates (fun a b => if value_leb a b then b else a)
              _ (dropna_dates _ Hdates)) as (last & Hlast).
  do 2 (apply throws_bind_later; [apply total_print | intro]).
  eapply throws_after_column; [apply Hcol; simpl; tauto |].
  eapply throws_after_outcome; [exact Hfirst |].
  eapply throws_after_column; [apply Hcol; simpl; tauto |].
  eapply throws_after_outcome; [exact Hlast |].
  apply throws_bind_later; [apply total_print | intro].
  apply throws_bind_here. apply throws_column.
  rewrite (nvh_measurements_columns _ _ Hrecords).
  simpl. intuition discriminate.
Qed.

Lemma nvh_measurements_lacks (df_vehicles df : pd.DataFrame) :
  nvh_measurements df_vehicles df -> lacks df measurement_reads.
Proof.
  intros (records & -> & Hrecords). exists "Noise Level(dB)".
  split; [simpl; tauto |].
  rewrite (nvh_measurements_columns _ _ Hrecords).
  simpl. intuition discriminate.
Qed.

(** On the tables the generators return, the summary raises
    [KeyError] for the label 'Noise Level(dB)'. *)
Lemma summary_run (df_vehicles df_measurements df_feedback : pd.DataFrame)
      (w : world) :
  vehicle_master df_vehicles ->
  nvh_measurements df_vehicles df_measurements ->
  exists w',
    summary df_vehicles df_measurements df_feedback w
    = (Raise (KeyError "Noise Level(dB)"), w')
    /\ no_success_printed w w' /\ files w' = files w.
Proof.
  intros (base & records & -> & Hbase & Hcopies & Hlen) Hm.
  assert (Hthrows : throws (KeyError "Noise Level(dB)")
                      (summary (pd.of_records records) df_measurements
                               df_feedback)).
  { unfold summary.
    do 3 (apply throws_bind_later; [apply total_print | intro]).
    apply throws_bind_later.
    - apply total_summary_vehicles.
      apply (vehicle_master_columns base records Hbase Hcopies Hlen).
    - intro. apply throws_bind_here.
      apply (throws_summary_measurements _ _ Hm). }
  destruct (aborts_summary (pd.of_records records) df_measurements
              df_feedback
              (or_intror (or_introl (nvh_measurements_lacks _ _ Hm))) w)
    as (e & w' & Hrun & Hprinted & Hfiles).
  destruct (Hthrows w) as (w'' & Hrun').
  exists w'. rewrite Hrun in Hrun'. injection Hrun' as -> _.
  auto.
Qed.

Lemma bind_print {A} (l : list frag) (k : unit -> M world A) (w : world) :
  bind (print l) k w
  = k tt (mkWorld (rand w) (stdout w ++ [l])%list (files w)).
Proof. reflexivity. Qed.

Lemma bind_to_excel {A} (df : pd.DataFrame) (name : string)
      (k : unit -> M world A) (w : world) :
  bind (to_excel df name) k w
  = k tt (mkWorld (rand w) (stdout w) (files w ++ [(name, df)])%list).
Proof. reflexivity. Qed.

Lemma bind_lift {A B} (m : M rng A) (k : A -> M world B) (r0 : rng)
      (out : list (list frag)) (written : list (string * pd.DataFrame))
      (a : A) (r : rng) :
  m r0 = (Ok a, r) ->
  bind (lift m) k (mkWorld r0 out written) = k a (mkWorld r out written).
Proof. intros H. unfold bind, lift. simpl. rewrite H. reflexivity. Qed.

Ltac run_prints := repeat (rewrite bind_print; cbv beta; cbn [rand stdout files]).

(** Every run of [main]: the three tables are generated and written,
    then the summary raises [KeyError] for 'Noise Level(dB)'; the
    success line is not printed. *)
Lemma main_run (w : world) :
  exists df_vehicles df_measurements df_feedback w',
    main w = (Raise (KeyError "Noise Level(dB)"), w')
    /\ vehicle_master df_vehicles
    /\ nvh_measurements df_vehicles df_measurements
    /\ customer_feedback df_vehicles df_feedback
    /\ files w'
       = (files w ++ [ ("Vehicle.xlsx", df_vehicles);
                       ("NVH_Measurements.xlsx", df_measurements);
                       ("Customer_Feedback.xlsx", df_feedback) ])%list
    /\ no_success_printed w w'.
Proof.
  destruct (returns_generate_vehicle_master (rand w))
    as (dfv & r1 & Hv & Hvm).
  assert (Htable : vehicle_table dfv).
  { destruct Hvm as (base & records & -> & Hbase & Hcopies & Hlen).
    apply (vehicle_master_table base records Hbase Hcopies Hlen). }
  destruct (returns_generate_nvh_measurements dfv r1 Htable)
    as (dfm & r2 & Hm & Hnm).
  destruct (returns_generate_customer_feedback dfv r2 Htable)
    as (dff & r3 & Hf & Hcf).
  assert (Hmain :
    exists W,
      main w = summary dfv dfm dff W
      /\ files W
         = (files w ++ [ ("Vehicle.xlsx", dfv);
                         ("NVH_Measurements.xlsx", dfm);
                         ("Customer_Feedback.xlsx", dff) ])%list
      /\ no_success_printed w W).
  { eexists. split; [| split].
    - unfold main. run_prints.
      rewrite (bind_lift _ _ _ _ _ dfv r1 Hv). cbn [rand stdout files].
      rewrite bind_to_excel. cbv beta. cbn [rand stdout files]. run_prints.
      rewrite (bind_lift _ _ _ _ _ dfm r2 Hm). cbn [rand stdout files].
      rewrite bind_to_excel. cbv beta. cbn [rand stdout files]. run_prints.
      rewrite (bind_lift _ _ _ _ _ dff r3 Hf). cbn [rand stdout files].
      rewrite bind_to_excel. cbv beta. cbn [rand stdout files]. run_prints.
      reflexivity.
    - cbn [files]. rewrite <- !app_assoc. reflexivity.
    - eexists. cbn [stdout]. rewrite <- !app_assoc.
      split; [reflexivity |].
      cbn [app]. unfold banner, nl, success_line. simpl.
      intuition discriminate. }
  destruct Hmain as (W & Hmain & HfilesW & HprintedW).
  destruct (summary_run dfv dfm dff W Hvm Hnm)
    as (w' & Hrun & Hprinted & Hfiles).
  exists dfv, dfm, dff, w'.
  split; [rewrite Hmain; exact Hrun |].
  repeat (split; [assumption |]).
  split; [congruence |].
  eapply no_success_trans; eassumption.
Qed.

(** C4. On every run, [main] generates the three tables, writes
    Vehicle.xlsx, NVH_Measurements.xlsx and Customer_Feedback.xlsx in
    that order, and then raises [KeyError] in the measurement summary:
    the table holds its columns under 'Noise Level (dB)' and
    'Speed (KMH)', the summary reads 'Noise Level(dB)' and
    'Speed(km/h)', which the table does not have; the first of these
    reads is the one that raises. *)
Theorem summary_raises_after_files_written (w : world) :
  exists df_vehicles df_measurements df_feedback w',
    main w = (Raise (KeyError "Noise Level(dB)"), w')
    /\ files w'
       = (files w ++ [ ("Vehicle.xlsx", df_vehicles);
                       ("NVH_Measurements.xlsx", df_measurements);
                       ("Customer_Feedback.xlsx", df_feedback) ])%list
    /\ vehicle_master df_vehicles
    /\ nvh_measurements df_vehicles df_measurements
    /\ customer_feedback df_vehicles df_feedback
    /\ In "Noise Level (dB)" (pd.columns df_measurements)
    /\ In "Speed (KMH)" (pd.columns df_measurements)
    /\ In "Noise Level(dB)" measurement_reads
    /\ In "Speed(km/h)" measurement_reads
    /\ pd.col df_measurements "Noise Level(dB)"
       = Raise (KeyError "Noise Level(dB)")
    /\ pd.col df_measurements "Speed(km/h)"
       = Raise (KeyError "Speed(km/h)").
Proof.
  destruct (main_run w)
    as (dfv & dfm & dff & w' & Hrun & Hvm & Hnm & Hcf & Hfiles & _).
  exists dfv, dfm, dff, w'.
  repeat (split; [assumption |]).
  destruct Hnm as (records & -> & Hrecords).
  pose proof (nvh_measurements_columns _ _ Hrecords) as Hcols.
  repeat split; try (rewrite Hcols; simpl; tauto); try (simpl; tauto);
    apply col_missing; rewrite Hcols; simpl; intuition discriminate.
Qed.

(** C5. When a column the summary reads is absent from its table, the
    summary raises from every state, with no file written and no
    success line printed: nothing after the failing read runs.  And
    nothing in [main] catches the exception: every run of the script
    ends with exit status 1 and without the success line. *)
Theorem missing_column_is_fatal :
  (forall df_vehicles df_measurements df_feedback : pd.DataFrame,
      lacks df_vehicles vehicle_reads
      \/ lacks df_measurements measurement_reads
      \/ lacks df_feedback feedback_reads ->
      forall w : world,
      exists e w',
        summary df_vehicles df_measurements df_feedback w = (Raise e, w')
        /\ exit_status (@Raise unit e) = 1
        /\ no_success_printed w w'
        /\ files w' = files w)
  /\ (forall w : world,
         exists w', run w = (1, w') /\ no_success_printed w w').
Proof.
  split.
  - intros dfv dfm dff Hlacks w.
    destruct (aborts_summary dfv dfm dff Hlacks w)
      as (e & w' & Hrun & Hprinted & Hfiles).
    exists e, w'. repeat split; assumption.
  - intros w.
    destruct (main_run w)
      as (dfv & dfm & dff & w' & Hrun & _ & _ & _ & _ & Hprinted).
    exists w'. unfold run. rewrite Hrun. split; [reflexivity | exact Hprinted].
Qed.

Lemma missing_column_is_fatal_witness :
  (lacks example_vehicles vehicle_reads
   \/ lacks example_vehicles measurement_reads
   \/ lacks example_vehicles feedback_reads)
  /\ exists e w',
      summary example_vehicles example_vehicles example_vehicles
              example_world
      = (Raise e, w')
      /\ exit_status (@Raise unit e) = 1
      /\ no_success_printed example_world w'
      /\ files w' = files example_world.
Proof.
  assert (H : lacks example_vehicles vehicle_reads
              \/ lacks example_vehicles measurement_reads
              \/ lacks example_vehicles feedback_reads).
  { left. exists "Engine Type". split; [simpl; tauto |].
    simpl. intuition discriminate. }
  split; [exact H |].
  apply (proj1 missing_column_is_fatal example_vehicles example_vehicles
               example_vehicles H example_world).
Defined.

(* ================================================================== *)
(** * Value ranges of the measurement fields *)

Lemma returns_conj {S A} (m : M S A) (s : S) (P Q : A -> S -> Prop) :
  returns m s P -> returns m s Q ->
  returns m s (fun a s' => P a s' /\ Q a s').
Proof.
  intros (a & s1 & Hm & HP) (b & s2 & Hm' & HQ).
  rewrite Hm in Hm'. injection Hm' as <- <-.
  exists a, s1. auto.
Qed.

Lemma returns_uniform_between (a b : Q) (s : rng) :
  (a <= b)%Q ->
  returns (random.uniform a b) s (fun x _ => (a <= x <= b)%Q).
Proof.
  intros Hab. unfold random.uniform. apply returns_bind.
  apply returns_random. intros k s' Hk. apply returns_ret.
  assert (Hr : (0 <= k # 2 ^ 53)%Q /\ (k # 2 ^ 53 <= 1)%Q)
    by (unfold Qle; simpl; lia).
  destruct Hr as [H0 H1]. split; nra.
Qed.

Ltac uniform_within :=
  eapply returns_weaken;
  [apply returns_uniform_between; unfold Qle; simpl; lia
  | intros ? ? [? ?]; split; lra].

Lemma returns_base_noise_range (test_condition : string) (s : rng) :
  In test_condition test_conditions ->
  returns (base_noise_for test_condition) s
          (fun q _ => if String.eqb test_condition "Idling"
                      then (40 <= q <= 55)%Q
                      else (60 <= q <= 95)%Q).
Proof.
  intros H.
  repeat (destruct H as [<- | H];
          [unfold base_noise_for; simpl;
           first [uniform_within | apply returns_ret; split; lra] |]).
  destruct H.
Qed.

Lemma returns_base_vib_freq_range (road_surface : string) (s : rng) :
  returns (base_vib_freq_for road_surface) s
          (fun q _ =>
             if str_in road_surface [ "Gravel"; "Cobblestone" ]
             then (80 <= q <= 200)%Q
             else if String.eqb road_surface "Asphalt"
                  then (30 <= q <= 80)%Q
                  else (40 <= q <= 120)%Q).
Proof.
  unfold base_vib_freq_for.
  destruct (str_in road_surface _); [uniform_within |].
  destruct (String.eqb road_surface "Asphalt"); uniform_within.
Qed.

Lemma returns_harshness_range (road_surface : string) (base_noise : Q)
      (s : rng) :
  returns (harshness_for road_surface base_noise) s
          (fun h _ =>
             if str_in road_surface [ "Gravel"; "Cobblestone" ]
             then (6 <= h <= 9)%Q
             else if Qgtb base_noise 80
                  then (6 <= h <= 8)%Q
                  else (2 <= h <= 6)%Q).
Proof.
  unfold harshness_for.
  destruct (str_in road_surface _); [uniform_within |].
  destruct (Qgtb base_noise 80); uniform_within.
Qed.

(** Each pass of the measurement loop draws its numeric fields within
    the ranges of its test condition and road surface. *)
Lemma returns_measurement_values (df : pd.DataFrame) (i : Z) (s : rng) :
  vehicle_table df ->
  returns (measurement df i) s (fun r _ => measurement_values r).
Proof.
  intros [Hne Hids]. unfold measurement.
  apply returns_bind. apply returns_sample1; [exact Hne |].
  intros row s1 Hrow. apply returns_bind. rewrite iloc_single.
  apply returns_of_outcome.
  set (vehicle := combine (pd.columns df) row).
  assert (Hvehicle : In vehicle (rows df))
    by (unfold rows; apply in_map; exact Hrow).
  destruct (Hids vehicle Hvehicle) as (id & Hid).
  eapply returns_bind_post;
    [apply (returns_choice s1 test_conditions
              (fun x _ => In x test_conditions)); [discriminate | auto] |].
  intros test_condition s2 Htc.
  eapply returns_bind_post;
    [apply (returns_choice s2 road_surfaces
              (fun x _ => In x road_surfaces)); [discriminate | auto] |].
  intros road_surface s3 Hroad.
  eapply returns_bind_post;
    [apply (returns_base_noise_range _ _ Htc) |].
  intros base_noise s4 Hnoise.
  eapply returns_bind_post; [apply returns_base_vib_freq_range |].
  intros base_vib_freq s5 Hvib.
  eapply returns_bind_post
    with (P := fun z _ => if String.eqb test_condition "Idling"
                          then z = 0 else 15 <= z <= 120).
  { destruct (String.eqb test_condition "Idling"); simpl.
    - apply returns_ret. reflexivity.
    - apply returns_randint; [lia |]. intros; lia. }
  intros speed s6 Hspeed.
  eapply returns_bind_post; [apply returns_harshness_range |].
  intros harshness s7 Hharsh.
  eapply returns_bind_post; [apply returns_measurement_date |].
  intros date s8 _.
  apply returns_bind. rewrite (getitem_Some _ _ _ Hid).
  apply returns_of_outcome.
  eapply returns_bind_post; [apply returns_field_ret |].
  intros f_road s9 Hf_road.
  eapply returns_bind_post; [apply returns_field_ret |].
  intros f_speed s10 Hf_speed.
  apply returns_bind. apply returns_if_else. apply returns_random_gt.
  intros keep s11.
  assert (Hrest : forall (f_noise : value) (u : Q) (t : rng),
             (-3 <= u <= 3)%Q ->
             nullable (VFloat (round (base_noise + u) 2)) f_noise ->
             returns
               (f_vib <- ret (VFloat (round base_vib_freq 2))
                         IF random_gt 0.01 ELSE ret VNone ;;
                f_harsh <- ret (VFloat (round harshness 1))
                           IF random_gt 0.01 ELSE ret VNone ;;
                ret [ ("Measurement ID",
                       VStr ("MEAS" ++ format_0d 5 (i + 1)));
                      ("Vehicle ID", VStr id);
                      ("Measurement Date", date);
                      ("Road Surface", f_road);
                      ("Speed (KMH)", f_speed);
                      ("Noise Level (dB)", f_noise);
                      ("Vibration Frequency (Hz)", f_vib);
                      ("Harshness Score", f_harsh) ])
               t (fun r _ => measurement_values r)).
  { intros f_noise u t Hu Hf_noise.
    eapply returns_bind_post; [apply returns_field_ret |].
    intros f_vib t1 Hf_vib.
    eapply returns_bind_post; [apply returns_field_ret |].
    intros f_harsh t2 Hf_harsh.
    apply returns_ret. cbv beta in *.
    exists test_condition, road_surface, speed, base_noise, u,
           base_vib_freq, harshness.
    split; [exact Htc |]. split; [exact Hroad |].
    split.
    { destruct (String.eqb test_condition "Idling"); auto. }
    split; [exact Hu |].
    split.
    { destruct (str_in road_surface _); auto. }
    repeat split; assumption. }
  destruct keep.
  - apply returns_bind. eapply returns_weaken;
      [apply (returns_uniform_between (-3) 3); unfold Qle; simpl; lia |].
    intros u t Hu. apply returns_ret.
    apply (Hrest _ u t Hu). left. reflexivity.
  - apply returns_ret.
    apply (Hrest VNone 0%Q); [split; lra | right; reflexivity].
Qed.

(** Rounding to the nearest integer stays within integer bounds. *)
Lemma round_half_even_between (y : Q) (L H : Z) :
  (inject_Z L <= y <= inject_Z H)%Q ->
  L <= round_half_even y <= H.
Proof.
  intros [HL HH]. unfold round_half_even.
  pose proof (Qfloor_le y) as Hf. pose proof (Qlt_floor y) as Hf'.
  assert (HLf : L <= Qfloor y).
  { rewrite <- (Qfloor_Z L). apply Qfloor_resp_le. exact HL. }
  assert (HfH : Qfloor y <= H).
  { rewrite <- (Qfloor_Z H). apply Qfloor_resp_le. exact HH. }
  destruct (Qltb (y - inject_Z (Qfloor y)) (1 # 2)) eqn:E; [lia |].
  assert (Hhalf : ~ (y - inject_Z (Qfloor y) < 1 # 2)%Q).
  { intros Hlt. apply Qltb_spec in Hlt. congruence. }
  assert (Hup : Qfloor y + 1 <= H).
  { assert (Hlt : (inject_Z (Qfloor y) < inject_Z H)%Q) by lra.
    rewrite <- Zlt_Qlt in Hlt. lia. }
  destruct (Qgtb (y - inject_Z (Qfloor y)) (1 # 2)); [lia |].
  destruct (Z.even (Qfloor y)); lia.
Qed.

(** [round(x, n)], scaled by 10^n, stays within integer bounds of the
    scaled argument. *)
Lemma round_between (x : Q) (n : nat) (L H : Z) :
  (inject_Z L <= x * inject_Z (10 ^ Z.of_nat n) <= inject_Z H)%Q ->
  (inject_Z L <= round x n * inject_Z (10 ^ Z.of_nat n) <= inject_Z H)%Q.
Proof.
  intros Hscaled. unfold round.
  set (p := 10 ^ Z.of_nat n) in *.
  assert (Hp : ~ inject_Z p == 0).
  { assert (0 < p) by (apply Z.pow_pos_nonneg; lia).
    unfold Qeq. simpl. lia. }
  destruct (round_half_even_between _ L H Hscaled) as [H1 H2].
  rewrite Zle_Qle in H1, H2.
  rewrite Qred_correct.
  assert (E : inject_Z (round_half_even (x * inject_Z p)) / inject_Z p
              * inject_Z p
              == inject_Z (round_half_even (x * inject_Z p)))
    by (field; exact Hp).
  rewrite E. split; assumption.
Qed.

Lemma round2_between (x : Q) (L H : Z) :
  (inject_Z L <= x * 100 <= inject_Z H)%Q ->
  (inject_Z L <= round x 2 * 100 <= inject_Z H)%Q.
Proof. apply (round_between x 2 L H). Qed.

Lemma round1_between (x : Q) (L H : Z) :
  (inject_Z L <= x * 10 <= inject_Z H)%Q ->
  (inject_Z L <= round x 1 * 10 <= inject_Z H)%Q.
Proof. apply (round_between x 1 L H). Qed.

(** A field rounded to two decimals from a value within [L/100, H/100]. *)
Lemma nullable_round2_between (x : Q) (L H : Z) (lo hi : Q) (f : value) :
  (lo * 100 == inject_Z L)%Q -> (hi * 100 == inject_Z H)%Q ->
  (lo <= x <= hi)%Q ->
  nullable (VFloat (round x 2)) f ->
  missing_or_between lo hi f.
Proof.
  intros HL HH Hx [-> | ->]; [right | left; reflexivity].
  exists (round x 2). split; [reflexivity |].
  assert (Hs : (inject_Z L <= x * 100 <= inject_Z H)%Q) by (split; lra).
  pose proof (round2_between x L H Hs). split; lra.
Qed.

Lemma nullable_round1_between (x : Q) (L H : Z) (lo hi : Q) (f : value) :
  (lo * 10 == inject_Z L)%Q -> (hi * 10 == inject_Z H)%Q ->
  (lo <= x <= hi)%Q ->
  nullable (VFloat (round x 1)) f ->
  missing_or_between lo hi f.
Proof.
  intros HL HH Hx [-> | ->]; [right | left; reflexivity].
  exists (round x 1). split; [reflexivity |].
  assert (Hs : (inject_Z L <= x * 10 <= inject_Z H)%Q) by (split; lra).
  pose proof (round1_between x L H Hs). split; lra.
Qed.

Lemma missing_or_between_weaken (lo hi lo' hi' : Q) (v : value) :
  (lo' <= lo)%Q -> (hi <= hi')%Q ->
  missing_or_between lo hi v -> missing_or_between lo' hi' v.
Proof.
  intros Hlo Hhi [-> | (q & -> & Hq)]; [left; reflexivity | right].
  exists q. split; [reflexivity | split; lra].
Qed.

Ltac rounded2 L H :=
  match goal with
  | Hf : nullable (VFloat (round ?x 2)) ?f |- missing_or_between _ _ ?f =>
      apply (nullable_round2_between x L H);
      [reflexivity | reflexivity | split; lra | exact Hf]
  end.

Ltac rounded1 L H :=
  match goal with
  | Hf : nullable (VFloat (round ?x 1)) ?f |- missing_or_between _ _ ?f =>
      apply (nullable_round1_between x L H);
      [reflexivity | reflexivity | split; lra | exact Hf]
  end.

(** What the drawn values of a record say about its cells. *)
Lemma measurement_values_ranges (r : dict) :
  measurement_values r ->
  (* speed *)
  (cell r "Speed (KMH)" = VNone
   \/ cell r "Speed (KMH)" = VInt 0
   \/ exists z, 15 <= z <= 120 /\ cell r "Speed (KMH)" = VInt z)
  (* noise *)
  /\ missing_or_between 37 98 (cell r "Noise Level (dB)")
  /\ (cell r "Speed (KMH)" = VInt 0 ->
      missing_or_between 37 58 (cell r "Noise Level (dB)"))
  /\ (forall z, cell r "Speed (KMH)" = VInt z -> z <> 0 ->
                missing_or_between 57 98 (cell r "Noise Level (dB)"))
  (* road surface *)
  /\ (cell r "Road Surface" = VNone
      \/ exists s, In s road_surfaces /\ cell r "Road Surface" = VStr s)
  (* vibration *)
  /\ missing_or_between 30 200 (cell r "Vibration Frequency (Hz)")
  /\ (forall s, cell r "Road Surface" = VStr s ->
        if str_in s [ "Gravel"; "Cobblestone" ]
        then missing_or_between 80 200 (cell r "Vibration Frequency (Hz)")
        else if String.eqb s "Asphalt"
             then missing_or_between 30 80
                    (cell r "Vibration Frequency (Hz)")
             else missing_or_between 40 120
                    (cell r "Vibration Frequency (Hz)"))
  (* harshness *)
  /\ missing_or_between 2 9 (cell r "Harshness Score")
  /\ (forall s, cell r "Road Surface" = VStr s ->
        str_in s [ "Gravel"; "Cobblestone" ] = true ->
        missing_or_between 6 9 (cell r "Harshness Score")).
Proof.
  intros (tc & rs & speed & bn & u & vib & harsh & Htc & Hrs & Hspeed & Hu
          & Hsurface & Hf_road & Hf_speed & Hf_noise & Hf_vib & Hf_harsh).
  assert (Hbn : (40 <= bn <= 95)%Q).
  { destruct (String.eqb tc "Idling"); destruct Hspeed as [_ H];
      split; lra. }
  split.
  { destruct Hf_speed as [-> | ->]; [| left; reflexivity]. right.
    destruct (String.eqb tc "Idling"); destruct Hspeed as [Hz _].
    - left. rewrite Hz. reflexivity.
    - right. exists speed. auto. }
  split; [rounded2 3700 9800 |].
  split.
  { intros Hzero. destruct Hf_speed as [E | E]; rewrite E in Hzero;
      [| discriminate]. injection Hzero as ->.
    destruct (String.eqb tc "Idling"); destruct Hspeed as [Hz Hb];
      [rounded2 3700 5800 | lia]. }
  split.
  { intros z Hz Hnz. destruct Hf_speed as [E | E]; rewrite E in Hz;
      [| discriminate]. injection Hz as ->.
    destruct (String.eqb tc "Idling"); destruct Hspeed as [Hz Hb];
      [contradiction | rounded2 5700 9800]. }
  split.
  { destruct Hf_road as [-> | ->]; [right | left; reflexivity].
    exists rs. auto. }
  split.
  { destruct (str_in rs _).
    - destruct Hsurface as [Hv _]. rounded2 3000 20000.
    - destruct Hsurface as [Hv _].
      destruct (String.eqb rs "Asphalt"); rounded2 3000 20000. }
  split.
  { intros s Hs. destruct Hf_road as [E | E]; rewrite E in Hs;
      [| discriminate]. injection Hs as <-.
    destruct (str_in rs _).
    - destruct Hsurface as [Hv _]. rounded2 8000 20000.
    - destruct Hsurface as [Hv _].
      destruct (String.eqb rs "Asphalt");
        [rounded2 3000 8000 | rounded2 4000 12000]. }
  split.
  { destruct (str_in rs _).
    - destruct Hsurface as [_ Hh]. rounded1 20 90.
    - destruct Hsurface as [_ Hh].
      destruct (Qgtb bn 80); rounded1 20 90. }
  intros s Hs Hgravel. destruct Hf_road as [E | E]; rewrite E in Hs;
    [| discriminate]. injection Hs as <-.
  rewrite Hgravel in Hsurface. destruct Hsurface as [_ Hh].
  rounded1 60 90.
Qed.

(** The measurement table, its records and what was drawn for them. *)
Lemma measurement_table_facts (df : pd.DataFrame) (s : rng) :
  vehicle_table df ->
  exists df_measurements s' records,
    generate_nvh_measurements df s = (Ok df_measurements, s')
    /\ df_measurements = pd.of_records records
    /\ rows df_measurements = records
    /\ Forall2 (measurement_record df) (range 0 NUM_MEASUREMENTS) records
    /\ Forall measurement_values records.
Proof.
  intros Hdf.
  assert (H : returns (generate_nvh_measurements df) s
                (fun dfm _ =>
                   exists records,
                     dfm = pd.of_records records
                     /\ Forall2 (fun i r => measurement_record df i r
                                            /\ measurement_values r)
                                (range 0 NUM_MEASUREMENTS) records)).
  { unfold generate_nvh_measurements, measurement_records.
    eapply returns_bind_post.
    - apply (returns_for_append
               (fun i r => measurement_record df i r
                           /\ measurement_values r)
               (measurement df)).
      intros i s'. apply returns_conj.
      + apply returns_measurement. exact Hdf.
      + apply returns_measurement_values. exact Hdf.
    - intros records s' Hrecords. apply returns_ret.
      exists records. auto. }
  destruct H as (dfm & s' & Hrun & records & -> & Hboth).
  assert (Hrecords : Forall2 (measurement_record df)
                             (range 0 NUM_MEASUREMENTS) records).
  { eapply Forall2_impl; [| exact Hboth]. intros i r [Hr _]. exact Hr. }
  exists (pd.of_records records), s', records.
  split; [exact Hrun |]. split; [reflexivity |].
  split; [apply (nvh_measurements_rows _ _ Hrecords) |].
  split; [exact Hrecords |].
  apply (Forall2_right _ _ _ _ (fun i r H => proj2 H) Hboth).
Qed.

(* ================================================================== *)
(** * Dates and identifiers *)

Lemma In_range (a b z : Z) : a <= z < b -> In z (range a b).
Proof.
  intros Hz. unfold range. apply in_map_iff.
  exists (Z.to_nat (z - a)). split; [lia |].
  apply in_seq. lia.
Qed.

Lemma range_In (a b z : Z) : In z (range a b) -> a <= z < b.
Proof.
  unfold range. intros H. apply in_map_iff in H.
  destruct H as (k & <- & Hk). apply in_seq in Hk. lia.
Qed.

Lemma length_append (a b : string) :
  String.length (a ++ b) = (String.length a + String.length b)%nat.
Proof. induction a as [| c a IH]; simpl; [reflexivity | rewrite IH; reflexivity]. Qed.

(** Two-digit fields are two characters wide. *)
Lemma format_02d_length (z : Z) :
  0 <= z <= 99 -> String.length (format_0d 2 z) = 2%nat.
Proof.
  intros Hz.
  assert (Hall : forallb (fun z => Nat.eqb (String.length (format_0d 2 z)) 2)
                         (range 0 100) = true) by (vm_compute; reflexivity).
  rewrite forallb_forall in Hall.
  apply Nat.eqb_eq. apply Hall. apply In_range. lia.
Qed.

Lemma inconsistent_timestamp_length (y mo d h mi : Z) :
  In y [ 2029; 2080; 2090; 2099 ] ->
  1 <= mo <= 12 -> 1 <= d <= 28 -> 0 <= h <= 23 -> 0 <= mi <= 59 ->
  String.length (inconsistent_timestamp y mo d h mi) = 19%nat.
Proof.
  intros Hy Hmo Hd Hh Hmi. unfold inconsistent_timestamp.
  rewrite !length_append.
  rewrite !format_02d_length by lia.
  repeat (destruct Hy as [<- | Hy]; [reflexivity |]). destruct Hy.
Qed.

(** Every timestamp of the normal branch is nineteen characters long
    and reads 2023 or 2024. *)
Lemma normal_timestamp_shape (days hours : Z) :
  0 <= days <= 730 -> 0 <= hours <= 23 ->
  String.length (normal_timestamp days hours) = 19%nat
  /\ In (year_part (normal_timestamp days hours)) [ "2023"; "2024" ].
Proof.
  intros Hd Hh.
  assert (Hall :
    forallb (fun d =>
      forallb (fun h =>
                 Nat.eqb (String.length (normal_timestamp d h)) 19
                 && str_in (year_part (normal_timestamp d h))
                           [ "2023"; "2024" ])
              (range 0 24))
      (range 0 731) = true) by (vm_compute; reflexivity).
  rewrite forallb_forall in Hall.
  specialize (Hall days (In_range 0 731 days ltac:(lia))).
  rewrite forallb_forall in Hall.
  specialize (Hall hours (In_range 0 24 hours ltac:(lia))).
  apply andb_true_iff in Hall. destruct Hall as [Hlen Hyear].
  split; [apply Nat.eqb_eq, Hlen |].
  apply existsb_eqb_In in Hyear. exact Hyear.
Qed.

(** The date step returns a missing value, a normal-branch timestamp or
    an inconsistent one. *)
Lemma returns_measurement_date_shape (s : rng) :
  returns measurement_date s (fun v _ => timestamp_cell v).
Proof.
  unfold measurement_date. apply returns_bind. apply returns_random_lt.
  intros [] s1.
  - eapply returns_weaken; [apply returns_inconsistent_date |].
    intros v s2 (y & mo & d & h & mi & Hy & Hmo & Hd & Hh & Hmi & ->).
    right. eexists. split; [reflexivity |].
    split; [apply inconsistent_timestamp_length; assumption |].
    destruct (year_part_inconsistent y mo d h mi Hy) as [-> _].
    repeat (destruct Hy as [<- | Hy]; [simpl; tauto |]). destruct Hy.
  - apply returns_if_else. apply returns_random_gt. intros [] s2.
    + do 2 draw_randint. apply returns_ret. right.
      destruct (normal_timestamp_shape z z0 Hz Hz0) as [Hlen Hyear].
      eexists. split; [reflexivity |]. split; [exact Hlen |].
      simpl in Hyear. simpl. tauto.
    + apply returns_ret. left. reflexivity.
Qed.

Lemma Forall2_map_eq {A B C} (f : A -> C) (g : B -> C) (xs : list A)
      (ys : list B) :
  Forall2 (fun x y => g y = f x) xs ys -> map g ys = map f xs.
Proof. induction 1; simpl; congruence. Qed.

Lemma NoDup_strings (l : list string) :
  nodup string_dec l = l -> NoDup l.
Proof. intros <-. apply NoDup_nodup. Qed.

Lemma NoDup_VStr (l : list string) : NoDup l -> NoDup (map VStr l).
Proof.
  induction 1 as [| x l Hx _ IH]; simpl; constructor; [| exact IH].
  intros Hin. apply in_map_iff in Hin.
  destruct Hin as (y & E & Hy). injection E as ->. contradiction.
Qed.

Lemma measurement_ids_distinct : NoDup measurement_ids.
Proof.
  unfold measurement_ids. rewrite <- (map_map _ VStr).
  apply NoDup_VStr. apply NoDup_strings. vm_compute. reflexivity.
Qed.

(** X1. On every frame that can be sampled, the Measurement ID column
    is MEAS00001, MEAS00002, ... in row order, one identifier per loop
    index, and no identifier occurs twice. *)
Theorem measurement_ids_sequential (df : pd.DataFrame) :
  vehicle_table df ->
  forall s : rng,
  exists df_measurements s',
    generate_nvh_measurements df s = (Ok df_measurements, s')
    /\ pd.col df_measurements "Measurement ID"
       = Ok (map (fun i => VStr ("MEAS" ++ format_0d 5 (i + 1)))
                 (range 0 NUM_MEASUREMENTS))
    /\ NoDup (map (fun i => VStr ("MEAS" ++ format_0d 5 (i + 1)))
                  (range 0 NUM_MEASUREMENTS)).
Proof.
  intros Hdf s.
  destruct (measurement_table_facts df s Hdf)
    as (dfm & s' & records & Hrun & -> & _ & Hrecords & _).
  exists (pd.of_records records), s'. split; [exact Hrun |].
  split; [| apply measurement_ids_distinct].
  rewrite (nvh_measurements_col _ _ Hrecords) by (simpl; tauto).
  f_equal. apply Forall2_map_eq.
  eapply Forall2_impl; [| exact Hrecords].
  intros i r (v & vid & d & f1 & f2 & f3 & f4 & f5 & -> & _). reflexivity.
Qed.

Lemma measurement_ids_sequential_witness :
  vehicle_table example_vehicles
  /\ exists df_measurements s',
      generate_nvh_measurements example_vehicles example_rng
      = (Ok df_measurements, s')
      /\ pd.col df_measurements "Measurement ID"
         = Ok (map (fun i => VStr ("MEAS" ++ format_0d 5 (i + 1)))
                   (range 0 NUM_MEASUREMENTS))
      /\ NoDup (map (fun i => VStr ("MEAS" ++ format_0d 5 (i + 1)))
                    (range 0 NUM_MEASUREMENTS)).
Proof.
  assert (H : vehicle_table example_vehicles).
  { split; [discriminate |].
    intros v [<- | []]. exists "VEH0001". reflexivity. }
  split; [exact H |].
  apply (measurement_ids_sequential example_vehicles H example_rng).
Defined.

(** X2. In every measurement row the speed is missing, 0 (an idling
    test) or an integer from 15 to 120. *)
Theorem measurement_speed_domain (df : pd.DataFrame) :
  vehicle_table df ->
  forall s : rng,
  exists df_measurements s',
    generate_nvh_measurements df s = (Ok df_measurements, s')
    /\ forall r, In r (rows df_measurements) ->
         cell r "Speed (KMH)" = VNone
         \/ cell r "Speed (KMH)" = VInt 0
         \/ exists z, 15 <= z <= 120 /\ cell r "Speed (KMH)" = VInt z.
Proof.
  intros Hdf s.
  destruct (measurement_table_facts df s Hdf)
    as (dfm & s' & records & Hrun & _ & <- & _ & Hvalues).
  exists dfm, s'. split; [exact Hrun |]. intros r Hr.
  rewrite Forall_forall in Hvalues.
  apply (measurement_values_ranges r (Hvalues r Hr)).
Qed.

Lemma measurement_speed_domain_witness :
  vehicle_table example_vehicles
  /\ exists df_measurements s',
      generate_nvh_measurements example_vehicles example_rng
      = (Ok df_measurements, s')
      /\ forall r, In r (rows df_measurements) ->
           cell r "Speed (KMH)" = VNone
           \/ cell r "Speed (KMH)" = VInt 0
           \/ exists z, 15 <= z <= 120 /\ cell r "Speed (KMH)" = VInt z.
Proof.
  assert (H : vehicle_table example_vehicles).
  { split; [discriminate |].
    intros v [<- | []]. exists "VEH0001". reflexivity. }
  split; [exact H |].
  apply (measurement_speed_domain example_vehicles H example_rng).
Defined.

(** X3. In every measurement row the noise level is missing or within
    37 to 98 dB; in a row whose speed is 0 it is within 37 to 58, in a
    row whose speed is another integer within 57 to 98. *)
Theorem measurement_noise_range (df : pd.DataFrame) :
  vehicle_table df ->
  forall s : rng,
  exists df_measurements s',
    generate_nvh_measurements df s = (Ok df_measurements, s')
    /\ forall r, In r (rows df_measurements) ->
         missing_or_between 37 98 (cell r "Noise Level (dB)")
         /\ (cell r "Speed (KMH)" = VInt 0 ->
             missing_or_between 37 58 (cell r "Noise Level (dB)"))
         /\ (forall z, cell r "Speed (KMH)" = VInt z -> z <> 0 ->
               missing_or_between 57 98 (cell r "Noise Level (dB)")).
Proof.
  intros Hdf s.
  destruct (measurement_table_facts df s Hdf)
    as (dfm & s' & records & Hrun & _ & <- & _ & Hvalues).
  exists dfm, s'. split; [exact Hrun |]. intros r Hr.
  rewrite Forall_forall in Hvalues.
  destruct (measurement_values_ranges r (Hvalues r Hr))
    as (_ & Hn & Hidle & Hdrive & _).
  auto.
Qed.

Lemma measurement_noise_range_witness :
  vehicle_table example_vehicles
  /\ exists df_measurements s',
      generate_nvh_measurements example_vehicles example_rng
      = (Ok df_measurements, s')
      /\ forall r, In r (rows df_measurements) ->
           missing_or_between 37 98 (cell r "Noise Level (dB)")
           /\ (cell r "Speed (KMH)" = VInt 0 ->
               missing_or_between 37 58 (cell r "Noise Level (dB)"))
           /\ (forall z, cell r "Speed (KMH)" = VInt z -> z <> 0 ->
                 missing_or_between 57 98 (cell r "Noise Level (dB)")).
Proof.
  assert (H : vehicle_table example_vehicles).
  { split; [discriminate |].
    intros v [<- | []]. exists "VEH0001". reflexivity. }
  split; [exact H |].
  apply (measurement_noise_range example_vehicles H example_rng).
Defined.

(** X4. In every measurement row the road surface is missing or one of
    the five surfaces, and the vibration frequency is missing or within
    30 to 200 Hz; when the road surface is present the frequency is
    within 80 to 200 on Gravel and Cobblestone, 30 to 80 on Asphalt and
    40 to 120 on Concrete and Test Track. *)
Theorem vibration_follows_road_surface (df : pd.DataFrame) :
  vehicle_table df ->
  forall s : rng,
  exists df_measurements s',
    generate_nvh_measurements df s = (Ok df_measurements, s')
    /\ forall r, In r (rows df_measurements) ->
         (cell r "Road Surface" = VNone
          \/ exists surface,
              In surface road_surfaces
              /\ cell r "Road Surface" = VStr surface)
         /\ missing_or_between 30 200 (cell r "Vibration Frequency (Hz)")
         /\ (cell r "Road Surface" = VStr "Gravel"
             \/ cell r "Road Surface" = VStr "Cobblestone" ->
             missing_or_between 80 200
               (cell r "Vibration Frequency (Hz)"))
         /\ (cell r "Road Surface" = VStr "Asphalt" ->
             missing_or_between 30 80 (cell r "Vibration Frequency (Hz)"))
         /\ (cell r "Road Surface" = VStr "Concrete"
             \/ cell r "Road Surface" = VStr "Test Track" ->
             missing_or_between 40 120
               (cell r "Vibration Frequency (Hz)")).
Proof.
  intros Hdf s.
  destruct (measurement_table_facts df s Hdf)
    as (dfm & s' & records & Hrun & _ & <- & _ & Hvalues).
  exists dfm, s'. split; [exact Hrun |]. intros r Hr.
  rewrite Forall_forall in Hvalues.
  destruct (measurement_values_ranges r (Hvalues r Hr))
    as (_ & _ & _ & _ & Hroad & Hvib & Hby & _).
  split; [exact Hroad |]. split; [exact Hvib |].
  split; [intros [E | E]; apply (Hby _ E) |].
  split; [intros E; apply (Hby _ E) |].
  intros [E | E]; apply (Hby _ E).
Qed.

Lemma vibration_follows_road_surface_witness :
  vehicle_table example_vehicles
  /\ exists df_measurements s',
      generate_nvh_measurements example_vehicles example_rng
      = (Ok df_measurements, s')
      /\ forall r, In r (rows df_measurements) ->
           (cell r "Road Surface" = VNone
            \/ exists surface,
                In surface road_surfaces
                /\ cell r "Road Surface" = VStr surface)
           /\ missing_or_between 30 200
                (cell r "Vibration Frequency (Hz)")
           /\ (cell r "Road Surface" = VStr "Gravel"
               \/ cell r "Road Surface" = VStr "Cobblestone" ->
               missing_or_between 80 200
                 (cell r "Vibration Frequency (Hz)"))
           /\ (cell r "Road Surface" = VStr "Asphalt" ->
               missing_or_between 30 80
                 (cell r "Vibration Frequency (Hz)"))
           /\ (cell r "Road Surface" = VStr "Concrete"
               \/ cell r "Road Surface" = VStr "Test Track" ->
               missing_or_between 40 120
                 (cell r "Vibration Frequency (Hz)")).
Proof.
  assert (H : vehicle_table example_vehicles).
  { split; [discriminate |].
    intros v [<- | []]. exists "VEH0001". reflexivity. }
  split; [exact H |].
  apply (vibration_follows_road_surface example_vehicles H example_rng).
Defined.

(** X5. In every measurement row the harshness score is missing or
    within 2 to 9, and within 6 to 9 when the road surface is present
    and is Gravel or Cobblestone. *)
Theorem harshness_range (df : pd.DataFrame) :
  vehicle_table df ->
  forall s : rng,
  exists df_measurements s',
    generate_nvh_measurements df s = (Ok df_measurements, s')
    /\ forall r, In r (rows df_measurements) ->
         missing_or_between 2 9 (cell r "Harshness Score")
         /\ (cell r "Road Surface" = VStr "Gravel"
             \/ cell r "Road Surface" = VStr "Cobblestone" ->
             missing_or_between 6 9 (cell r "Harshness Score")).
Proof.
  intros Hdf s.
  destruct (measurement_table_facts df s Hdf)
    as (dfm & s' & records & Hrun & _ & <- & _ & Hvalues).
  exists dfm, s'. split; [exact Hrun |]. intros r Hr.
  rewrite Forall_forall in Hvalues.
  destruct (measurement_values_ranges r (Hvalues r Hr))
    as (_ & _ & _ & _ & _ & _ & _ & Hh & Hgravel).
  split; [exact Hh |].
  intros [E | E]; apply (Hgravel _ E); reflexivity.
Qed.

Lemma harshness_range_witness :
  vehicle_table example_vehicles
  /\ exists df_measurements s',
      generate_nvh_measurements example_vehicles example_rng
      = (Ok df_measurements, s')
      /\ forall r, In r (rows df_measurements) ->
           missing_or_between 2 9 (cell r "Harshness Score")
           /\ (cell r "Road Surface" = VStr "Gravel"
               \/ cell r "Road Surface" = VStr "Cobblestone" ->
               missing_or_between 6 9 (cell r "Harshness Score")).
Proof.
  assert (H : vehicle_table example_vehicles).
  { split; [discriminate |].
    intros v [<- | []]. exists "VEH0001". reflexivity. }
  split; [exact H |].
  apply (harshness_range example_vehicles H example_rng).
Defined.

(** X6. In every measurement row the date is missing or a string of
    nineteen characters whose first four read 2023 or 2024 (the normal
    branch) or 2029, 2080, 2090 or 2099 (the inconsistent branch). *)
Theorem measurement_date_shape (df : pd.DataFrame) :
  vehicle_table df ->
  forall s : rng,
  exists df_measurements s',
    generate_nvh_measurements df s = (Ok df_measurements, s')
    /\ forall r, In r (rows df_measurements) ->
         cell r "Measurement Date" = VNone
         \/ exists t,
             cell r "Measurement Date" = VStr t
             /\ String.length t = 19%nat
             /\ In (year_part t)
                   [ "2023"; "2024"; "2029"; "2080"; "2090"; "2099" ].
Proof.
  intros Hdf s.
  destruct (measurement_table_facts df s Hdf)
    as (dfm & s' & records & Hrun & _ & <- & Hrecords & _).
  exists dfm, s'. split; [exact Hrun |]. intros r Hr.
  pose proof (measurement_records_all _ _ Hrecords) as Hall.
  rewrite Forall_forall in Hall.
  destruct (Hall r Hr)
    as (i & v & vid & date & f1 & f2 & f3 & f4 & f5 & -> & _ & _ & _
        & (s1 & s2 & Hdate) & _).
  change (cell _ "Measurement Date") with date.
  destruct (returns_measurement_date_shape s1)
    as (date' & s2' & Hdate' & Hshape).
  rewrite Hdate in Hdate'. injection Hdate' as <- _. exact Hshape.
Qed.

Lemma measurement_date_shape_witness :
  vehicle_table example_vehicles
  /\ exists df_measurements s',
      generate_nvh_measurements example_vehicles example_rng
      = (Ok df_measurements, s')
      /\ forall r, In r (rows df_measurements) ->
           cell r "Measurement Date" = VNone
           \/ exists t,
               cell r "Measurement Date" = VStr t
               /\ String.length t = 19%nat
               /\ In (year_part t)
                     [ "2023"; "2024"; "2029"; "2080"; "2090"; "2099" ].
Proof.
  assert (H : vehicle_table example_vehicles).
  { split; [discriminate |].
    intros v [<- | []]. exists "VEH0001". reflexivity. }
  split; [exact H |].
  apply (measurement_date_shape example_vehicles H example_rng).
Defined.

(* ================================================================== *)
(** * More on the vehicle table *)

Lemma manufacturing_date_shape (days : Z) :
  0 <= days <= 1460 ->
  String.length (manufacturing_date days) = 10%nat
  /\ In (year_part (manufacturing_date days))
        [ "2020"; "2021"; "2022"; "2023" ].
Proof.
  intros Hd.
  assert (Hall :
    forallb (fun d =>
               Nat.eqb (String.length (manufacturing_date d)) 10
               && str_in (year_part (manufacturing_date d))
                         [ "2020"; "2021"; "2022"; "2023" ])
            (range 0 1461) = true) by (vm_compute; reflexivity).
  rewrite forallb_forall in Hall.
  specialize (Hall days (In_range 0 1461 days ltac:(lia))).
  apply andb_true_iff in Hall. destruct Hall as [Hlen Hyear].
  split; [apply Nat.eqb_eq, Hlen |].
  apply existsb_eqb_In in Hyear. exact Hyear.
Qed.

(** Each pass of the vehicle loop gives a well-formed manufacturing
    date. *)
Lemma returns_vehicle_date (i : Z) (s : rng) :
  returns (vehicle i) s
          (fun r _ => manufacturing_date_cell (cell r "Manufacturing Date")).
Proof.
  unfold vehicle.
  apply returns_bind. apply returns_choice; [discriminate |].
  intros model s1 _.
  eapply returns_bind_post; [apply returns_engine_for |].
  intros engine s2 _.
  eapply returns_bind_post; [apply returns_field_ret |].
  intros f_model s3 _.
  eapply returns_bind_post.
  { apply (returns_field _ _ (fun _ => True)).
    intros s'. apply returns_bind.
    apply returns_choice; [discriminate |].
    intros m s'' _. apply returns_ret. exact I. }
  intros f_manufacturer s4 _.
  eapply returns_bind_post; [apply returns_field_ret |].
  intros f_engine s5 _.
  eapply returns_bind_post.
  { apply (returns_field _ _
             (fun f => exists d, 0 <= d <= 1460
                                 /\ f = VStr (manufacturing_date d))).
    intros s'. apply returns_bind.
    apply returns_randint; [lia |].
    intros d s'' Hd. apply returns_ret. exists d. split; [exact Hd |].
    reflexivity. }
  intros f_date s6 Hf_date.
  apply returns_ret. change (cell _ "Manufacturing Date") with f_date.
  destruct Hf_date as [(d & Hd & ->) | ->]; [right | left; reflexivity].
  destruct (manufacturing_date_shape d Hd) as [Hlen Hyear].
  eexists. split; [reflexivity |]. split; assumption.
Qed.

(** The two loops of [generate_vehicle_master], for any property [R]
    the records of the first loop have. *)
Lemma returns_vehicle_records_with (R : Z -> dict -> Prop) (s : rng) :
  (forall i s', returns (vehicle i) s' (fun r _ => R i r)) ->
  returns vehicle_records s
          (fun records _ =>
             exists base,
               Forall2 R (range 1 (NUM_VEHICLES + 1)) base
               /\ copies base records
               /\ List.length records
                  = (List.length base + Z.to_nat num_duplicates)%nat).
Proof.
  intros HR. unfold vehicle_records.
  eapply returns_bind_post;
    [apply (returns_for_append R vehicle); exact HR |].
  intros base s1 Hbase.
  assert (Hlen : List.length base = 60%nat).
  { apply Forall2_length in Hbase. rewrite <- Hbase, length_range.
    reflexivity. }
  eapply returns_weaken.
  - apply (returns_for _
             (fun done acc =>
                copies base acc
                /\ List.length acc
                   = (List.length base + List.length done)%nat)).
    + split; [constructor | simpl; lia].
    + intros done x acc s' [Hc Hl].
      eapply returns_bind_post.
      * apply (returns_choice s' acc (fun d _ => In d acc)); [| auto].
        intros ->. simpl in Hl. lia.
      * intros d s'' Hd. apply returns_ret. split.
        -- constructor; assumption.
        -- rewrite !length_app, Hl. simpl. lia.
  - intros records s' [Hc Hl]. exists base.
    split; [exact Hbase | split; [exact Hc |]].
    rewrite Hl, length_range. reflexivity.
Qed.

Lemma copies_In_base {A} (base l : list A) :
  copies base l -> forall x, In x l -> In x base.
Proof.
  induction 1 as [| l d _ IH Hd]; intros x Hx; [exact Hx |].
  apply in_app_or in Hx. destruct Hx as [Hx | [<- | []]]; auto.
Qed.

(** The vehicle table, its records, and what holds of each record of
    the first loop. *)
Lemma vehicle_table_facts (s : rng) :
  exists df_vehicles s' base appended,
    generate_vehicle_master s = (Ok df_vehicles, s')
    /\ df_vehicles = pd.of_records (base ++ appended)%list
    /\ rows df_vehicles = (base ++ appended)%list
    /\ Forall2 (fun i r =>
                  vehicle_record i r
                  /\ manufacturing_date_cell (cell r "Manufacturing Date"))
               (range 1 (NUM_VEHICLES + 1)) base
    /\ List.length base = 60%nat
    /\ List.length appended = 6%nat
    /\ (forall r, In r appended -> In r base).
Proof.
  assert (H : returns generate_vehicle_master s
                (fun df _ =>
                   exists base records,
                     df = pd.of_records records
                     /\ Forall2 (fun i r =>
                                   vehicle_record i r
                                   /\ manufacturing_date_cell
                                        (cell r "Manufacturing Date"))
                                (range 1 (NUM_VEHICLES + 1)) base
                     /\ copies base records
                     /\ List.length records
                        = (List.length base
                           + Z.to_nat num_duplicates)%nat)).
  { unfold generate_vehicle_master.
    eapply returns_bind_post.
    - apply (returns_vehicle_records_with
               (fun i r => vehicle_record i r
                           /\ manufacturing_date_cell
                                (cell r "Manufacturing Date"))).
      intros i s'. apply returns_conj;
        [apply returns_vehicle | apply returns_vehicle_date].
    - intros records s' (base & Hbase & Hc & Hl). apply returns_ret.
      exists base, records. auto. }
  destruct H as (df & s' & Hrun & base & records & -> & Hboth & Hcopies
                 & Hlen).
  assert (Hbase : Forall2 vehicle_record (range 1 (NUM_VEHICLES + 1)) base).
  { eapply Forall2_impl; [| exact Hboth]. intros i r [Hr _]. exact Hr. }
  destruct (copies_app _ _ Hcopies) as (appended & Happ).
  pose proof (vehicle_base_length base Hbase) as Hb.
  exists (pd.of_records records), s', base, appended.
  split; [exact Hrun |]. split; [rewrite Happ; reflexivity |].
  split.
  { rewrite (vehicle_master_rows base records Hbase Hcopies Hlen).
    exact Happ. }
  split; [exact Hboth |]. split; [exact Hb |].
  split.
  { rewrite Happ, length_app, Hb in Hlen.
    change (Z.to_nat num_duplicates) with 6%nat in Hlen. lia. }
  intros r Hr. apply (copies_In_base _ _ Hcopies).
  rewrite Happ. apply in_or_app. right. exact Hr.
Qed.

Lemma NoDup_map_injective {A B} (f : A -> B) (l : list A) :
  (forall a b, f a = f b -> a = b) -> NoDup l -> NoDup (map f l).
Proof.
  intros Hinj. induction 1 as [| x l Hx _ IH]; simpl; constructor;
    [| exact IH].
  intros Hin. apply in_map_iff in Hin.
  destruct Hin as (y & E & Hy). apply Hinj in E. subst. contradiction.
Qed.

Lemma value_eqb_refl (v : value) : value_eqb v v = true.
Proof.
  destruct v; simpl;
    [reflexivity | apply String.eqb_refl | apply Z.eqb_refl
     | apply Qeq_bool_refl].
Qed.

Lemma list_eqb_refl (row : list value) : list_eqb value_eqb row row = true.
Proof.
  induction row as [| v row IH]; simpl; [reflexivity |].
  rewrite value_eqb_refl. exact IH.
Qed.

Lemma row_key_eqb (r1 r2 : list value) :
  list_eqb value_eqb r1 r2 = true -> row_key r1 = row_key r2.
Proof.
  destruct r1 as [| v1 r1], r2 as [| v2 r2]; simpl;
    try reflexivity; try discriminate.
  intros H. apply andb_true_iff in H. destruct H as [H _].
  destruct v1, v2; simpl in H; try reflexivity; try discriminate.
  apply String.eqb_eq in H. subst. reflexivity.
Qed.

Section Keyed.
Context {A K : Type} (eqb : A -> A -> bool) (key : A -> K).
Hypothesis Hkey : forall x y, eqb x y = true -> key x = key y.

(** Elements with fresh, pairwise distinct keys are all kept. *)
Lemma fold_add_fresh (ys acc : list A) :
  NoDup (map key ys) ->
  (forall y, In y ys -> ~ In (key y) (map key acc)) ->
  fold_left (fun acc x => if existsb (eqb x) acc then acc
                          else (acc ++ [x])%list) ys acc
  = (acc ++ ys)%list.
Proof.
  revert acc. induction ys as [| y ys IH]; intros acc Hnd Hfresh; simpl.
  - symmetry. apply app_nil_r.
  - simpl in Hnd. inversion Hnd as [| ? ? Hy Hnd']; subst.
    destruct (existsb (eqb y) acc) eqn:E.
    + apply existsb_exists in E. destruct E as (x & Hx & Hxy).
      exfalso. apply (Hfresh y (or_introl eq_refl)).
      rewrite (Hkey _ _ Hxy). apply in_map. exact Hx.
    + rewrite IH; [rewrite <- app_assoc; reflexivity | exact Hnd' |].
      intros y' Hy' Hin. rewrite map_app in Hin.
      apply in_app_or in Hin. destruct Hin as [Hin | [E' | []]].
      * apply (Hfresh y' (or_intror Hy') Hin).
      * apply Hy. rewrite E'. apply in_map. exact Hy'.
Qed.

Lemma unique_by_distinct_keys (ys : list A) :
  NoDup (map key ys) -> unique_by eqb ys = ys.
Proof.
  intros Hnd. unfold unique_by.
  rewrite fold_add_fresh; [reflexivity | exact Hnd |].
  intros y _ [].
Qed.

End Keyed.

Lemma vehicle_id_strings_distinct :
  NoDup (map (fun i => "VEH" ++ format_0d 4 i) (range 1 (NUM_VEHICLES + 1))).
Proof. apply NoDup_strings. vm_compute. reflexivity. Qed.

Lemma vehicle_ids_distinct : NoDup vehicle_ids.
Proof.
  unfold vehicle_ids. rewrite <- (map_map _ VStr).
  apply NoDup_VStr. apply vehicle_id_strings_distinct.
Qed.

Section VehicleIds.
Variables (base appended : list dict).
Hypothesis Hbase :
  Forall2 vehicle_record (range 1 (NUM_VEHICLES + 1)) base.
Hypothesis Happended : forall r, In r appended -> In r base.

Lemma base_ids : map (fun r => cell r "Vehicle ID") base = vehicle_ids.
Proof.
  unfold vehicle_ids. apply Forall2_map_eq.
  eapply Forall2_impl; [| exact Hbase].
  intros i r (m & e & f1 & f2 & f3 & f4 & -> & _). reflexivity.
Qed.

Lemma appended_ids_known (id : value) :
  In id (map (fun r => cell r "Vehicle ID") appended) -> In id vehicle_ids.
Proof.
  intros H. apply in_map_iff in H. destruct H as (r & <- & Hr).
  rewrite <- base_ids.
  apply (in_map (fun r => cell r "Vehicle ID")). apply Happended. exact Hr.
Qed.

Lemma all_keys : Forall (fun r => keys r = vehicle_columns)
                        (base ++ appended)%list.
Proof.
  assert (Hb : Forall (fun r => keys r = vehicle_columns) base).
  { apply (Forall2_right vehicle_record _ _ _
             (fun i r H => vehicle_record_keys i r H) Hbase). }
  apply Forall_app. split; [exact Hb |].
  rewrite Forall_forall in *. intros r Hr. apply Hb, Happended, Hr.
Qed.

Lemma nunique_ids :
  pd.nunique (map (fun r => cell r "Vehicle ID") (base ++ appended)%list)
  = 60.
Proof.
  rewrite map_app, base_ids. unfold pd.nunique, pd.dropna, pd.unique.
  assert (Hstr : forall l,
             (forall v, In v l -> In v vehicle_ids) ->
             filter (fun v => negb (isna v)) l = l).
  { induction l as [| v l IH]; intros Hl; [reflexivity |]. simpl.
    assert (Hv : negb (isna v) = true).
    { specialize (Hl v (or_introl eq_refl)). unfold vehicle_ids in Hl.
      apply in_map_iff in Hl. destruct Hl as (i & <- & _). reflexivity. }
    rewrite Hv. f_equal. apply IH. intros w Hw. apply Hl. right. exact Hw. }
  rewrite filter_app.
  rewrite (Hstr vehicle_ids) by auto.
  rewrite (Hstr _ appended_ids_known).
  rewrite unique_by_app.
  assert (Hu : unique_by value_eqb vehicle_ids = vehicle_ids)
    by (vm_compute; reflexivity).
  rewrite Hu. rewrite fold_add_absorbed; [reflexivity |].
  intros y Hy. apply existsb_exists. exists y.
  split; [apply appended_ids_known, Hy | apply value_eqb_refl].
Qed.

Lemma base_row_keys :
  map row_key (map (fun r => map (cell r) vehicle_columns) base)
  = map (fun i => Some ("VEH" ++ format_0d 4 i))
        (range 1 (NUM_VEHICLES + 1)).
Proof.
  rewrite map_map. apply Forall2_map_eq.
  eapply Forall2_impl; [| exact Hbase].
  intros i r (m & e & f1 & f2 & f3 & f4 & -> & _). reflexivity.
Qed.

(** The distinct rows of the table are the rows of the first loop. *)
Lemma distinct_rows :
  unique_by (list_eqb value_eqb)
            (map (fun r => map (cell r) vehicle_columns)
                 (base ++ appended)%list)
  = map (fun r => map (cell r) vehicle_columns) base.
Proof.
  rewrite map_app, unique_by_app.
  rewrite (unique_by_distinct_keys _ row_key row_key_eqb).
  - apply fold_add_absorbed. intros y Hy. apply existsb_exists.
    exists y. split; [| apply list_eqb_refl].
    apply in_map_iff in Hy. destruct Hy as (r & <- & Hr).
    apply (in_map (fun r => map (cell r) vehicle_columns)).
    apply Happended. exact Hr.
  - rewrite base_row_keys. rewrite <- (map_map _ Some).
    apply NoDup_map_injective; [intros a b E; injection E; auto |].
    apply vehicle_id_strings_distinct.
Qed.

End VehicleIds.

Lemma data_of_records (K : list string) (records : list dict) :
  records <> [] ->
  unique_by String.eqb K = K ->
  Forall (fun r => keys r = K) records ->
  pd.data (pd.of_records records) = map (fun r => map (cell r) K) records.
Proof.
  intros Hne HU HK.
  pose proof (columns_of_records K records Hne HU HK) as Hc.
  unfold pd.of_records in *. simpl pd.columns in Hc. simpl pd.data.
  rewrite Hc. reflexivity.
Qed.

Lemma app_nonempty_left {A} (l l' : list A) :
  List.length l = 60%nat -> (l ++ l')%list <> [].
Proof. destruct l; [discriminate | discriminate]. Qed.

(** X7. On every run the Vehicle ID column starts with VEH0001 to
    VEH0060 in order, pairwise distinct, followed by the six identifiers
    of the appended rows, each of which is one of those sixty: the
    column has exactly 60 distinct identifiers. *)
Theorem vehicle_id_column (s : rng) :
  exists df_vehicles s' appended_ids,
    generate_vehicle_master s = (Ok df_vehicles, s')
    /\ pd.col df_vehicles "Vehicle ID"
       = Ok (map (fun i => VStr ("VEH" ++ format_0d 4 i))
                 (range 1 (NUM_VEHICLES + 1)) ++ appended_ids)%list
    /\ List.length appended_ids = 6%nat
    /\ (forall id, In id appended_ids ->
          In id (map (fun i => VStr ("VEH" ++ format_0d 4 i))
                     (range 1 (NUM_VEHICLES + 1))))
    /\ NoDup (map (fun i => VStr ("VEH" ++ format_0d 4 i))
                  (range 1 (NUM_VEHICLES + 1)))
    /\ pd.nunique
         (map (fun i => VStr ("VEH" ++ format_0d 4 i))
              (range 1 (NUM_VEHICLES + 1)) ++ appended_ids)%list
       = 60.
Proof.
  destruct (vehicle_table_facts s)
    as (dfv & s' & base & appended & Hrun & -> & _ & Hboth & Hb & Ha
        & Hin).
  assert (Hbase : Forall2 vehicle_record (range 1 (NUM_VEHICLES + 1)) base).
  { eapply Forall2_impl; [| exact Hboth]. intros i r [Hr _]. exact Hr. }
  exists (pd.of_records (base ++ appended)%list), s',
         (map (fun r => cell r "Vehicle ID") appended).
  fold vehicle_ids.
  split; [exact Hrun |]. split.
  { rewrite (col_of_records vehicle_columns).
    - rewrite map_app, (base_ids base Hbase). reflexivity.
    - apply app_nonempty_left, Hb.
    - reflexivity.
    - apply (all_keys base appended Hbase Hin).
    - simpl. tauto. }
  split; [rewrite length_map; exact Ha |].
  split; [apply (appended_ids_known base appended Hbase Hin) |].
  split; [apply vehicle_ids_distinct |].
  rewrite <- (base_ids base Hbase), <- map_app.
  apply (nunique_ids base appended Hbase Hin).
Qed.

(** X8. On every run the vehicle table has 66 rows of which 60 are
    distinct: [len(df) - len(df.drop_duplicates())], the duplicate count
    the summary prints, is 6. *)
Theorem vehicle_duplicate_count (s : rng) :
  exists df_vehicles s',
    generate_vehicle_master s = (Ok df_vehicles, s')
    /\ pd.len df_vehicles = 66
    /\ pd.len (pd.drop_duplicates df_vehicles) = 60
    /\ pd.len df_vehicles - pd.len (pd.drop_duplicates df_vehicles) = 6.
Proof.
  destruct (vehicle_table_facts s)
    as (dfv & s' & base & appended & Hrun & -> & _ & Hboth & Hb & Ha
        & Hin).
  assert (Hbase : Forall2 vehicle_record (range 1 (NUM_VEHICLES + 1)) base).
  { eapply Forall2_impl; [| exact Hboth]. intros i r [Hr _]. exact Hr. }
  exists (pd.of_records (base ++ appended)%list), s'.
  split; [exact Hrun |].
  assert (H66 : pd.len (pd.of_records (base ++ appended)%list) = 66).
  { rewrite len_of_records, length_app, Hb, Ha. reflexivity. }
  assert (H60 : pd.len (pd.drop_duplicates
                          (pd.of_records (base ++ appended)%list)) = 60).
  { unfold pd.len, pd.drop_duplicates. cbn [pd.data].
    rewrite (data_of_records vehicle_columns);
      [| apply app_nonempty_left, Hb | reflexivity
       | apply (all_keys base appended Hbase Hin)].
    rewrite (distinct_rows base appended Hbase Hin).
    rewrite length_map, Hb. reflexivity. }
  rewrite H66, H60. repeat split.
Qed.

Lemma engine_in_catalog (model engine : string) :
  In model vehicle_models ->
  engine_matches model engine ->
  In engine engine_types
  /\ (engine = "Electric" -> model = "Electric Bike G1")
  /\ (engine = "Hybrid" -> model = "Hybrid Bike H1")
  /\ (engine = "Gasoline" \/ engine = "Diesel" ->
      contains "Electric" model = false
      /\ contains "Hybrid" model = false).
Proof.
  intros Hmodel. unfold engine_matches.
  repeat (destruct Hmodel as [<- | Hmodel];
          [vm_compute;
           intros H; repeat split; intros; subst;
           repeat match goal with
                  | H : _ \/ _ |- _ => destruct H
                  | H : False |- _ => destruct H
                  end;
           subst; first [discriminate | reflexivity | tauto] |]).
  destruct Hmodel.
Qed.

(** What holds of every row of the vehicle table, appended rows
    included. *)
Lemma vehicle_rows_all (s : rng) :
  exists df_vehicles s',
    generate_vehicle_master s = (Ok df_vehicles, s')
    /\ forall r, In r (rows df_vehicles) ->
         exists i,
           vehicle_record i r
           /\ manufacturing_date_cell (cell r "Manufacturing Date").
Proof.
  destruct (vehicle_table_facts s)
    as (dfv & s' & base & appended & Hrun & _ & Hrows & Hboth & _ & _
        & Hin).
  exists dfv, s'. split; [exact Hrun |]. rewrite Hrows. intros r Hr.
  assert (Hb : In r base).
  { apply in_app_or in Hr. destruct Hr as [Hr | Hr]; [exact Hr | auto]. }
  pose proof (Forall2_right _ _ _ _ (fun i r H => ex_intro _ i H) Hboth)
    as Hall.
  rewrite Forall_forall in Hall. apply (Hall r Hb).
Qed.

(** X9. In every row of the vehicle table, appended rows included: the
    model is missing or one of the ten catalogued models, the
    manufacturer missing or one of the four manufacturers, the engine
    type missing or one of Gasoline, Diesel, Electric, Hybrid, and the
    manufacturing date missing or a ten-character string whose year
    reads 2020, 2021, 2022 or 2023; the identifier is never missing. *)
Theorem vehicle_field_domains (s : rng) :
  exists df_vehicles s',
    generate_vehicle_master s = (Ok df_vehicles, s')
    /\ forall r, In r (rows df_vehicles) ->
         (exists id, cell r "Vehicle ID" = VStr id)
         /\ (cell r "Vehicle Model" = VNone
             \/ exists m, In m vehicle_models
                          /\ cell r "Vehicle Model" = VStr m)
         /\ (cell r "Manufacturer" = VNone
             \/ exists m, In m manufacturers
                          /\ cell r "Manufacturer" = VStr m)
         /\ (cell r "Engine Type" = VNone
             \/ exists e, In e engine_types
                          /\ cell r "Engine Type" = VStr e)
         /\ (cell r "Manufacturing Date" = VNone
             \/ exists t,
                 cell r "Manufacturing Date" = VStr t
                 /\ String.length t = 10%nat
                 /\ In (year_part t) [ "2020"; "2021"; "2022"; "2023" ]).
Proof.
  destruct (vehicle_rows_all s) as (dfv & s' & Hrun & Hall).
  exists dfv, s'. split; [exact Hrun |]. intros r Hr.
  destruct (Hall r Hr)
    as (i & (m & e & fm & fman & fe & fd & -> & Hm & He & Hfm
             & (man & Hman & Hfman) & Hfe & _) & Hdate).
  destruct (engine_in_catalog m e Hm He) as [Hcat _].
  split; [eexists; reflexivity |].
  split.
  { destruct Hfm as [-> | ->]; [right; exists m; auto | left; reflexivity]. }
  split.
  { destruct Hfman as [-> | ->];
      [right; exists man; auto | left; reflexivity]. }
  split.
  { destruct Hfe as [-> | ->]; [right; exists e; auto | left; reflexivity]. }
  exact Hdate.
Qed.

(** X10. In every row of the vehicle table whose model and engine type
    are both present: an Electric engine goes with the model
    Electric Bike G1, a Hybrid engine with Hybrid Bike H1, and a Gasoline
    or Diesel engine with a model whose name contains neither
    "Electric" nor "Hybrid". *)
Theorem model_follows_engine_type (s : rng) :
  exists df_vehicles s',
    generate_vehicle_master s = (Ok df_vehicles, s')
    /\ forall r model engine,
        In r (rows df_vehicles) ->
        dict_get r "Vehicle Model" = Some (VStr model) ->
        dict_get r "Engine Type" = Some (VStr engine) ->
        (engine = "Electric" -> model = "Electric Bike G1")
        /\ (engine = "Hybrid" -> model = "Hybrid Bike H1")
        /\ (engine = "Gasoline" \/ engine = "Diesel" ->
            contains "Electric" model = false
            /\ contains "Hybrid" model = false).
Proof.
  destruct (vehicle_rows_all s) as (dfv & s' & Hrun & Hall).
  exists dfv, s'. split; [exact Hrun |].
  intros r model engine Hr Hmodel Hengine.
  destruct (Hall r Hr)
    as (i & (m & e & fm & fman & fe & fd & -> & Hm & He & Hfm & _ & Hfe
             & _) & _).
  simpl in Hmodel, Hengine.
  injection Hmodel as ->. injection Hengine as ->.
  destruct Hfm as [Hfm | Hfm]; [| discriminate].
  destruct Hfe as [Hfe | Hfe]; [| discriminate].
  injection Hfm as <-. injection Hfe as <-.
  apply (engine_in_catalog _ _ Hm He).
Qed.

(* ================================================================== *)
(** * More on the feedback table *)

Lemma feedback_ids_distinct : NoDup feedback_ids.
Proof.
  unfold feedback_ids. rewrite <- (map_map _ VStr).
  apply NoDup_VStr. apply NoDup_strings. vm_compute. reflexivity.
Qed.

Lemma comment_in_some_pool (comfort_level comment : string) :
  In comment (comment_pool comfort_level) ->
  In comment (comments_positive ++ comments_neutral
              ++ comments_negative)%list.
Proof.
  unfold comment_pool. intros H.
  destruct (str_in comfort_level [ "Excellent"; "Very Good" ]).
  - apply in_or_app. left. exact H.
  - destruct (str_in comfort_level [ "Good"; "Fair" ]).
    + apply in_or_app. right. apply in_or_app. left. exact H.
    + apply in_or_app. right. apply in_or_app. right. exact H.
Qed.

(** X11. On every frame that can be sampled, the Feedback ID column is
    FB00001, FB00002, ... in row order with no identifier twice, and in
    every row the comfort level is missing or one of the six levels and
    the comment is missing or one of the sentences of the three pools. *)
Theorem feedback_table_domains (df : pd.DataFrame) :
  vehicle_table df ->
  forall s : rng,
  exists df_feedback s',
    generate_customer_feedback df s = (Ok df_feedback, s')
    /\ pd.col df_feedback "Feedback ID"
       = Ok (map (fun i => VStr ("FB" ++ format_0d 5 (i + 1)))
                 (range 0 NUM_FEEDBACK))
    /\ NoDup (map (fun i => VStr ("FB" ++ format_0d 5 (i + 1)))
                  (range 0 NUM_FEEDBACK))
    /\ forall r, In r (rows df_feedback) ->
         (cell r "Comfort Level" = VNone
          \/ exists level,
              In level comfort_levels
              /\ cell r "Comfort Level" = VStr level)
         /\ (cell r "Comment" = VNone
             \/ exists comment,
                 In comment (comments_positive ++ comments_neutral
                             ++ comments_negative)%list
                 /\ cell r "Comment" = VStr comment).
Proof.
  intros Hdf s.
  destruct (returns_generate_customer_feedback df s Hdf)
    as (dff & s' & Hrun & records & -> & Hrecords).
  exists (pd.of_records records), s'. split; [exact Hrun |].
  split.
  { rewrite (col_of_records feedback_columns);
      [| apply (feedback_records_nonempty _ _ Hrecords) | reflexivity
       | apply (feedback_records_keys _ _ Hrecords) | simpl; tauto].
    f_equal. apply Forall2_map_eq.
    eapply Forall2_impl; [| exact Hrecords].
    intros i r (v & vid & c & m & f1 & f2 & -> & _). reflexivity. }
  split; [apply feedback_ids_distinct |].
  rewrite (customer_feedback_rows _ _ Hrecords). intros r Hr.
  pose proof (feedback_records_all _ _ Hrecords) as Hall.
  rewrite Forall_forall in Hall.
  destruct (Hall r Hr)
    as (i & v & vid & level & comment & fc & fm & -> & _ & _ & Hlevel
        & Hcomment & Hfc & Hfm).
  split.
  - destruct Hfc as [-> | ->]; [right | left; reflexivity].
    exists level. auto.
  - destruct Hfm as [-> | ->]; [right | left; reflexivity].
    exists comment. split; [| reflexivity].
    apply (comment_in_some_pool level comment Hcomment).
Qed.

Lemma feedback_table_domains_witness :
  vehicle_table example_vehicles
  /\ exists df_feedback s',
      generate_customer_feedback example_vehicles example_rng
      = (Ok df_feedback, s')
      /\ pd.col df_feedback "Feedback ID"
         = Ok (map (fun i => VStr ("FB" ++ format_0d 5 (i + 1)))
                   (range 0 NUM_FEEDBACK))
      /\ NoDup (map (fun i => VStr ("FB" ++ format_0d 5 (i + 1)))
                    (range 0 NUM_FEEDBACK))
      /\ forall r, In r (rows df_feedback) ->
           (cell r "Comfort Level" = VNone
            \/ exists level,
                In level comfort_levels
                /\ cell r "Comfort Level" = VStr level)
           /\ (cell r "Comment" = VNone
               \/ exists comment,
                   In comment (comments_positive ++ comments_neutral
                               ++ comments_negative)%list
                   /\ cell r "Comment" = VStr comment).
Proof.
  assert (H : vehicle_table example_vehicles).
  { split; [discriminate |].
    intros v [<- | []]. exists "VEH0001". reflexivity. }
  split; [exact H |].
  apply (feedback_table_domains example_vehicles H example_rng).
Defined.

(* ================================================================== *)
(** * Frames the downstream generators cannot sample *)

Lemma range_cons (a b : Z) : a < b -> range a b = a :: range (a + 1) b.
Proof.
  intros Hab. unfold range.
  replace (Z.to_nat (b - a)) with (S (Z.to_nat (b - (a + 1)))) by lia.
  simpl. f_equal; [lia |].
  rewrite <- seq_shift, map_map. apply map_ext. intros k. lia.
Qed.

Lemma sample1_empty (df : pd.DataFrame) (s : rng) :
  pd.data df = [] -> pd.sample1 df s = (Raise ValueError, s).
Proof. intros H. unfold pd.sample1. rewrite H. reflexivity. Qed.

(** X12. On a frame without rows both downstream generators raise
    [ValueError] at the first sampling, before any draw: no table is
    returned and the random state is unchanged. *)
Theorem empty_frame_raises (df : pd.DataFrame) :
  pd.data df = [] ->
  forall s : rng,
    generate_nvh_measurements df s = (Raise ValueError, s)
    /\ generate_customer_feedback df s = (Raise ValueError, s).
Proof.
  intros Hempty s. split.
  - unfold generate_nvh_measurements, measurement_records.
    rewrite (range_cons 0 NUM_MEASUREMENTS) by reflexivity.
    simpl for_. unfold measurement, bind.
    rewrite (sample1_empty df s Hempty). reflexivity.
  - unfold generate_customer_feedback, feedback_records.
    rewrite (range_cons 0 NUM_FEEDBACK) by reflexivity.
    simpl for_. unfold feedback, bind.
    rewrite (sample1_empty df s Hempty). reflexivity.
Qed.

Lemma empty_frame_raises_witness :
  pd.data (pd.of_records []) = []
  /\ generate_nvh_measurements (pd.of_records []) example_rng
     = (Raise ValueError, example_rng)
  /\ generate_customer_feedback (pd.of_records []) example_rng
     = (Raise ValueError, example_rng).
Proof.
  split; [reflexivity |].
  apply (empty_frame_raises (pd.of_records []) eq_refl example_rng).
Defined.

Lemma dict_get_combine_missing (cols : list string) (row : list value)
      (c : string) :
  ~ In c cols -> dict_get (combine cols row) c = None.
Proof.
  revert row. induction cols as [| c' cols IH]; intros row Hc;
    [reflexivity |].
  destruct row as [| v row]; [reflexivity |]. simpl.
  destruct (String.eqb c' c) eqn:E.
  - apply String.eqb_eq in E. subst. exfalso. apply Hc. left. reflexivity.
  - apply IH. intros H. apply Hc. right. exact H.
Qed.

Lemma raises_after {S A B} (m : M S A) (k : A -> M S B) (s : S) (e : exn) :
  returns m s (fun _ _ => True) ->
  (forall a s', raises (k a) s' e (fun _ => True)) ->
  raises (bind m k) s e (fun _ => True).
Proof.
  intros Hm Hk. apply raises_bind_later.
  eapply returns_weaken; [exact Hm |]. intros a s' _. apply Hk.
Qed.

Lemma returns_anything {S A} (m : M S A) (s : S) (Q : A -> S -> Prop) :
  returns m s Q -> returns m s (fun _ _ => True).
Proof. intros H. eapply returns_weaken; [exact H | auto]. Qed.

Lemma raises_getitem_missing {B} (d : dict) (c : string)
      (k : value -> M rng B) (s : rng) :
  dict_get d c = None ->
  raises (bind (of_outcome (getitem d c)) k) s (KeyError c) (fun _ => True).
Proof.
  intros H. exists s. unfold bind, of_outcome, getitem. rewrite H.
  split; [reflexivity | exact I].
Qed.

(** A pass of the measurement loop raises [KeyError] where it reads the
    identifier of the sampled row, after the draws before that read. *)
Lemma raises_measurement (df : pd.DataFrame) (i : Z) (s : rng) :
  pd.data df <> [] ->
  ~ In "Vehicle ID" (pd.columns df) ->
  raises (measurement df i) s (KeyError "Vehicle ID") (fun _ => True).
Proof.
  intros Hne Hmissing. unfold measurement.
  apply raises_bind_later. apply returns_sample1; [exact Hne |].
  intros row s1 _. rewrite iloc_single.
  apply raises_bind_later. apply returns_of_outcome.
  apply raises_after.
  { apply returns_choice; [discriminate | auto]. }
  intros test_condition s2. apply raises_after.
  { apply returns_choice; [discriminate | auto]. }
  intros road_surface s3. apply raises_after.
  { apply returns_base_noise_for. }
  intros base_noise s4. apply raises_after.
  { apply returns_base_vib_freq_for. }
  intros base_vib_freq s5. apply raises_after.
  { destruct (negb (String.eqb test_condition "Idling")).
    - apply returns_randint; [lia | auto].
    - apply returns_ret. exact I. }
  intros speed s6. apply raises_after.
  { apply returns_harshness_for. }
  intros harshness s7. apply raises_after.
  { apply (returns_anything _ _ _ (returns_measurement_date s7)). }
  intros date s8. apply raises_getitem_missing.
  apply dict_get_combine_missing. exact Hmissing.
Qed.

Lemma raises_feedback (df : pd.DataFrame) (i : Z) (s : rng) :
  pd.data df <> [] ->
  ~ In "Vehicle ID" (pd.columns df) ->
  raises (feedback df i) s (KeyError "Vehicle ID") (fun _ => True).
Proof.
  intros Hne Hmissing. unfold feedback.
  apply raises_bind_later. apply returns_sample1; [exact Hne |].
  intros row s1 _. rewrite iloc_single.
  apply raises_bind_later. apply returns_of_outcome.
  apply raises_after.
  { apply returns_choice; [discriminate | auto]. }
  intros comfort_level s2. apply raises_after.
  { apply returns_choice; [apply comment_pool_nonempty | auto]. }
  intros comment s3. apply raises_getitem_missing.
  apply dict_get_combine_missing. exact Hmissing.
Qed.

(** X13. On a frame that has rows but no 'Vehicle ID' column both
    downstream generators raise [KeyError] for 'Vehicle ID' in their
    first pass: no table is returned. *)
Theorem missing_identifier_column_raises (df : pd.DataFrame) :
  pd.data df <> [] ->
  ~ In "Vehicle ID" (pd.columns df) ->
  forall s : rng,
    (exists s',
        generate_nvh_measurements df s = (Raise (KeyError "Vehicle ID"), s'))
    /\ (exists s',
           generate_customer_feedback df s
           = (Raise (KeyError "Vehicle ID"), s')).
Proof.
  intros Hne Hmissing s. split.
  - assert (H : raises (generate_nvh_measurements df) s
                       (KeyError "Vehicle ID") (fun _ => True)).
    { unfold generate_nvh_measurements, measurement_records.
      rewrite (range_cons 0 NUM_MEASUREMENTS) by reflexivity.
      simpl for_. do 3 apply raises_bind_here.
      apply raises_measurement; assumption. }
    destruct H as (s' & H & _). exists s'. exact H.
  - assert (H : raises (generate_customer_feedback df) s
                       (KeyError "Vehicle ID") (fun _ => True)).
    { unfold generate_customer_feedback, feedback_records.
      rewrite (range_cons 0 NUM_FEEDBACK) by reflexivity.
      simpl for_. do 3 apply raises_bind_here.
      apply raises_feedback; assumption. }
    destruct H as (s' & H & _). exists s'. exact H.
Qed.

Lemma missing_identifier_column_raises_witness :
  pd.data example_unlabelled <> []
  /\ ~ In "Vehicle ID" (pd.columns example_unlabelled)
  /\ (exists s',
         generate_nvh_measurements example_unlabelled example_rng
         = (Raise (KeyError "Vehicle ID"), s'))
  /\ (exists s',
         generate_customer_feedback example_unlabelled example_rng
         = (Raise (KeyError "Vehicle ID"), s')).
Proof.
  assert (H1 : pd.data example_unlabelled <> []) by discriminate.
  assert (H2 : ~ In "Vehicle ID" (pd.columns example_unlabelled)).
  { simpl. intuition discriminate. }
  split; [exact H1 |]. split; [exact H2 |].
  apply (missing_identifier_column_raises example_unlabelled H1 H2
                                          example_rng).
Defined.

(* ================================================================== *)
(** * What a run prints *)

Lemma bind_column_ok {A} (df : pd.DataFrame) (c : string) (ser : pd.Series)
      (k : pd.Series -> M world A) (w : world) :
  pd.col df c = Ok ser -> bind (column df c) k w = k ser w.
Proof. intros H. unfold bind, column, of_outcome. rewrite H. reflexivity. Qed.

Lemma bind_column_raise {A} (df : pd.DataFrame) (c : string) (e : exn)
      (k : pd.Series -> M world A) (w : world) :
  pd.col df c = Raise e -> bind (column df c) k w = (Raise e, w).
Proof. intros H. unfold bind, column, of_outcome. rewrite H. reflexivity. Qed.

Lemma bind_outcome_ok {A B} (o : outcome A) (a : A) (k : A -> M world B)
      (w : world) :
  o = Ok a -> bind (of_outcome o) k w = k a w.
Proof. intros ->. reflexivity. Qed.

Lemma bind_ok {A B} (m : M world A) (k : A -> M world B) (w w' : world)
      (a : A) :
  m w = (Ok a, w') -> bind m k w = k a w'.
Proof. intros H. unfold bind. rewrite H. reflexivity. Qed.

Lemma bind_raise {A B} (m : M world A) (k : A -> M world B) (w w' : world)
      (e : exn) :
  m w = (Raise e, w') -> bind m k w = (Raise e, w').
Proof. intros H. unfold bind. rewrite H. reflexivity. Qed.

(** [main] up to the summary: the tables are generated and written and
    twelve lines are printed. *)
Lemma main_generation (w : world) :
  exists dfv dfm dff r,
    vehicle_master dfv
    /\ nvh_measurements dfv dfm
    /\ customer_feedback dfv dff
    /\ main w
       = summary dfv dfm dff
           (mkWorld r
              (stdout w ++ generation_lines dfv dfm dff)%list
              (files w ++ [ ("Vehicle.xlsx", dfv);
                            ("NVH_Measurements.xlsx", dfm);
                            ("Customer_Feedback.xlsx", dff) ])%list).
Proof.
  destruct (returns_generate_vehicle_master (rand w))
    as (dfv & r1 & Hv & Hvm).
  assert (Htable : vehicle_table dfv).
  { destruct Hvm as (base & records & -> & Hbase & Hcopies & Hlen).
    apply (vehicle_master_table base records Hbase Hcopies Hlen). }
  destruct (returns_generate_nvh_measurements dfv r1 Htable)
    as (dfm & r2 & Hm & Hnm).
  destruct (returns_generate_customer_feedback dfv r2 Htable)
    as (dff & r3 & Hf & Hcf).
  exists dfv, dfm, dff, r3.
  repeat (split; [assumption |]).
  unfold main. run_prints.
  rewrite (bind_lift _ _ _ _ _ dfv r1 Hv). cbn [rand stdout files].
  rewrite bind_to_excel. cbv beta. cbn [rand stdout files]. run_prints.
  rewrite (bind_lift _ _ _ _ _ dfm r2 Hm). cbn [rand stdout files].
  rewrite bind_to_excel. cbv beta. cbn [rand stdout files]. run_prints.
  rewrite (bind_lift _ _ _ _ _ dff r3 Hf). cbn [rand stdout files].
  rewrite bind_to_excel. cbv beta. cbn [rand stdout files]. run_prints.
  unfold generation_lines. rewrite <- !app_assoc. reflexivity.
Qed.

Ltac run_column H :=
  rewrite (bind_column_ok _ _ _ _ _ H); cbv beta.

(** The vehicle part of the summary on a generated table. *)
Lemma summary_vehicles_exact (dfv : pd.DataFrame) (w : world) :
  vehicle_master dfv ->
  exists unique_models engines n_model n_manufacturer n_engine n_date,
    summary_vehicles dfv w
    = (Ok tt,
       mkWorld (rand w)
               (stdout w
                ++ vehicle_summary_lines unique_models engines n_model
                     n_manufacturer n_engine n_date)%list
               (files w)).
Proof.
  intros (base & records & -> & Hbase & Hcopies & Hlen).
  destruct (copies_app _ _ Hcopies) as (appended & ->).
  pose proof (vehicle_base_length base Hbase) as Hb.
  assert (Hin : forall r, In r appended -> In r base).
  { intros r Hr. apply (copies_In_base _ _ Hcopies).
    apply in_or_app. right. exact Hr. }
  assert (Ha : List.length appended = 6%nat).
  { rewrite length_app, Hb in Hlen.
    change (Z.to_nat num_duplicates) with 6%nat in Hlen. lia. }
  set (df := pd.of_records (base ++ appended)%list).
  assert (Hcol : forall c, In c vehicle_columns ->
                   pd.col df c
                   = Ok (map (fun r => cell r c) (base ++ appended)%list)).
  { intros c Hc. apply (col_of_records vehicle_columns);
      [apply app_nonempty_left, Hb | reflexivity
       | apply (all_keys base appended Hbase Hin) | exact Hc]. }
  assert (H66 : pd.len df = 66).
  { unfold df. rewrite len_of_records, length_app, Hb, Ha. reflexivity. }
  assert (H60 : pd.len (pd.drop_duplicates df) = 60).
  { unfold df, pd.len, pd.drop_duplicates. cbn [pd.data].
    rewrite (data_of_records vehicle_columns);
      [| apply app_nonempty_left, Hb | reflexivity
       | apply (all_keys base appended Hbase Hin)].
    rewrite (distinct_rows base appended Hbase Hin).
    rewrite length_map, Hb. reflexivity. }
  pose proof (nunique_ids base appended Hbase Hin) as Hunique.
  do 6 eexists.
  unfold summary_vehicles. run_prints.
  run_column (Hcol "Vehicle ID" ltac:(simpl; tauto)). run_prints.
  run_column (Hcol "Vehicle Model" ltac:(simpl; tauto)). run_prints.
  run_column (Hcol "Engine Type" ltac:(simpl; tauto)). run_prints.
  run_column (Hcol "Vehicle Model" ltac:(simpl; tauto)).
  run_column (Hcol "Manufacturer" ltac:(simpl; tauto)).
  run_column (Hcol "Engine Type" ltac:(simpl; tauto)).
  run_column (Hcol "Manufacturing Date" ltac:(simpl; tauto)).
  unfold print. cbn [rand stdout files].
  rewrite H66, H60, Hunique.
  unfold vehicle_summary_lines. rewrite <- !app_assoc. reflexivity.
Qed.

(** The measurement part of the summary on a generated table, up to the
    read that fails. *)
Lemma summary_measurements_exact (dfv dfm : pd.DataFrame) (w : world) :
  nvh_measurements dfv dfm ->
  exists first last,
    summary_measurements dfm w
    = (Raise (KeyError "Noise Level(dB)"),
       mkWorld (rand w)
               (stdout w ++ measurement_summary_lines first last)%list
               (files w)).
Proof.
  intros (records & -> & Hrecords).
  pose proof (nvh_measurements_col _ _ Hrecords "Measurement Date"
                ltac:(simpl; tauto)) as Hcol.
  assert (Hdates : Forall date_value
                     (map (fun r => cell r "Measurement Date") records)).
  { apply Forall_forall. intros v Hv. apply in_map_iff in Hv.
    destruct Hv as (r & <- & Hr).
    pose proof (measurement_records_all _ _ Hrecords) as Hall.
    rewrite Forall_forall in Hall.
    destruct (Hall r Hr)
      as (i & vh & vid & date & f1 & f2 & f3 & f4 & f5 & -> & _ & _
          & Hdate & _).
    exact Hdate. }
  destruct (extremum_of_dates (fun a b => if value_leb a b then a else b)
              _ (dropna_dates _ Hdates)) as (first & Hfirst).
  destruct (extremum_of_dates (fun a b => if value_leb a b then b else a)
              _ (dropna_dates _ Hdates)) as (last & Hlast).
  assert (Hmissing : pd.col (pd.of_records records) "Noise Level(dB)"
                     = Raise (KeyError "Noise Level(dB)")).
  { apply col_missing. rewrite (nvh_measurements_columns _ _ Hrecords).
    simpl. intuition discriminate. }
  exists first, last.
  unfold summary_measurements. run_prints.
  run_column Hcol.
  rewrite (bind_outcome_ok _ first) by exact Hfirst. cbv beta.
  run_column Hcol.
  rewrite (bind_outcome_ok _ last) by exact Hlast. cbv beta.
  run_prints.
  rewrite (bind_column_raise _ _ _ _ _ Hmissing).
  rewrite (nvh_measurements_len _ _ Hrecords).
  unfold measurement_summary_lines. rewrite <- !app_assoc. reflexivity.
Qed.

(** X14. What every run prints: the generation lines with the counts
    66, 800 and 600; the summary heading; the vehicle summary with 66
    vehicles, 60 distinct identifiers and 6 duplicate rows; the
    measurement summary up to its date range.  There the run raises, so
    these 25 lines are all: neither the feedback summary nor the closing
    lines are printed. *)
Theorem run_output (w : world) :
  exists dfv dfm dff w' unique_models engines n_model n_manufacturer
         n_engine n_date first last,
    main w = (Raise (KeyError "Noise Level(dB)"), w')
    /\ pd.len dfv = 66 /\ pd.len dfm = 800 /\ pd.len dff = 600
    /\ stdout w'
       = (stdout w
          ++ generation_lines dfv dfm dff
          ++ summary_heading
          ++ vehicle_summary_lines unique_models engines n_model
               n_manufacturer n_engine n_date
          ++ measurement_summary_lines first last)%list
    /\ List.length
         (generation_lines dfv dfm dff
          ++ summary_heading
          ++ vehicle_summary_lines unique_models engines n_model
               n_manufacturer n_engine n_date
          ++ measurement_summary_lines first last)%list
       = 25%nat.
Proof.
  destruct (main_generation w)
    as (dfv & dfm & dff & r & Hvm & Hnm & Hcf & Hmain).
  set (W := mkWorld r (stdout w ++ generation_lines dfv dfm dff)%list
                    (files w ++ [ ("Vehicle.xlsx", dfv);
                                  ("NVH_Measurements.xlsx", dfm);
                                  ("Customer_Feedback.xlsx", dff) ])%list)
    in *.
  set (W3 := mkWorld r (stdout W ++ summary_heading)%list (files W)).
  destruct (summary_vehicles_exact dfv W3 Hvm)
    as (um & en & n1 & n2 & n3 & n4 & Hsv).
  match type of Hsv with _ = (_, ?W4) => set (W4' := W4) in * end.
  destruct (summary_measurements_exact dfv dfm W4' Hnm)
    as (first & last & Hsm).
  eexists dfv, dfm, dff, _, um, en, n1, n2, n3, n4, first, last.
  split.
  { rewrite Hmain. unfold summary. run_prints.
    unfold summary_heading in W3. 
    replace (mkWorld (rand W) _ (files W)) with W3
      by (unfold W3, summary_heading; rewrite <- !app_assoc; reflexivity).
    rewrite (bind_ok _ _ _ _ _ Hsv). cbv beta.
    rewrite (bind_raise _ _ _ _ _ Hsm). reflexivity. }
  split.
  { destruct Hvm as (base & records & -> & Hbase & Hcopies & Hlen).
    apply (vehicle_master_len base records Hbase Hlen). }
  split.
  { destruct Hnm as (records & -> & Hrecords).
    apply (nvh_measurements_len _ _ Hrecords). }
  split.
  { destruct Hcf as (records & -> & Hrecords).
    apply (customer_feedback_len _ _ Hrecords). }
  split; [| reflexivity].
  cbn [stdout]. unfold W4', W3. cbn [stdout rand files]. unfold W.
  cbn [stdout]. rewrite <- !app_assoc. reflexivity.
Qed.

(* ================================================================== *)
(** * Tables the summary can describe *)

Lemma dropna_idempotent (s : pd.Series) :
  pd.dropna (pd.dropna s) = pd.dropna s.
Proof.
  unfold pd.dropna. induction s as [| v s IH]; [reflexivity |]. simpl.
  destruct (negb (isna v)) eqn:E; [| exact IH].
  simpl. rewrite E. f_equal. exact IH.
Qed.

Lemma extremum_comparable (pick : value -> value -> value)
      (s : pd.Series) :
  comparable (pd.dropna s) = true ->
  exists v, pd.extremum pick (pd.dropna s) = Ok v.
Proof.
  intros H. unfold pd.extremum. rewrite dropna_idempotent.
  destruct (pd.dropna s) as [| x rest]; [eexists; reflexivity |].
  rewrite H. eexists. reflexivity.
Qed.

Lemma mean_numeric (s : pd.Series) :
  forallb is_num (pd.dropna s) = true -> exists v, pd.mean s = Ok v.
Proof.
  intros H. unfold pd.mean.
  destruct (pd.dropna s) as [| x rest]; [eexists; reflexivity |].
  rewrite H. eexists. reflexivity.
Qed.

Lemma unique_by_In {A} (eqb : A -> A -> bool) (l : list A) (x : A) :
  In x (unique_by eqb l) -> In x l.
Proof.
  unfold unique_by.
  assert (H : forall ys acc,
             In x (fold_left
                     (fun acc y => if existsb (eqb y) acc then acc
                                   else (acc ++ [y])%list) ys acc) ->
             In x acc \/ In x ys).
  { induction ys as [| y ys IH]; intros acc Hx; simpl in Hx; [auto |].
    apply IH in Hx. destruct Hx as [Hx | Hx]; [| right; right; exact Hx].
    destruct (existsb (eqb y) acc); [auto |].
    apply in_app_or in Hx. destruct Hx as [Hx | [<- | []]]; simpl; auto. }
  intros Hx. apply H in Hx. destruct Hx as [[] | Hx]. exact Hx.
Qed.

Lemma comparable_unique (s : pd.Series) :
  comparable s = true -> comparable (pd.unique s) = true.
Proof.
  unfold comparable, pd.unique. intros H.
  apply orb_true_iff in H. apply orb_true_iff.
  destruct H as [H | H]; [left | right];
    rewrite forallb_forall in *; intros v Hv;
    apply H; apply (unique_by_In _ _ _ Hv).
Qed.

Lemma value_counts_comparable (s : pd.Series) :
  comparable (pd.dropna s) = true ->
  exists levels, pd.value_counts_sorted s = Ok levels.
Proof.
  intros H. unfold pd.value_counts_sorted.
  rewrite (comparable_unique _ H). eexists. reflexivity.
Qed.

Section Completes.

Lemma total_after_column {A} (df : pd.DataFrame) (c : string)
      (ser : pd.Series) (k : pd.Series -> M world A) :
  pd.col df c = Ok ser -> total (k ser) -> total (bind (column df c) k).
Proof.
  intros Hc Hk w. destruct (Hk w) as (a & w' & Hrun). exists a, w'.
  rewrite (bind_column_ok _ _ _ _ _ Hc). exact Hrun.
Qed.

Lemma total_after_outcome {A B} (o : outcome A) (a : A)
      (k : A -> M world B) :
  o = Ok a -> total (k a) -> total (bind (of_outcome o) k).
Proof.
  intros -> Hk w. destruct (Hk w) as (b & w' & Hrun). exists b, w'.
  exact Hrun.
Qed.

Lemma total_for {A X} (xs : list X) (body : X -> A -> M world A) :
  (forall x acc, total (body x acc)) ->
  forall acc, total (for_ xs body acc).
Proof.
  intros Hbody. induction xs as [| x xs IH]; intros acc; simpl.
  - apply total_ret.
  - apply total_bind; [apply Hbody | exact IH].
Qed.

Lemma announces_later {A B} (m : M world A) (k : A -> M world B) :
  discreet m -> (forall a, announces (k a)) -> announces (bind m k).
Proof.
  intros Hm Hk w b w' Hrun. unfold bind in Hrun.
  destruct (Hm w) as [_ Hfiles].
  destruct (m w) as [[a | e] w1]; [| discriminate].
  destruct (Hk a w1 b w' Hrun) as [Hin Hf]. simpl in Hfiles.
  split; [exact Hin | congruence].
Qed.

Lemma announces_here {A} (k : unit -> M world A) :
  (forall a, discreet (k a)) -> announces (bind (print success_line) k).
Proof.
  intros Hk w b w' Hrun. rewrite bind_print in Hrun.
  destruct (Hk tt (mkWorld (rand w) (stdout w ++ [success_line])%list
                           (files w)))
    as [(printed & Hout & _) Hfiles].
  rewrite Hrun in Hout, Hfiles. simpl in Hout, Hfiles.
  split; [| exact Hfiles].
  rewrite Hout. apply in_or_app. left. apply in_or_app. right.
  left. reflexivity.
Qed.

End Completes.

Lemma total_summary_measurements (df : pd.DataFrame) :
  ordered_column df "Measurement Date" ->
  numeric_column df "Noise Level(dB)" ->
  numeric_column df "Vibration Frequency(Hz)" ->
  numeric_column df "Harshness Score" ->
  In "Road Surface" (pd.columns df) ->
  In "Speed(km/h)" (pd.columns df) ->
  total (summary_measurements df).
Proof.
  intros (dates & Hdates & _ & Hcmp) (noise & Hnoise & _ & Hn)
         (vib & Hvib & _ & Hv) (harsh & Hharsh & _ & Hh) Hroad Hspeed.
  destruct (extremum_comparable
              (fun a b => if value_leb a b then a else b) _ Hcmp)
    as (first & Hfirst).
  destruct (extremum_comparable
              (fun a b => if value_leb a b then b else a) _ Hcmp)
    as (last & Hlast).
  destruct (mean_numeric _ Hn) as (avg_noise & Han).
  destruct (mean_numeric _ Hv) as (avg_vib & Hav).
  destruct (mean_numeric _ Hh) as (avg_harsh & Hah).
  unfold summary_measurements.
  do 2 (apply total_bind; [apply total_print | intro]).
  eapply total_after_column; [exact Hdates |].
  eapply total_after_outcome; [exact Hfirst |].
  eapply total_after_column; [exact Hdates |].
  eapply total_after_outcome; [exact Hlast |].
  apply total_bind; [apply total_print | intro].
  eapply total_after_column; [exact Hnoise |].
  eapply total_after_outcome; [exact Han |].
  apply total_bind; [apply total_print | intro].
  eapply total_after_column; [exact Hvib |].
  eapply total_after_outcome; [exact Hav |].
  apply total_bind; [apply total_print | intro].
  eapply total_after_column; [exact Hharsh |].
  eapply total_after_outcome; [exact Hah |].
  apply total_bind; [apply total_print | intro].
  eapply total_after_column; [exact Hdates |].
  apply total_bind; [apply total_column; exact Hroad | intro].
  apply total_bind; [apply total_column; exact Hspeed | intro].
  eapply total_after_column; [exact Hnoise |].
  eapply total_after_column; [exact Hvib |].
  eapply total_after_column; [exact Hharsh |].
  apply total_print.
Qed.

Lemma total_summary_feedback (df : pd.DataFrame) :
  ordered_column df "Comfort Level" ->
  In "Comment" (pd.columns df) ->
  total (summary_feedback df).
Proof.
  intros (comfort & Hcomfort & _ & Hcmp) Hcomment.
  destruct (value_counts_comparable _ Hcmp) as (levels & Hlevels).
  unfold summary_feedback.
  do 3 (apply total_bind; [apply total_print | intro]).
  eapply total_after_column; [exact Hcomfort |].
  eapply total_after_outcome; [exact Hlevels |].
  apply total_bind.
  { apply total_for. intros. apply total_print. }
  intro. eapply total_after_column; [exact Hcomfort |].
  apply total_bind; [apply total_column; exact Hcomment | intro].
  apply total_print.
Qed.

Lemma total_summary_vehicles_reads (df : pd.DataFrame) :
  (forall c, In c vehicle_reads -> In c (pd.columns df)) ->
  total (summary_vehicles df).
Proof.
  intros Hcols. unfold summary_vehicles.
  repeat first
    [ apply total_bind; [| intro]
    | apply total_print
    | apply total_column; apply Hcols; simpl; tauto ].
Qed.

Lemma announces_summary (dfv dfm dff : pd.DataFrame) :
  announces (summary dfv dfm dff).
Proof.
  unfold summary.
  do 3 (apply announces_later; [solve [discreet_steps] | intro]).
  apply announces_later; [apply discreet_summary_vehicles | intro].
  apply announces_later; [apply discreet_summary_measurements | intro].
  apply announces_later; [apply discreet_summary_feedback | intro].
  apply announces_later; [solve [discreet_steps] | intro].
  apply announces_here. intro. discreet_steps.
Qed.

(** X15. On tables that have every column the summary reads, under the
    label it reads, with dates and comfort levels that are present
    somewhere and compare, and numbers (not all missing) in the three
    averaged columns, the summary returns: it prints the success line
    and writes no file. *)
Theorem summary_completes (df_vehicles df_measurements df_feedback
                           : pd.DataFrame) :
  summarizable df_vehicles df_measurements df_feedback ->
  forall w : world,
  exists w',
    summary df_vehicles df_measurements df_feedback w = (Ok tt, w')
    /\ In success_line (stdout w')
    /\ files w' = files w.
Proof.
  intros (Hv & Hdate & Hnoise & Hvib & Hharsh & Hroad & Hspeed & Hcomfort
          & Hcomment) w.
  assert (Htotal : total (summary df_vehicles df_measurements
                                  df_feedback)).
  { unfold summary.
    do 3 (apply total_bind; [apply total_print | intro]).
    apply total_bind; [apply total_summary_vehicles_reads, Hv | intro].
    apply total_bind;
      [apply total_summary_measurements; assumption | intro].
    apply total_bind; [apply total_summary_feedback; assumption | intro].
    repeat (apply total_bind; [apply total_print | intro]).
    apply total_print. }
  destruct (Htotal w) as ([] & w' & Hrun).
  exists w'. split; [exact Hrun |].
  apply (announces_summary _ _ _ w tt w' Hrun).
Qed.

Lemma summary_completes_witness :
  summarizable example_vehicle_table example_measurement_table
               example_feedback_table
  /\ exists w',
      summary example_vehicle_table example_measurement_table
              example_feedback_table example_world
      = (Ok tt, w')
      /\ In success_line (stdout w')
      /\ files w' = files example_world.
Proof.
  assert (H : summarizable example_vehicle_table example_measurement_table
                           example_feedback_table).
  { split; [intros c Hc; vm_compute in Hc |- *; tauto |].
    repeat split;
      first [ eexists; split; [vm_compute; reflexivity |];
              split; [discriminate | reflexivity]
            | vm_compute; tauto ]. }
  split; [exact H |].
  apply (summary_completes _ _ _ H example_world).
Defined.

(* ================================================================== *)
(** * The three tables together *)

Lemma Forall2_In_right {A B} (R : A -> B -> Prop) (xs : list A)
      (ys : list B) (y : B) :
  Forall2 R xs ys -> In y ys -> exists x, In x xs /\ R x y.
Proof.
  induction 1 as [| x y' xs ys Hxy _ IH]; intros Hy; [destruct Hy |].
  destruct Hy as [<- | Hy].
  - exists x. split; [left; reflexivity | exact Hxy].
  - destruct (IH Hy) as (x' & Hx' & HR). exists x'.
    split; [right; exact Hx' | exact HR].
Qed.

(** X16. On every run, with the tables generated in the order of
    [main], the Vehicle ID of every measurement row and of every
    feedback row is one of VEH0001 to VEH0060 and is the identifier of
    a row of the vehicle table. *)
Theorem references_resolve (s : rng) :
  exists df_vehicles s1 df_measurements s2 df_feedback s3,
    generate_vehicle_master s = (Ok df_vehicles, s1)
    /\ generate_nvh_measurements df_vehicles s1 = (Ok df_measurements, s2)
    /\ generate_customer_feedback df_vehicles s2 = (Ok df_feedback, s3)
    /\ forall r,
        In r (rows df_measurements) \/ In r (rows df_feedback) ->
        In (cell r "Vehicle ID")
           (map (fun i => VStr ("VEH" ++ format_0d 4 i))
                (range 1 (NUM_VEHICLES + 1)))
        /\ exists v, In v (rows df_vehicles)
                     /\ cell v "Vehicle ID" = cell r "Vehicle ID".
Proof.
  destruct (returns_generate_vehicle_master s)
    as (dfv & s1 & Hv & base & records & -> & Hbase & Hcopies & Hlen).
  pose proof (vehicle_master_table base records Hbase Hcopies Hlen)
    as Htable.
  pose proof (vehicle_master_rows base records Hbase Hcopies Hlen)
    as Hrows.
  destruct (returns_generate_nvh_measurements _ s1 Htable)
    as (dfm & s2 & Hm & mrecords & -> & Hmrecords).
  destruct (returns_generate_customer_feedback _ s2 Htable)
    as (dff & s3 & Hf & frecords & -> & Hfrecords).
  exists (pd.of_records records), s1, (pd.of_records mrecords), s2,
         (pd.of_records frecords), s3.
  repeat (split; [assumption |]).
  assert (Hknown : forall v id,
             In v (rows (pd.of_records records)) ->
             dict_get v "Vehicle ID" = Some id ->
             In id (map (fun i => VStr ("VEH" ++ format_0d 4 i))
                        (range 1 (NUM_VEHICLES + 1)))
             /\ cell v "Vehicle ID" = id).
  { intros v id Hin Hid. rewrite Hrows in Hin.
    apply (copies_In_base _ _ Hcopies) in Hin.
    destruct (Forall2_In_right _ _ _ _ Hbase Hin)
      as (i & Hi & m & e & f1 & f2 & f3 & f4 & -> & _).
    simpl in Hid. injection Hid as <-. split; [| reflexivity].
    apply (in_map (fun i => VStr ("VEH" ++ format_0d 4 i))). exact Hi. }
  rewrite (nvh_measurements_rows _ _ Hmrecords).
  rewrite (customer_feedback_rows _ _ Hfrecords).
  intros r [Hr | Hr].
  - pose proof (measurement_records_all _ _ Hmrecords) as Hall.
    rewrite Forall_forall in Hall.
    destruct (Hall r Hr)
      as (i & v & vid & d & f1 & f2 & f3 & f4 & f5 & -> & Hvin & Hvid & _).
    destruct (Hknown v vid Hvin Hvid) as [Hid Hcell].
    split; [exact Hid |]. exists v. split; [exact Hvin | exact Hcell].
  - pose proof (feedback_records_all _ _ Hfrecords) as Hall.
    rewrite Forall_forall in Hall.
    destruct (Hall r Hr)
      as (i & v & vid & c & m & f1 & f2 & -> & Hvin & Hvid & _).
    destruct (Hknown v vid Hvin Hvid) as [Hid Hcell].
    split; [exact Hid |]. exists v. split; [exact Hvin | exact Hcell].
Qed.

(* ================================================================== *)
(** * The passes of the loops and the states they run in *)

Lemma bind_ext {S A B} (m : M S A) (k k' : A -> M S B) (s : S) :
  (forall a s', k a s' = k' a s') -> bind m k s = bind m k' s.
Proof.
  intros H. unfold bind. destruct (m s) as [[a | e] s']; [apply H |].
  reflexivity.
Qed.

Ltac same_steps :=
  repeat (rewrite bind_assoc; apply bind_ext; intros ? ?);
  reflexivity.

(** The measurement pass is its draws, its date step and its dict, in
    that order. *)
Lemma measurement_unfold (df : pd.DataFrame) (i : Z) (s : rng) :
  measurement df i s
  = (d <- measurement_draws df ;;
     date <- measurement_date ;;
     measurement_dict i d date) s.
Proof.
  unfold measurement, measurement_draws, measurement_dict. same_steps.
Qed.

(** The feedback pass is its draws followed by its dict. *)
Lemma feedback_unfold (df : pd.DataFrame) (i : Z) (s : rng) :
  feedback df i s
  = (p <- feedback_draws df ;; feedback_dict i (fst p) (snd p)) s.
Proof.
  unfold feedback, feedback_draws, feedback_dict. same_steps.
Qed.

Lemma for_app {S A X} (xs ys : list X) (body : X -> A -> M S A) (acc : A)
      (s : S) :
  for_ (xs ++ ys)%list body acc s
  = bind (for_ xs body acc) (fun a => for_ ys body a) s.
Proof.
  revert acc s. induction xs as [| x xs IH]; intros acc s; simpl.
  - reflexivity.
  - rewrite bind_assoc. apply bind_ext. intros a s'. apply IH.
Qed.

Lemma range_snoc (n : Z) :
  0 <= n -> range 0 (n + 1) = (range 0 n ++ [n])%list.
Proof.
  intros Hn. unfold range.
  replace (Z.to_nat (n + 1 - 0)) with (S (Z.to_nat (n - 0))) by lia.
  rewrite seq_S, map_app. simpl. f_equal. f_equal. lia.
Qed.

Section Passes.
Variable body : Z -> M rng dict.

(** One more pass: the passes so far, then the body at the next
    index. *)
Lemma passes_succ (n : Z) (s : rng) :
  0 <= n ->
  for_ (range 0 (n + 1))
       (fun i acc => r <- body i ;; ret (acc ++ [r])%list) [] s
  = (acc <- for_ (range 0 n)
                 (fun i acc => r <- body i ;; ret (acc ++ [r])%list) [] ;;
     r <- body n ;; ret (acc ++ [r])%list) s.
Proof.
  intros Hn. rewrite (range_snoc n Hn), for_app.
  apply bind_ext. intros acc s'. simpl. rewrite bind_assoc.
  apply bind_ext. intros r s''. reflexivity.
Qed.

(** When every pass returns a record related by [R] to the state it
    started in, the loop returns one record per pass, and record [j] is
    what the body returns at index [j] in the state the first [j] passes
    lead to, related by [R] to that state. *)
Lemma passes_spec (R : rng -> Z -> dict -> Prop) :
  (forall i t, exists r t', body i t = (Ok r, t') /\ R t i r) ->
  forall (n : nat) (s : rng),
  exists records s_n,
    for_ (range 0 (Z.of_nat n))
         (fun i acc => r <- body i ;; ret (acc ++ [r])%list) [] s
    = (Ok records, s_n)
    /\ List.length records = n
    /\ forall j r,
        nth_error records j = Some r ->
        exists earlier s_j,
          for_ (range 0 (Z.of_nat j))
               (fun i acc => r <- body i ;; ret (acc ++ [r])%list) [] s
          = (Ok earlier, s_j)
          /\ fst (body (Z.of_nat j) s_j) = Ok r
          /\ R s_j (Z.of_nat j) r.
Proof.
  intros Hbody n s. induction n as [| n IH].
  - exists [], s. split; [reflexivity |]. split; [reflexivity |].
    intros [| j] r Hj; discriminate.
  - destruct IH as (records & s_n & Hrun & Hlen & Hall).
    destruct (Hbody (Z.of_nat n) s_n) as (r & t' & Hr & HR).
    exists (records ++ [r])%list, t'.
    split.
    { rewrite Nat2Z.inj_succ. unfold Z.succ.
      rewrite passes_succ by lia. unfold bind at 1. rewrite Hrun.
      unfold bind. rewrite Hr. reflexivity. }
    split; [rewrite length_app, Hlen; simpl; lia |].
    intros j r' Hj.
    destruct (Nat.lt_ge_cases j (List.length records)) as [Hlt | Hge].
    + rewrite nth_error_app1 in Hj by exact Hlt. apply (Hall j r' Hj).
    + rewrite nth_error_app2 in Hj by exact Hge.
      destruct (j - List.length records)%nat as [| k] eqn:E;
        simpl in Hj; [| destruct k; discriminate].
      injection Hj as <-.
      assert (j = n) by lia. subst j.
      exists records, s_n. split; [exact Hrun |].
      split; [rewrite Hr; reflexivity | exact HR].
Qed.

End Passes.

(** Below 0.01 the date step is the inconsistent branch; otherwise it
    gives a missing date or a timestamp of 2023-01-01 plus 0 to 730 days
    and 0 to 23 hours. *)
Lemma measurement_date_normal (s : rng) :
  fst (random_lt 0.01 s) = Ok false ->
  returns measurement_date s
          (fun v _ => v = VNone \/ normal_date_value v).
Proof.
  intros Hlt. unfold measurement_date, returns, bind.
  destruct (random_lt 0.01 s) as [o s1]. simpl in Hlt. subst o.
  apply returns_if_else. apply returns_random_gt. intros [] s2.
  - do 2 draw_randint. apply returns_ret. right.
    exists z, z0. repeat split; lia.
  - apply returns_ret. left. reflexivity.
Qed.

(** The draws of a measurement pass return on a frame that can be
    sampled, with a vehicle that carries an identifier. *)
Lemma returns_measurement_draws (df : pd.DataFrame) (s : rng) :
  vehicle_table df ->
  returns (measurement_draws df) s
          (fun d _ => exists id,
               dict_get (drawn_vehicle d) "Vehicle ID" = Some (VStr id)).
Proof.
  intros [Hne Hids]. unfold measurement_draws.
  apply returns_bind. apply returns_sample1; [exact Hne |].
  intros row s1 Hrow. apply returns_bind. rewrite iloc_single.
  apply returns_of_outcome.
  assert (Hvehicle : In (combine (pd.columns df) row) (rows df))
    by (unfold rows; apply in_map; exact Hrow).
  apply returns_bind. apply returns_choice; [discriminate |].
  intros test_condition s2 _.
  apply returns_bind. apply returns_choice; [discriminate |].
  intros road_surface s3 _.
  eapply returns_bind_post; [apply returns_base_noise_for |].
  intros base_noise s4 _.
  eapply returns_bind_post; [apply returns_base_vib_freq_for |].
  intros base_vib_freq s5 _.
  eapply returns_bind_post with (P := fun _ _ => True).
  { destruct (negb (String.eqb test_condition "Idling")).
    - apply returns_randint; [lia | auto].
    - apply returns_ret. exact I. }
  intros speed s6 _.
  eapply returns_bind_post; [apply returns_harshness_for |].
  intros harshness s7 _. apply returns_ret. simpl.
  apply (Hids _ Hvehicle).
Qed.

(** The dict of a measurement pass returns when the vehicle carries an
    identifier; it has the eight labels and holds the date it is
    given. *)
Lemma returns_measurement_dict (i : Z) (d : measurement_drawn)
      (date : value) (s : rng) :
  (exists id, dict_get (drawn_vehicle d) "Vehicle ID" = Some (VStr id)) ->
  returns (measurement_dict i d date) s
          (fun r _ => keys r = measurement_columns
                      /\ cell r "Measurement Date" = date).
Proof.
  intros (id & Hid). unfold measurement_dict.
  apply returns_bind. rewrite (getitem_Some _ _ _ Hid).
  apply returns_of_outcome.
  eapply returns_bind_post; [apply returns_field_ret |].
  intros f_road s1 _.
  eapply returns_bind_post; [apply returns_field_ret |].
  intros f_speed s2 _.
  eapply returns_bind_post.
  { apply (returns_field _ _ (fun _ => True)).
    intros s'. apply returns_bind. apply returns_uniform.
    intros u s''. apply returns_ret. exact I. }
  intros f_noise s3 _.
  eapply returns_bind_post; [apply returns_field_ret |].
  intros f_vib s4 _.
  eapply returns_bind_post; [apply returns_field_ret |].
  intros f_harsh s5 _.
  apply returns_ret. split; reflexivity.
Qed.

(** A measurement pass, with the state its date step runs in. *)
Lemma measurement_pass (df : pd.DataFrame) (i : Z) (t : rng) :
  vehicle_table df ->
  exists r t',
    measurement df i t = (Ok r, t')
    /\ exists drawn s1,
        measurement_draws df t = (Ok drawn, s1)
        /\ keys r = measurement_columns
        /\ fst (measurement_date s1) = Ok (cell r "Measurement Date")
        /\ (fst (random_lt 0.01 s1) = Ok true ->
            inconsistent_date_value (cell r "Measurement Date"))
        /\ (fst (random_lt 0.01 s1) = Ok false ->
            cell r "Measurement Date" = VNone
            \/ normal_date_value (cell r "Measurement Date")).
Proof.
  intros Hdf.
  destruct (returns_measurement_draws df t Hdf) as (d & s1 & Hd & Hid).
  destruct (returns_measurement_date s1) as (date & s2 & Hdate & _).
  destruct (returns_measurement_dict i d date s2 Hid)
    as (r & t' & Hr & Hkeys & Hcell).
  exists r, t'. split.
  { rewrite measurement_unfold. unfold bind at 1. rewrite Hd.
    unfold bind at 1. rewrite Hdate. exact Hr. }
  exists d, s1. split; [exact Hd |]. split; [exact Hkeys |].
  rewrite Hcell. split; [rewrite Hdate; reflexivity |].
  split; intros Hlt.
  - destruct (measurement_date_inconsistent s1 Hlt)
      as (date' & s2' & Hdate' & Hv).
    rewrite Hdate in Hdate'. injection Hdate' as <- _. exact Hv.
  - destruct (measurement_date_normal s1 Hlt)
      as (date' & s2' & Hdate' & Hv).
    rewrite Hdate in Hdate'. injection Hdate' as <- _. exact Hv.
Qed.

Lemma nth_error_Forall {A} (P : A -> Prop) (l : list A) :
  (forall j x, nth_error l j = Some x -> P x) -> Forall P l.
Proof.
  intros H. apply Forall_forall. intros x Hx.
  apply In_nth_error in Hx. destruct Hx as (j & Hj). apply (H j x Hj).
Qed.

(** C8. On every frame that can be sampled and every random state, the
    measurement table has 800 rows and row [j] is the record of pass
    [j]: that pass starts in the state the first [j] passes lead to, its
    date step runs in the state its draws lead to, and the row's date is
    what the date step returns there.  When the draw
    that opens that date step is below 0.01 (the row takes the
    inconsistent-date branch), the row's date is the string
    "Y-MM-DD HH:MM:00" with Y one of 2029, 2080, 2090, 2099 (so at least
    2029, and Y is what the first four characters read), month in
    1..12, day in 1..28, hour in 0..23 and minute in 0..59.  When it is
    not, the date is missing or a timestamp of 2023-01-01 plus 0 to 730
    days and 0 to 23 hours. *)
Theorem inconsistent_branch_timestamp (df : pd.DataFrame) :
  vehicle_table df ->
  forall s : rng,
  exists df_measurements s',
    generate_nvh_measurements df s = (Ok df_measurements, s')
    /\ List.length (rows df_measurements) = 800%nat
    /\ forall j r,
        nth_error (rows df_measurements) j = Some r ->
        exists earlier s_j drawn s1,
          measurement_passes df (Z.of_nat j) s = (Ok earlier, s_j)
          /\ fst (measurement df (Z.of_nat j) s_j) = Ok r
          /\ measurement_draws df s_j = (Ok drawn, s1)
          /\ fst (measurement_date s1) = Ok (cell r "Measurement Date")
          /\ (fst (random_lt 0.01 s1) = Ok true ->
              exists y mo d h mi,
                In y [ 2029; 2080; 2090; 2099 ]
                /\ 2029 <= y
                /\ 1 <= mo <= 12 /\ 1 <= d <= 28
                /\ 0 <= h <= 23 /\ 0 <= mi <= 59
                /\ cell r "Measurement Date"
                   = VStr (inconsistent_timestamp y mo d h mi)
                /\ year_part (inconsistent_timestamp y mo d h mi)
                   = str y)
          /\ (fst (random_lt 0.01 s1) = Ok false ->
              cell r "Measurement Date" = VNone
              \/ normal_date_value (cell r "Measurement Date")).
Proof.
  intros Hdf s.
  destruct (passes_spec (measurement df)
              (fun t i r =>
                 exists drawn s1,
                   measurement_draws df t = (Ok drawn, s1)
                   /\ keys r = measurement_columns
                   /\ fst (measurement_date s1)
                      = Ok (cell r "Measurement Date")
                   /\ (fst (random_lt 0.01 s1) = Ok true ->
                       inconsistent_date_value (cell r "Measurement Date"))
                   /\ (fst (random_lt 0.01 s1) = Ok false ->
                       cell r "Measurement Date" = VNone
                       \/ normal_date_value (cell r "Measurement Date")))
              (fun i t => measurement_pass df i t Hdf) 800 s)
    as (records & s' & Hrun & Hlen & Hall).
  assert (Hrows : rows (pd.of_records records) = records).
  { apply (rows_of_records measurement_columns).
    - intros ->. discriminate.
    - reflexivity.
    - repeat constructor; simpl; intuition discriminate.
    - apply nth_error_Forall. intros j r Hj.
      destruct (Hall j r Hj) as (? & ? & _ & _ & ? & ? & _ & Hkeys & _).
      exact Hkeys. }
  exists (pd.of_records records), s'. split.
  { unfold generate_nvh_measurements, measurement_records.
    unfold bind at 1.
    change NUM_MEASUREMENTS with (Z.of_nat 800). rewrite Hrun.
    reflexivity. }
  rewrite Hrows. split; [exact Hlen |].
  intros j r Hj.
  destruct (Hall j r Hj)
    as (earlier & s_j & Hpasses & Hpass & drawn & s1 & Hdraws & _
        & Hdate & Hbranch & Hnormal).
  exists earlier, s_j, drawn, s1.
  split; [exact Hpasses |]. split; [exact Hpass |].
  split; [exact Hdraws |]. split; [exact Hdate |].
  split; [| exact Hnormal].
  intros Hlt.
  destruct (Hbranch Hlt)
    as (y & mo & d & h & mi & Hy & Hmo & Hd & Hh & Hmi & Hv).
  destruct (year_part_inconsistent y mo d h mi Hy) as [Hyear Hge].
  exists y, mo, d, h, mi. repeat split; try assumption; lia.
Qed.

Lemma inconsistent_branch_timestamp_witness :
  vehicle_table example_vehicles
  /\ exists df_measurements s',
      generate_nvh_measurements example_vehicles example_rng
      = (Ok df_measurements, s')
      /\ List.length (rows df_measurements) = 800%nat
      /\ forall j r,
          nth_error (rows df_measurements) j = Some r ->
          exists earlier s_j drawn s1,
            measurement_passes example_vehicles (Z.of_nat j) example_rng
            = (Ok earlier, s_j)
            /\ fst (measurement example_vehicles (Z.of_nat j) s_j) = Ok r
            /\ measurement_draws example_vehicles s_j = (Ok drawn, s1)
            /\ fst (measurement_date s1)
               = Ok (cell r "Measurement Date")
            /\ (fst (random_lt 0.01 s1) = Ok true ->
                exists y mo d h mi,
                  In y [ 2029; 2080; 2090; 2099 ]
                  /\ 2029 <= y
                  /\ 1 <= mo <= 12 /\ 1 <= d <= 28
                  /\ 0 <= h <= 23 /\ 0 <= mi <= 59
                  /\ cell r "Measurement Date"
                     = VStr (inconsistent_timestamp y mo d h mi)
                  /\ year_part (inconsistent_timestamp y mo d h mi)
                     = str y)
            /\ (fst (random_lt 0.01 s1) = Ok false ->
                cell r "Measurement Date" = VNone
                \/ normal_date_value (cell r "Measurement Date")).
Proof.
  assert (H : vehicle_table example_vehicles).
  { split; [discriminate |].
    intros v [<- | []]. exists "VEH0001". reflexivity. }
  split; [exact H |].
  apply (inconsistent_branch_timestamp example_vehicles H example_rng).
Defined.

(** The branch is reached by a pass: with a generator whose draws are
    all 0, the draw that opens the date step of the first pass is below
    0.01 and the record holds the timestamp of the branch. *)
Example inconsistent_branch_row :
  fst (random_lt 0.01
         (snd (measurement_draws example_vehicles (constant_rng 0))))
  = Ok true
  /\ exists r,
      fst (measurement example_vehicles 0 (constant_rng 0)) = Ok r
      /\ cell r "Measurement Date" = VStr "2029-01-01 00:00:00".
Proof.
  split; [vm_compute; reflexivity |].
  eexists. split; [vm_compute; reflexivity | reflexivity].
Qed.

(** The draws of a feedback pass return on a frame that can be sampled,
    with a vehicle that carries an identifier and one of the six
    levels. *)
Lemma returns_feedback_draws (df : pd.DataFrame) (s : rng) :
  vehicle_table df ->
  returns (feedback_draws df) s
          (fun p _ =>
             (exists id, dict_get (fst p) "Vehicle ID" = Some (VStr id))
             /\ In (snd p) comfort_levels).
Proof.
  intros [Hne Hids]. unfold feedback_draws.
  apply returns_bind. apply returns_sample1; [exact Hne |].
  intros row s1 Hrow. apply returns_bind. rewrite iloc_single.
  apply returns_of_outcome.
  assert (Hvehicle : In (combine (pd.columns df) row) (rows df))
    by (unfold rows; apply in_map; exact Hrow).
  apply returns_bind. apply returns_choice; [discriminate |].
  intros comfort_level s2 Hlevel. apply returns_ret. simpl.
  split; [apply (Hids _ Hvehicle) | exact Hlevel].
Qed.

(** The dict of a feedback pass returns when the vehicle carries an
    identifier; it has the four labels, its comfort field holds the
    level it is given or is missing, and its comment field holds a
    comment of that level's pool or is missing. *)
Lemma returns_feedback_dict (i : Z) (vehicle : dict)
      (comfort_level : string) (s : rng) :
  (exists id, dict_get vehicle "Vehicle ID" = Some (VStr id)) ->
  returns (feedback_dict i vehicle comfort_level) s
          (fun r _ =>
             keys r = feedback_columns
             /\ nullable (VStr comfort_level) (cell r "Comfort Level")
             /\ exists comment,
                 In comment (comment_pool comfort_level)
                 /\ nullable (VStr comment) (cell r "Comment")).
Proof.
  intros (id & Hid). unfold feedback_dict.
  apply returns_bind. apply returns_choice; [apply comment_pool_nonempty |].
  intros comment s1 Hcomment.
  apply returns_bind. rewrite (getitem_Some _ _ _ Hid).
  apply returns_of_outcome.
  eapply returns_bind_post; [apply returns_field_ret |].
  intros f_comfort s2 Hcomfort.
  eapply returns_bind_post; [apply returns_field_ret |].
  intros f_comment s3 Hfield.
  apply returns_ret. cbv beta in *.
  split; [reflexivity |]. split; [exact Hcomfort |].
  exists comment. split; [exact Hcomment | exact Hfield].
Qed.

(** A feedback pass, with the level its draws gave. *)
Lemma feedback_pass (df : pd.DataFrame) (i : Z) (t : rng) :
  vehicle_table df ->
  exists r t',
    feedback df i t = (Ok r, t')
    /\ exists vehicle comfort_level s1,
        feedback_draws df t = (Ok (vehicle, comfort_level), s1)
        /\ fst (feedback_dict i vehicle comfort_level s1) = Ok r
        /\ keys r = feedback_columns
        /\ In comfort_level comfort_levels
        /\ nullable (VStr comfort_level) (cell r "Comfort Level")
        /\ exists comment,
            In comment (comment_pool comfort_level)
            /\ nullable (VStr comment) (cell r "Comment").
Proof.
  intros Hdf.
  destruct (returns_feedback_draws df t Hdf)
    as ([vehicle level] & s1 & Hdraws & Hid & Hlevel).
  simpl in Hid, Hlevel.
  destruct (returns_feedback_dict i vehicle level s1 Hid)
    as (r & t' & Hr & Hkeys & Hcomfort & Hcomment).
  exists r, t'. split.
  { rewrite feedback_unfold. unfold bind at 1. rewrite Hdraws.
    exact Hr. }
  exists vehicle, level, s1.
  split; [exact Hdraws |]. split; [rewrite Hr; reflexivity |].
  split; [exact Hkeys |].
  split; [exact Hlevel |]. split; [exact Hcomfort | exact Hcomment].
Qed.

(** C9. On every frame that can be sampled and every random state, the
    feedback table has 600 rows and row [j] is the record of pass [j]:
    that pass starts in the state the first [j] passes lead to, the
    comfort level of the row is the one its draws give in that state,
    one of the six levels, and the row is the dict built from that
    level.  The row's comfort field holds that level or
    is missing, and its comment, when present, is from the pool of that
    drawn level, whether or not the comfort field still holds it:
    positive for Excellent and Very Good, neutral for Good and Fair,
    negative for Very Poor and Poor.  In particular a row whose comfort
    field is "Excellent" and whose comment is present has its comment in
    the positive pool. *)
Theorem comment_pool_follows_comfort_level (df : pd.DataFrame) :
  vehicle_table df ->
  forall s : rng,
  exists df_feedback s',
    generate_customer_feedback df s = (Ok df_feedback, s')
    /\ List.length (rows df_feedback) = 600%nat
    /\ forall j r,
        nth_error (rows df_feedback) j = Some r ->
        exists earlier s_j vehicle comfort_level s1,
          feedback_passes df (Z.of_nat j) s = (Ok earlier, s_j)
          /\ fst (feedback df (Z.of_nat j) s_j) = Ok r
          /\ feedback_draws df s_j = (Ok (vehicle, comfort_level), s1)
          /\ fst (feedback_dict (Z.of_nat j) vehicle comfort_level s1)
             = Ok r
          /\ In comfort_level comfort_levels
          /\ nullable (VStr comfort_level) (cell r "Comfort Level")
          /\ (forall comment,
                 dict_get r "Comment" = Some (VStr comment) ->
                 In comment (comment_pool comfort_level)
                 /\ (In comfort_level [ "Excellent"; "Very Good" ] ->
                     In comment comments_positive)
                 /\ (In comfort_level [ "Good"; "Fair" ] ->
                     In comment comments_neutral)
                 /\ (In comfort_level [ "Very Poor"; "Poor" ] ->
                     In comment comments_negative))
          /\ (dict_get r "Comfort Level" = Some (VStr "Excellent") ->
              forall comment,
                dict_get r "Comment" = Some (VStr comment) ->
                In comment comments_positive).
Proof.
  intros Hdf s.
  destruct (passes_spec (feedback df)
              (fun t i r =>
                 exists vehicle comfort_level s1,
                   feedback_draws df t = (Ok (vehicle, comfort_level), s1)
                   /\ fst (feedback_dict i vehicle comfort_level s1)
                      = Ok r
                   /\ keys r = feedback_columns
                   /\ In comfort_level comfort_levels
                   /\ nullable (VStr comfort_level)
                               (cell r "Comfort Level")
                   /\ exists comment,
                       In comment (comment_pool comfort_level)
                       /\ nullable (VStr comment) (cell r "Comment"))
              (fun i t => feedback_pass df i t Hdf) 600 s)
    as (records & s' & Hrun & Hlen & Hall).
  assert (Hrows : rows (pd.of_records records) = records).
  { apply (rows_of_records feedback_columns).
    - intros ->. discriminate.
    - reflexivity.
    - repeat constructor; simpl; intuition discriminate.
    - apply nth_error_Forall. intros j r Hj.
      destruct (Hall j r Hj)
        as (? & ? & _ & _ & ? & ? & ? & _ & _ & Hkeys & _).
      exact Hkeys. }
  exists (pd.of_records records), s'. split.
  { unfold generate_customer_feedback, feedback_records.
    unfold bind at 1.
    change NUM_FEEDBACK with (Z.of_nat 600). rewrite Hrun.
    reflexivity. }
  rewrite Hrows. split; [exact Hlen |].
  intros j r Hj.
  destruct (Hall j r Hj)
    as (earlier & s_j & Hpasses & Hpass & vehicle & level & s1 & Hdraws
        & Hdict & _ & Hlevel & Hcomfort & comment & Hpool & Hfield).
  exists earlier, s_j, vehicle, level, s1.
  split; [exact Hpasses |]. split; [exact Hpass |].
  split; [exact Hdraws |]. split; [exact Hdict |].
  split; [exact Hlevel |]. split; [exact Hcomfort |].
  assert (Hpresent : forall c, dict_get r "Comment" = Some (VStr c) ->
                               c = comment).
  { intros c Hc. unfold cell in Hfield. rewrite Hc in Hfield.
    destruct Hfield as [Hf | Hf]; [| discriminate].
    injection Hf as ->. reflexivity. }
  split.
  - intros c Hc. rewrite (Hpresent c Hc).
    split; [exact Hpool |].
    apply (comment_pool_tiers level comment Hlevel Hpool).
  - intros Hexc c Hc. rewrite (Hpresent c Hc).
    unfold cell in Hcomfort. rewrite Hexc in Hcomfort.
    destruct Hcomfort as [Hf | Hf]; [| discriminate].
    injection Hf as Hf.
    apply (comment_pool_tiers level comment Hlevel Hpool).
    rewrite <- Hf. left. reflexivity.
Qed.

Lemma comment_pool_follows_comfort_level_witness :
  vehicle_table example_vehicles
  /\ exists df_feedback s',
      generate_customer_feedback example_vehicles example_rng
      = (Ok df_feedback, s')
      /\ List.length (rows df_feedback) = 600%nat
      /\ forall j r,
          nth_error (rows df_feedback) j = Some r ->
          exists earlier s_j vehicle comfort_level s1,
            feedback_passes example_vehicles (Z.of_nat j) example_rng
            = (Ok earlier, s_j)
            /\ fst (feedback example_vehicles (Z.of_nat j) s_j) = Ok r
            /\ feedback_draws example_vehicles s_j
               = (Ok (vehicle, comfort_level), s1)
            /\ fst (feedback_dict (Z.of_nat j) vehicle comfort_level s1)
               = Ok r
            /\ In comfort_level comfort_levels
            /\ nullable (VStr comfort_level) (cell r "Comfort Level")
            /\ (forall comment,
                   dict_get r "Comment" = Some (VStr comment) ->
                   In comment (comment_pool comfort_level)
                   /\ (In comfort_level [ "Excellent"; "Very Good" ] ->
                       In comment comments_positive)
                   /\ (In comfort_level [ "Good"; "Fair" ] ->
                       In comment comments_neutral)
                   /\ (In comfort_level [ "Very Poor"; "Poor" ] ->
                       In comment comments_negative))
            /\ (dict_get r "Comfort Level" = Some (VStr "Excellent") ->
                forall comment,
                  dict_get r "Comment" = Some (VStr comment) ->
                  In comment comments_positive).
Proof.
  assert (H : vehicle_table example_vehicles).
  { split; [discriminate |].
    intros v [<- | []]. exists "VEH0001". reflexivity. }
  split; [exact H |].
  apply (comment_pool_follows_comfort_level example_vehicles H
                                            example_rng).
Defined.

(** A pass whose comfort field is nulled keeps the comment of the drawn
    level: with a generator whose draws are all 2^50 the level drawn is
    Very Good, the comfort field is missing and the comment is a
    positive one. *)
Example comment_of_nulled_level :
  fst (feedback_draws example_vehicles (constant_rng (2 ^ 50)))
  = Ok ([ ("Vehicle ID", VStr "VEH0001");
          ("Vehicle Model", VStr "Cruiser B1") ], "Very Good")
  /\ exists r,
      fst (feedback example_vehicles 0 (constant_rng (2 ^ 50))) = Ok r
      /\ cell r "Comfort Level" = VNone
      /\ exists comment,
          cell r "Comment" = VStr comment
          /\ In comment comments_positive.
Proof.
  split; [vm_compute; reflexivity |].
  eexists. split; [vm_compute; reflexivity |].
  split; [reflexivity |].
  eexists. split; [reflexivity |]. left. reflexivity.
Qed.
